(** * WireGuard.js: the peer registry of wg-easy, embedded in Rocq

    The class [WireGuard] of [src/lib/WireGuard.js] keeps one cached
    configuration object ([this.__configPromise]), mutates it in place and
    writes it to [wg0.json] / [wg0.conf] after every change.  The embedding
    below follows the class method by method:

    - JavaScript values are kept dynamically typed ([jsval]); an object is
      the list of its own properties in enumeration order ([obj]), so a
      property that is missing reads as [undefined], exactly as in the code;
      the one read whose name the caller chooses, [config.clients[clientId]],
      follows the prototype chain of the map: a name that is no own key but
      a member of [Object.prototype] finds that member ([Object_prototype]);
    - every method is a computation in the monad [M], which threads the
      process state ([world]: the cached promise, both files, the log of
      external commands) and may throw ([exn]); effects that happened before
      a throw stay in the world, as in JavaScript.  Methods run one at a
      time, and [fs.writeFile] is taken to succeed;
    - what the class takes from outside (the constants of [../config], the
      helper [Util.exec], the system clock, [crypto.randomUUID], the npm
      package [ip], [Number], [Date] parsing and printing) is gathered in
      the records [Settings] and [Runtime]; theorems quantify over them, and
      the concrete runtime [Node.runtime] is used for the examples. *)

From Stdlib Require Import ZArith String Ascii List Bool Lia DecimalString.
Import ListNotations.
Open Scope string_scope.
Open Scope Z_scope.

Set Implicit Arguments.

(** ** JavaScript values *)

(** The values the registry stores in a property.  A number is an integer or
    [NaN] ([None]): the only numbers the class computes are byte counters and
    epoch milliseconds.  A [Date] object holds its time value, [None] for an
    Invalid Date. *)
Inductive jsval : Type :=
| JUndefined
| JNull
| JBool (b : bool)
| JNumber (n : option Z)
| JString (s : string)
| JDate (t : option Z).

(** [!!v] *)
Definition truthy (v : jsval) : bool :=
  match v with
  | JUndefined | JNull => false
  | JBool b => b
  | JNumber None => false
  | JNumber (Some n) => negb (n =? 0)
  | JString s => negb (String.eqb s "")
  | JDate _ => true
  end.

(** [a === b].  A [Date] object is [===] only to itself; every [===] and
    [!==] of the class has a string, [true] or [null] on one side, so a
    [Date] operand always compares unequal. *)
Definition strict_eq (a b : jsval) : bool :=
  match a, b with
  | JUndefined, JUndefined => true
  | JNull, JNull => true
  | JBool x, JBool y => Bool.eqb x y
  | JNumber (Some x), JNumber (Some y) => x =? y
  | JString x, JString y => String.eqb x y
  | _, _ => false
  end.

(** [a ?? b] *)
Definition nullish (a b : jsval) : jsval :=
  match a with
  | JUndefined | JNull => b
  | _ => a
  end.

Definition nl : string := String "010"%char EmptyString.
Definition tab : ascii := "009"%char.
Definition dquote : string := String "034"%char EmptyString.

Definition string_of_Z (z : Z) : string := NilZero.string_of_int (Z.to_int z).

(** ** Objects *)

(** An object: its own enumerable properties, in enumeration order. *)
Definition obj : Type := list (string * jsval).

(** [o.k] (or [o[k]]): [undefined] when [o] has no property [k]. *)
Fixpoint get (k : string) (o : obj) : jsval :=
  match o with
  | [] => JUndefined
  | (k', v) :: rest => if String.eqb k k' then v else get k rest
  end.

(** [o.k = v]: overwrites the property where it stands, or adds it last. *)
Fixpoint set (k : string) (v : jsval) (o : obj) : obj :=
  match o with
  | [] => [(k, v)]
  | (k', v') :: rest =>
      if String.eqb k k' then (k', v) :: rest else (k', v') :: set k v rest
  end.

(** [k in o] *)
Fixpoint has (k : string) (o : obj) : bool :=
  match o with
  | [] => false
  | (k', _) :: rest => String.eqb k k' || has k rest
  end.

(** The configuration object [{ server, clients }]; [clients] maps a client
    id to the client object and is kept in the order [Object.entries]
    enumerates it. *)
Record config : Type := {
  server : obj;
  clients : list (string * obj)
}.

(** The own property of the map [clients] under the key [clientId], if
    there is one. *)
Fixpoint lookup_client (clientId : string) (cs : list (string * obj)) : option obj :=
  match cs with
  | [] => None
  | (k, c) :: rest => if String.eqb clientId k then Some c else lookup_client clientId rest
  end.

(** In-place mutation of the object stored under [clientId]. *)
Fixpoint update_client (clientId : string) (f : obj -> obj) (cs : list (string * obj))
  : list (string * obj) :=
  match cs with
  | [] => []
  | (k, c) :: rest =>
      if String.eqb clientId k then (k, f c) :: rest
      else (k, c) :: update_client clientId f rest
  end.

(** [Object.values(o)] *)
Definition Object_values {A : Type} (o : list (string * A)) : list A := map snd o.

(** ** JSON documents *)

(** What [JSON.stringify] writes and [JSON.parse] reads back.  A file or a
    backup is kept as the document its text denotes, restricted to the shape
    of a configuration: two levels of objects with scalar leaves, the
    numbers being integers. *)
Inductive jsonval : Type :=
| JsonNull
| JsonBool (b : bool)
| JsonNumber (n : Z)
| JsonString (s : string).

Definition jsonobj : Type := list (string * jsonval).

Record snapshot_doc : Type := {
  doc_server : jsonobj;
  doc_clients : list (string * jsonobj)
}.

(** ** Exceptions *)

Inductive exn : Type :=
| Error (message : string)
| ReferenceError (message : string)
| TypeError (message : string)
| ServerError (message : string) (statusCode : Z).

Definition message_of (e : exn) : string :=
  match e with
  | Error m | ReferenceError m | TypeError m | ServerError m _ => m
  end.

(** ** What the class takes from outside *)

(** The result of [ip.cidrSubnet]: the two fields the class reads. *)
Record subnet : Type := {
  firstAddress : string;
  lastAddress : string
}.

(** The constants imported from [../config] that the modelled methods use. *)
Record Settings : Type := {
  WG_HOST : jsval;
  WG_PORT : jsval;
  WG_DEFAULT_ADDRESS : string;
  WG_PRE_UP : jsval;
  WG_POST_UP : jsval;
  WG_PRE_DOWN : jsval;
  WG_POST_DOWN : jsval;
  WG_ENABLE_EXPIRES_TIME : jsval;
  WG_ENABLE_ONE_TIME_LINKS : jsval
}.

(** A built-in object that ordinary objects inherit as a member of
    [Object.prototype] (a function such as [toString], or
    [Object.prototype] itself under [__proto__]): the scalar properties a
    reader finds on it, and what an assignment to a property of it throws
    in strict code, [None] when the assignment goes through. *)
Record builtin : Type := {
  properties : obj;
  put : string -> option exn
}.

(** Built-ins, libraries and the outside world.  [clock n] is what the
    [n]-th reading of the system clock returns, [shell n cmd] the outcome of
    [Util.exec(cmd)] when it is the [n]-th command run, [uuid n] the [n]-th
    value of [crypto.randomUUID()], [Object_prototype k] the member of
    [Object.prototype] named [k], if there is one. *)
Record Runtime : Type := {
  clock : nat -> Z;
  shell : nat -> string -> exn + string;
  uuid : nat -> string;
  Object_prototype : string -> option builtin;
  ip_cidrSubnet : string -> exn + subnet;
  ip_toLong : string -> Z;
  ip_fromLong : Z -> string;
  Number_of_string : string -> option Z;
  Date_parse : string -> option Z;
  Date_toISOString : Z -> string;
  Date_toString : option Z -> string;
  Date_setHours : Z -> Z -> Z;
  Date_setMinutes : Z -> Z -> Z;
  Date_setSeconds : Z -> Z -> Z
}.

(** ** The process state *)

Record world : Type := {
  configPromise : option (exn + config);   (* this.__configPromise *)
  wg0_json : option snapshot_doc;          (* WG_PATH/wg0.json *)
  wg0_conf : option string;                (* WG_PATH/wg0.conf *)
  fs_writes : list string;                 (* fs.writeFile calls, latest first *)
  execs : list string;                     (* Util.exec calls, latest first *)
  clock_reads : nat;
  uuids_drawn : nat
}.

Definition with_promise (p : option (exn + config)) (w : world) : world :=
  {| configPromise := p; wg0_json := wg0_json w; wg0_conf := wg0_conf w;
     fs_writes := fs_writes w; execs := execs w; clock_reads := clock_reads w;
     uuids_drawn := uuids_drawn w |}.

(** ** The monad of methods *)

Definition M (A : Type) : Type := world -> (exn + A) * world.

Definition ret {A : Type} (a : A) : M A := fun w => (inr a, w).

Definition throw {A : Type} (e : exn) : M A := fun w => (inl e, w).

Definition bind {A B : Type} (m : M A) (k : A -> M B) : M B :=
  fun w =>
    match m w with
    | (inl e, w') => (inl e, w')
    | (inr a, w') => k a w'
    end.

(** [try { m } catch (err) { h err }] and [m.catch(h)] *)
Definition catch {A : Type} (m : M A) (h : exn -> M A) : M A :=
  fun w =>
    match m w with
    | (inl e, w') => h e w'
    | (inr a, w') => (inr a, w')
    end.

Declare Scope js_scope.
Delimit Scope js_scope with js.
Notation "x <- m ;; k" := (bind m (fun x => k))
  (at level 61, m at next level, right associativity) : js_scope.
Notation "m ;;; k" := (bind m (fun _ => k))
  (at level 61, right associativity) : js_scope.
Open Scope js_scope.

(** ** Strings *)

(** [hay.includes(needle)] *)
Fixpoint includes (needle hay : string) : bool :=
  String.prefix needle hay ||
  match hay with
  | EmptyString => false
  | String _ rest => includes needle rest
  end.

(** [s.split(sep)] for a one-character separator; [cur] is the piece being
    read.  The result always has at least one piece. *)
Fixpoint split_from (sep : ascii) (cur : string) (s : string) : list string :=
  match s with
  | EmptyString => [cur]
  | String c rest =>
      if Ascii.eqb c sep then cur :: split_from sep EmptyString rest
      else split_from sep (cur ++ String c EmptyString) rest
  end.

Definition split (sep : ascii) (s : string) : list string :=
  split_from sep EmptyString s.

(** The white space and line terminators below U+0080 that [trim] strips. *)
Definition is_space (c : ascii) : bool :=
  let n := nat_of_ascii c in
  ((9 <=? n)%nat && (n <=? 13)%nat) || (n =? 32)%nat.

Fixpoint trimStart (s : string) : string :=
  match s with
  | EmptyString => EmptyString
  | String c rest => if is_space c then trimStart rest else s
  end.

Fixpoint trimEnd (s : string) : string :=
  match s with
  | EmptyString => EmptyString
  | String c rest =>
      match trimEnd rest with
      | EmptyString => if is_space c then EmptyString else String c EmptyString
      | t => String c t
      end
  end.

Definition trim (s : string) : string := trimEnd (trimStart s).

(** Array destructuring: the [i]-th element, [undefined] past the end. *)
Definition element (i : nat) (l : list string) : jsval :=
  match nth_error l i with
  | Some s => JString s
  | None => JUndefined
  end.

(** ** World updates *)

Definition tick (w : world) : world :=
  {| configPromise := configPromise w; wg0_json := wg0_json w; wg0_conf := wg0_conf w;
     fs_writes := fs_writes w; execs := execs w; clock_reads := S (clock_reads w);
     uuids_drawn := uuids_drawn w |}.

Definition log_exec (cmd : string) (w : world) : world :=
  {| configPromise := configPromise w; wg0_json := wg0_json w; wg0_conf := wg0_conf w;
     fs_writes := fs_writes w; execs := cmd :: execs w; clock_reads := clock_reads w;
     uuids_drawn := uuids_drawn w |}.

Definition put_json (d : snapshot_doc) (w : world) : world :=
  {| configPromise := configPromise w; wg0_json := Some d; wg0_conf := wg0_conf w;
     fs_writes := "wg0.json" :: fs_writes w; execs := execs w;
     clock_reads := clock_reads w; uuids_drawn := uuids_drawn w |}.

Definition put_conf (s : string) (w : world) : world :=
  {| configPromise := configPromise w; wg0_json := wg0_json w; wg0_conf := Some s;
     fs_writes := "wg0.conf" :: fs_writes w; execs := execs w;
     clock_reads := clock_reads w; uuids_drawn := uuids_drawn w |}.

Definition draw_uuid (w : world) : world :=
  {| configPromise := configPromise w; wg0_json := wg0_json w; wg0_conf := wg0_conf w;
     fs_writes := fs_writes w; execs := execs w; clock_reads := clock_reads w;
     uuids_drawn := S (uuids_drawn w) |}.

(** [config.clients[id] = client] *)
Fixpoint set_client (id : string) (client : obj) (cs : list (string * obj))
  : list (string * obj) :=
  match cs with
  | [] => [(id, client)]
  | (k, c) :: rest =>
      if String.eqb id k then (k, client) :: rest else (k, c) :: set_client id client rest
  end.

(** Reading an identifier that no enclosing scope declares.  In
    [createClient] the names bound are [name], [expiredDate], [config],
    [privateKey], [publicKey], [preSharedKey], [cidr], [address], [i],
    [currentIp] and [client]; the module binds its imports and the [WG_*]
    constants; the file is in strict mode and the runtime has no global of
    that name. *)
Definition unbound {A : Type} (x : string) : exn + A :=
  inl (ReferenceError (x ++ " is not defined")).

(** ** The class *)

Section WireGuard.

Variable env : Settings.
Variable rt : Runtime.

(** *** Built-ins *)

(** [`${v}`] *)
Definition toStr (v : jsval) : string :=
  match v with
  | JUndefined => "undefined"
  | JNull => "null"
  | JBool true => "true"
  | JBool false => "false"
  | JNumber None => "NaN"
  | JNumber (Some n) => string_of_Z n
  | JString s => s
  | JDate t => Date_toString rt t
  end.

(** [Number(v)] *)
Definition Number (v : jsval) : option Z :=
  match v with
  | JUndefined => None
  | JNull => Some 0
  | JBool true => Some 1
  | JBool false => Some 0
  | JNumber n => n
  | JString s => Number_of_string rt s
  | JDate t => t
  end.

(** The time value of [new Date(v)]. *)
Definition Date_of (v : jsval) : option Z :=
  match v with
  | JUndefined => None
  | JString s => Date_parse rt s
  | _ => Number v
  end.

(** [a > b] on two [Date] objects: false as soon as one is invalid. *)
Definition date_gt (a b : option Z) : bool :=
  match a, b with
  | Some x, Some y => y <? x
  | _, _ => false
  end.

(** [new Date()] *)
Definition new_Date : M (option Z) :=
  fun w => (inr (Some (clock rt (clock_reads w))), tick w).

(** [Date.now()] *)
Definition Date_now : M Z :=
  fun w => (inr (clock rt (clock_reads w)), tick w).

(** [crypto.randomUUID()] *)
Definition randomUUID : M string :=
  fun w => (inr (uuid rt (uuids_drawn w)), draw_uuid w).

(** [Util.exec(cmd)] *)
Definition exec (cmd : string) : M string :=
  fun w =>
    match shell rt (length (execs w)) cmd with
    | inl e => (inl e, log_exec cmd w)
    | inr out => (inr out, log_exec cmd w)
    end.

(** [fs.readFile(path.join(WG_PATH, 'wg0.json'), 'utf8')] followed by
    [JSON.parse]: a file that is absent or is not a configuration document
    makes one of the two throw. *)
Definition readFile_wg0_json : M snapshot_doc :=
  fun w =>
    match wg0_json w with
    | Some d => (inr d, w)
    | None => (inl (Error "ENOENT: no such file or directory"), w)
    end.

Definition writeFile_wg0_json (d : snapshot_doc) : M unit :=
  fun w => (inr tt, put_json d w).

Definition writeFile_wg0_conf (s : string) : M unit :=
  fun w => (inr tt, put_conf s w).

(** *** JSON *)

(** The JSON form of a property value; [None] when [JSON.stringify] leaves
    the property out. *)
Definition json_of (v : jsval) : option jsonval :=
  match v with
  | JUndefined => None
  | JNull => Some JsonNull
  | JBool b => Some (JsonBool b)
  | JNumber None => Some JsonNull
  | JNumber (Some n) => Some (JsonNumber n)
  | JString s => Some (JsonString s)
  | JDate None => Some JsonNull
  | JDate (Some t) => Some (JsonString (Date_toISOString rt t))
  end.

Fixpoint stringify_obj (o : obj) : jsonobj :=
  match o with
  | [] => []
  | (k, v) :: rest =>
      match json_of v with
      | Some j => (k, j) :: stringify_obj rest
      | None => stringify_obj rest
      end
  end.

(** [JSON.stringify(config, ...)] *)
Definition JSON_stringify (c : config) : snapshot_doc :=
  {| doc_server := stringify_obj (server c);
     doc_clients := map (fun e => (fst e, stringify_obj (snd e))) (clients c) |}.

Definition value_of (j : jsonval) : jsval :=
  match j with
  | JsonNull => JNull
  | JsonBool b => JBool b
  | JsonNumber n => JNumber (Some n)
  | JsonString s => JString s
  end.

Definition parse_obj (o : jsonobj) : obj := map (fun e => (fst e, value_of (snd e))) o.

(** [JSON.parse(text)] *)
Definition JSON_parse (d : snapshot_doc) : config :=
  {| server := parse_obj (doc_server d);
     clients := map (fun e => (fst e, parse_obj (snd e))) (doc_clients d) |}.

(** *** __buildConfig *)

(** The body of the promise: read [wg0.json], or generate a configuration
    when reading fails. *)
Definition buildConfig_body : M config :=
  if negb (truthy (WG_HOST env)) then
    throw (Error "WG_HOST Environment Variable Not Set!")
  else
    catch
      (doc <- readFile_wg0_json ;;
       ret (JSON_parse doc))
      (fun _ =>
         privateKey <- exec "wg genkey" ;;
         publicKey <- exec ("echo " ++ privateKey ++ " | wg pubkey") ;;
         match ip_cidrSubnet rt (WG_DEFAULT_ADDRESS env) with
         | inl e => throw e
         | inr cidr =>
             let firstAddress := firstAddress cidr in
             ret {| server := [("privateKey", JString privateKey);
                               ("publicKey", JString publicKey);
                               ("firstAddress", JString firstAddress)];
                    clients := [] |}
         end).

(** [this.__configPromise] is set to the promise of the body, settled or
    rejected; the method returns (awaits) the same promise. *)
Definition __buildConfig : M config :=
  fun w =>
    let (r, w') := buildConfig_body w in
    (r, with_promise (Some r) w').

(** *** __saveConfig *)

Definition interface_block (server : obj) : string :=
  nl ++ "# Note: Do not edit this file directly." ++ nl ++
  "# Your changes will be overwritten!" ++ nl ++
  nl ++
  "# Server" ++ nl ++
  "[Interface]" ++ nl ++
  "PrivateKey = " ++ toStr (get "privateKey" server) ++ nl ++
  "Address = " ++ toStr (get "address" server) ++ nl ++
  "ListenPort = " ++ toStr (WG_PORT env) ++ nl ++
  "PreUp = " ++ toStr (WG_PRE_UP env) ++ nl ++
  "PostUp = " ++ toStr (WG_POST_UP env) ++ nl ++
  "PreDown = " ++ toStr (WG_PRE_DOWN env) ++ nl ++
  "PostDown = " ++ toStr (WG_POST_DOWN env) ++ nl.

(** The text one iteration of the loop appends for an enabled client. *)
Definition peer_block (clientId : string) (client : obj) : string :=
  nl ++ nl ++
  "# Client: " ++ toStr (get "name" client) ++ " (" ++ clientId ++ ")" ++ nl ++
  "[Peer]" ++ nl ++
  "PublicKey = " ++ toStr (get "publicKey" client) ++ nl ++
  (if truthy (get "preSharedKey" client)
   then "PresharedKey = " ++ toStr (get "preSharedKey" client) ++ nl
   else "") ++
  "AllowedIPs = " ++ toStr (get "address" client) ++ "/32".

(** The [for ... of Object.entries(config.clients)] loop, [result] being
    the text built so far. *)
Fixpoint render_clients (entries : list (string * obj)) (result : string) : string :=
  match entries with
  | [] => result
  | (clientId, client) :: rest =>
      if negb (truthy (get "enabled" client)) then render_clients rest result
      else render_clients rest (result ++ peer_block clientId client)
  end.

Definition render (c : config) : string :=
  render_clients (clients c) (interface_block (server c)).

Definition __saveConfig (c : config) : M unit :=
  let result := render c in
  writeFile_wg0_json (JSON_stringify c) ;;;
  writeFile_wg0_conf result.

(** *** __syncConfig, getConfig, saveConfig *)

Definition __syncConfig : M unit :=
  exec "wg syncconf wg0 <(wg-quick strip wg0)" ;;;
  ret tt.

Definition no_device : string := "Cannot find device " ++ dquote ++ "wg0" ++ dquote.

Definition no_kernel_support : string :=
  "WireGuard exited with the error: " ++ no_device ++ nl ++
  "This usually means that your host's kernel does not support WireGuard!".

(** On the first call the configuration is built, saved, the interface is
    cycled and the daemon synchronised; the promise then holds the object
    [config] just built, which is what the final
    [return this.__configPromise] yields.  Later calls return the promise
    as it is, rejected or not. *)
Definition getConfig : M config :=
  fun w =>
    match configPromise w with
    | Some (inl e) => (inl e, w)
    | Some (inr c) => (inr c, w)
    | None =>
        (config <- __buildConfig ;;
         __saveConfig config ;;;
         catch (exec "wg-quick down wg0" ;;; ret tt) (fun _ => ret tt) ;;;
         catch (exec "wg-quick up wg0" ;;; ret tt)
           (fun err =>
              if includes no_device (message_of err)
              then throw (Error no_kernel_support)
              else throw err) ;;;
         __syncConfig ;;;
         ret config) w
    end.

Definition saveConfig : M unit :=
  config <- getConfig ;;
  __saveConfig config ;;;
  __syncConfig.

(** The objects handed out by [getConfig] and [getClient] are the cached
    ones: an assignment to a property of a client is an update of the
    cache. *)
Definition mutate_clients (f : list (string * obj) -> list (string * obj)) : M unit :=
  fun w =>
    match configPromise w with
    | Some (inr c) =>
        (inr tt, with_promise (Some (inr {| server := server c; clients := f (clients c) |})) w)
    | _ => (inr tt, w)
    end.

(** [client.k = v] for the object [getClient] found under [clientId].
    When [clientId] is an own key of the map this is the cached client.
    Otherwise it is the built-in the map inherits under that name, which is
    no part of the configuration: the assignment throws or goes through as
    the built-in has it, and the cache is as it was (what the built-in then
    holds is not kept here). *)
Definition assign (clientId k : string) (v : jsval) : M unit :=
  fun w =>
    match configPromise w with
    | Some (inr c) =>
        match lookup_client clientId (clients c) with
        | Some _ => mutate_clients (update_client clientId (set k v)) w
        | None =>
            match Object_prototype rt clientId with
            | Some inherited =>
                match put inherited k with
                | Some e => (inl e, w)
                | None => (inr tt, w)
                end
            | None => (inr tt, w)
            end
        end
    | _ => (inr tt, w)
    end.

Definition lift {A : Type} (r : exn + A) : M A :=
  match r with
  | inl e => throw e
  | inr a => ret a
  end.

(** *** getClients *)

Definition client_view (entry : string * obj) : obj :=
  let (clientId, client) := entry in
  [("id", JString clientId);
   ("name", get "name" client);
   ("enabled", get "enabled" client);
   ("address", get "address" client);
   ("publicKey", get "publicKey" client);
   ("createdAt", JDate (Date_of (get "createdAt" client)));
   ("updatedAt", JDate (Date_of (get "updatedAt" client)));
   ("expiredAt", if negb (strict_eq (get "expiredAt" client) JNull)
                 then JDate (Date_of (get "expiredAt" client))
                 else JNull);
   ("allowedIPs", get "allowedIPs" client);
   ("oneTimeLink", nullish (get "oneTimeLink" client) JNull);
   ("oneTimeLinkExpiresAt", nullish (get "oneTimeLinkExpiresAt" client) JNull);
   ("downloadableConfig", JBool (has "privateKey" client));
   ("persistentKeepalive", JNull);
   ("latestHandshakeAt", JNull);
   ("transferRx", JNull);
   ("transferTx", JNull);
   ("endpoint", JNull)].

(** [const client = clients.find(p); if (!client) return; ...]: the first
    element that satisfies [p] is mutated, the array is left alone when
    there is none. *)
Fixpoint update_first (p : obj -> bool) (f : obj -> obj) (l : list obj) : list obj :=
  match l with
  | [] => []
  | c :: rest => if p c then f c :: rest else c :: update_first p f rest
  end.

(** The five assignments the callback makes on the client it found. *)
Definition set_live (endpoint latestHandshakeAt transferRx transferTx persistentKeepalive : jsval)
    (client : obj) : obj :=
  let client :=
    set "latestHandshakeAt"
      (if strict_eq latestHandshakeAt (JString "0") then JNull
       else JDate (Number (JString (toStr latestHandshakeAt ++ "000"))))
      client in
  let client :=
    set "endpoint" (if strict_eq endpoint (JString "(none)") then JNull else endpoint) client in
  let client := set "transferRx" (JNumber (Number transferRx)) client in
  let client := set "transferTx" (JNumber (Number transferTx)) client in
  set "persistentKeepalive" persistentKeepalive client.

(** The callback of [forEach] on one line of the dump. *)
Definition merge_line (views : list obj) (line : string) : list obj :=
  let fields := split tab line in
  let publicKey := element 0 fields in
  let endpoint := element 2 fields in
  let latestHandshakeAt := element 4 fields in
  let transferRx := element 5 fields in
  let transferTx := element 6 fields in
  let persistentKeepalive := element 7 fields in
  update_first (fun client => strict_eq (get "publicKey" client) publicKey)
    (set_live endpoint latestHandshakeAt transferRx transferTx persistentKeepalive)
    views.

(** [dump.trim().split('\n').slice(1)] *)
Definition dump_records (dump : string) : list string :=
  skipn 1 (split "010"%char (trim dump)).

Definition getClients : M (list obj) :=
  config <- getConfig ;;
  let views := map client_view (clients config) in
  dump <- exec "wg show wg0 dump" ;;
  ret (fold_left merge_line (dump_records dump) views).

(** *** getClient *)

(** [config.clients[clientId]] is a read through the prototype chain: the
    own entry of the map when there is one, else the member of
    [Object.prototype] of that name, which is an object or a function and
    so passes the test [!client]. *)
Definition getClient (clientId : string) : M obj :=
  config <- getConfig ;;
  match lookup_client clientId (clients config) with
  | Some client => ret client
  | None =>
      match Object_prototype rt clientId with
      | Some inherited => ret (properties inherited)
      | None => throw (ServerError ("Client Not Found: " ++ clientId) 404)
      end
  end.

(** *** createClient *)

(** The loop that looks for the next address: [i] runs from
    [toLong(firstAddress) + 1] while [i <= toLong(lastAddress) - 1], [n]
    bounds the iterations left, and [pool] is what the expression inside
    [Object.values(...)] evaluates to in each iteration.  The result is the
    final value of [address]. *)
Fixpoint nextIP (pool : exn + list (string * obj)) (i : Z) (n : nat) : exn + jsval :=
  match n with
  | O => inr JUndefined
  | S n' =>
      let currentIp := ip_fromLong rt i in
      match pool with
      | inl e => inl e
      | inr clients =>
          match find (fun client => strict_eq (get "address" client) (JString currentIp))
                     (Object_values clients) with
          | None => inr (JString currentIp)
          | Some _ => nextIP pool (i + 1) n'
          end
      end
  end.

(** [setHours(23); setMinutes(59); setSeconds(59)] on a [Date]; an Invalid
    Date stays invalid. *)
Definition end_of_day (t : option Z) : option Z :=
  match t with
  | None => None
  | Some t =>
      Some (Date_setSeconds rt (Date_setMinutes rt (Date_setHours rt t 23) 59) 59)
  end.

Definition createClient (name expiredDate : jsval) : M obj :=
  if negb (truthy name) then throw (Error "Missing: Name")
  else
    config <- getConfig ;;
    privateKey <- exec "wg genkey" ;;
    publicKey <- exec ("echo " ++ privateKey ++ " | wg pubkey") ;;
    preSharedKey <- exec "wg genpsk" ;;
    cidr <- lift (ip_cidrSubnet rt (WG_DEFAULT_ADDRESS env)) ;;
    let first := ip_toLong rt (firstAddress cidr) + 1 in
    let last := ip_toLong rt (lastAddress cidr) - 1 in
    address <- lift (nextIP (unbound "clients") first (Z.to_nat (last - first + 1))) ;;
    if negb (truthy address) then throw (Error "Maximum number of clients reached.")
    else
      id <- randomUUID ;;
      createdAt <- new_Date ;;
      updatedAt <- new_Date ;;
      let client : obj :=
        [("id", JString id);
         ("name", name);
         ("address", address);
         ("privateKey", JString privateKey);
         ("publicKey", JString publicKey);
         ("preSharedKey", JString preSharedKey);
         ("createdAt", JDate createdAt);
         ("updatedAt", JDate updatedAt);
         ("expiredAt", JNull);
         ("enabled", JBool true)] in
      let client :=
        if truthy expiredDate
        then set "expiredAt" (JDate (end_of_day (Date_of expiredDate))) client
        else client in
      mutate_clients (set_client id client) ;;;
      saveConfig ;;;
      ret client.

(** *** enableClient, disableClient, eraseOneTimeLink, updateClientName *)

Definition enableClient (clientId : string) : M unit :=
  client <- getClient clientId ;;
  assign clientId "enabled" (JBool true) ;;;
  now <- new_Date ;;
  assign clientId "updatedAt" (JDate now) ;;;
  saveConfig.

Definition eraseOneTimeLink (clientId : string) : M unit :=
  client <- getClient clientId ;;
  (* client.oneTimeLink = null;   -- commented out in the source *)
  now <- Date_now ;;
  assign clientId "oneTimeLinkExpiresAt" (JDate (Some (now + 10 * 1000))) ;;;
  stamp <- new_Date ;;
  assign clientId "updatedAt" (JDate stamp) ;;;
  saveConfig.

Definition disableClient (clientId : string) : M unit :=
  client <- getClient clientId ;;
  assign clientId "enabled" (JBool false) ;;;
  now <- new_Date ;;
  assign clientId "updatedAt" (JDate now) ;;;
  saveConfig.

Definition updateClientName (clientId : string) (name : jsval) : M unit :=
  client <- getClient clientId ;;
  assign clientId "name" name ;;;
  now <- new_Date ;;
  assign clientId "updatedAt" (JDate now) ;;;
  saveConfig.

(** *** restoreConfiguration, backupConfiguration *)

Definition __reloadConfig : M unit :=
  __buildConfig ;;;
  __syncConfig.

(** The argument is the document the raw text denotes: a text that is not
    JSON makes [JSON.parse] throw before anything is written. *)
Definition restoreConfiguration (text : snapshot_doc) : M unit :=
  let _config := JSON_parse text in
  __saveConfig _config ;;;
  __reloadConfig.

Definition backupConfiguration : M snapshot_doc :=
  config <- getConfig ;;
  ret (JSON_stringify config).

(** *** cronJobEveryMinute *)

(** The body of the first loop; the boolean tells whether [needSaveConfig]
    was set. *)
Definition expire_client (client : obj) : M (bool * obj) :=
  if negb (strict_eq (get "enabled" client) (JBool true)) then ret (false, client)
  else if negb (strict_eq (get "expiredAt" client) JNull) then
    now <- new_Date ;;
    if date_gt now (Date_of (get "expiredAt" client)) then
      stamp <- new_Date ;;
      ret (true, set "updatedAt" (JDate stamp) (set "enabled" (JBool false) client))
    else ret (false, client)
  else ret (false, client).

(** The body of the second loop. *)
Definition expire_link (client : obj) : M (bool * obj) :=
  if negb (strict_eq (get "oneTimeLink" client) JNull) then
    now <- new_Date ;;
    if date_gt now (Date_of (get "oneTimeLinkExpiresAt" client)) then
      stamp <- new_Date ;;
      ret (true,
           set "updatedAt" (JDate stamp)
             (set "oneTimeLinkExpiresAt" JNull (set "oneTimeLink" JNull client)))
    else ret (false, client)
  else ret (false, client).

(** [for (const client of Object.values(config.clients)) body]: every
    client object is visited once, in order, and mutated where it stands. *)
Fixpoint for_each_client (body : obj -> M (bool * obj)) (cs : list (string * obj))
  : M (bool * list (string * obj)) :=
  match cs with
  | [] => ret (false, [])
  | (k, c) :: rest =>
      r <- body c ;;
      rs <- for_each_client body rest ;;
      ret (fst r || fst rs, (k, snd r) :: snd rs)
  end.

Definition cronJobEveryMinute : M unit :=
  config <- getConfig ;;
  swept1 <- (if strict_eq (WG_ENABLE_EXPIRES_TIME env) (JString "true")
             then for_each_client expire_client (clients config)
             else ret (false, clients config)) ;;
  swept2 <- (if strict_eq (WG_ENABLE_ONE_TIME_LINKS env) (JString "true")
             then for_each_client expire_link (snd swept1)
             else ret (false, snd swept1)) ;;
  mutate_clients (fun _ => snd swept2) ;;;
  let needSaveConfig := fst swept1 || fst swept2 in
  if needSaveConfig then saveConfig else ret tt.

End WireGuard.

(** ** A concrete runtime *)

(** The built-ins as Node.js provides them, for the inputs the examples
    use: the process runs in UTC, [Number] and [Date] parsing are exact on
    plain decimal integers and on the format [toISOString] writes (anything
    else is [NaN]), and the package [ip] is followed for IPv4. *)
Module Node.

Definition digit_of (c : ascii) : option Z :=
  let n := nat_of_ascii c in
  if ((48 <=? n)%nat && (n <=? 57)%nat)%bool then Some (Z.of_nat n - 48) else None.

Fixpoint digits_from (acc : Z) (s : string) : option Z :=
  match s with
  | EmptyString => Some acc
  | String c rest =>
      match digit_of c with
      | Some d => digits_from (10 * acc + d) rest
      | None => None
      end
  end.

(** A non-empty string of decimal digits. *)
Definition decimal (s : string) : option Z :=
  match s with
  | EmptyString => None
  | _ => digits_from 0 s
  end.

Definition Number_of_string (s : string) : option Z :=
  match trim s with
  | EmptyString => Some 0
  | t => decimal t
  end.

(** [n] written with at least [width] digits. *)
Definition pad (width : nat) (n : Z) : string :=
  let s := string_of_Z n in
  String.concat "" (repeat "0" (width - String.length s)) ++ s.

(** *** Dates *)

Definition msPerDay : Z := 86400000.

(** Year, month (1..12) and day of the month of a day number since
    1970-01-01. *)
Definition civil_of_days (days : Z) : Z * Z * Z :=
  let z := days + 719468 in
  let era := z / 146097 in
  let doe := z - era * 146097 in
  let yoe := (doe - doe / 1460 + doe / 36524 - doe / 146096) / 365 in
  let doy := doe - (365 * yoe + yoe / 4 - yoe / 100) in
  let mp := (5 * doy + 2) / 153 in
  let d := doy - (153 * mp + 2) / 5 + 1 in
  let m := if mp <? 10 then mp + 3 else mp - 9 in
  let y := yoe + era * 400 + (if m <=? 2 then 1 else 0) in
  (y, m, d).

Definition days_of_civil (y m d : Z) : Z :=
  let y := if m <=? 2 then y - 1 else y in
  let era := y / 400 in
  let yoe := y - era * 400 in
  let doy := (153 * (if 2 <? m then m - 3 else m + 9) + 2) / 5 + d - 1 in
  let doe := yoe * 365 + yoe / 4 - yoe / 100 + doy in
  era * 146097 + doe - 719468.

Definition year_string (y : Z) : string :=
  if (0 <=? y) && (y <=? 9999) then pad 4 y
  else if y <? 0 then "-" ++ pad 6 (- y)
  else "+" ++ pad 6 y.

Definition Date_toISOString (t : Z) : string :=
  let days := t / msPerDay in
  let ms := t mod msPerDay in
  let '(y, m, d) := civil_of_days days in
  year_string y ++ "-" ++ pad 2 m ++ "-" ++ pad 2 d ++ "T" ++
  pad 2 (ms / 3600000) ++ ":" ++ pad 2 (ms / 60000 mod 60) ++ ":" ++
  pad 2 (ms / 1000 mod 60) ++ "." ++ pad 3 (ms mod 1000) ++ "Z".

Definition field (start len : nat) (s : string) : option Z :=
  decimal (String.substring start len s).

(** Reads [YYYY-MM-DDTHH:mm:ss.sssZ]; the string is accepted when it is the
    ISO form of the instant read. *)
Definition Date_parse (s : string) : option Z :=
  match field 0 4 s, field 5 2 s, field 8 2 s,
        field 11 2 s, field 14 2 s, field 17 2 s, field 20 3 s with
  | Some y, Some m, Some d, Some hh, Some mm, Some ss, Some ms =>
      let t := days_of_civil y m d * msPerDay
               + hh * 3600000 + mm * 60000 + ss * 1000 + ms in
      if String.eqb (Date_toISOString t) s then Some t else None
  | _, _, _, _, _, _, _ => None
  end.

Definition day_name (n : Z) : string :=
  nth (Z.to_nat n) ["Sun"; "Mon"; "Tue"; "Wed"; "Thu"; "Fri"; "Sat"] "".

Definition month_name (m : Z) : string :=
  nth (Z.to_nat (m - 1))
    ["Jan"; "Feb"; "Mar"; "Apr"; "May"; "Jun"; "Jul"; "Aug"; "Sep"; "Oct"; "Nov"; "Dec"] "".

Definition Date_toString (t : option Z) : string :=
  match t with
  | None => "Invalid Date"
  | Some t =>
      let days := t / msPerDay in
      let ms := t mod msPerDay in
      let '(y, m, d) := civil_of_days days in
      day_name ((days + 4) mod 7) ++ " " ++ month_name m ++ " " ++ pad 2 d ++ " " ++
      (if y <? 0 then "-" ++ pad 6 (- y) else pad 4 y) ++ " " ++
      pad 2 (ms / 3600000) ++ ":" ++ pad 2 (ms / 60000 mod 60) ++ ":" ++
      pad 2 (ms / 1000 mod 60) ++ " GMT+0000 (Coordinated Universal Time)"
  end.

Definition Date_setHours (t h : Z) : Z := t - (t mod msPerDay / 3600000) * 3600000 + h * 3600000.
Definition Date_setMinutes (t m : Z) : Z := t - (t mod 3600000 / 60000) * 60000 + m * 60000.
Definition Date_setSeconds (t s : Z) : Z := t - (t mod 60000 / 1000) * 1000 + s * 1000.

(** *** The package [ip], IPv4 *)

Definition two32 : Z := 4294967296.

(** [ipl <<= 8; ipl += parseInt(octet)] over the octets, then [ipl >>> 0];
    [NaN] becomes 0 under a shift. *)
Definition ip_toLong (ip : string) : Z :=
  match fold_left
          (fun (ipl : option Z) (octet : string) =>
             let shifted := match ipl with Some n => (n * 256) mod two32 | None => 0 end in
             match decimal octet with
             | Some o => Some (shifted + o)
             | None => None
             end)
          (split "." ip) (Some 0) with
  | Some n => n mod two32
  | None => 0
  end.

Definition ip_fromLong (ipl : Z) : string :=
  let n := ipl mod two32 in
  string_of_Z (n / 16777216) ++ "." ++ string_of_Z (n / 65536 mod 256) ++ "." ++
  string_of_Z (n / 256 mod 256) ++ "." ++ string_of_Z (n mod 256).

(** [ip.cidrSubnet]: the first and last address are the network address
    plus one and the broadcast address minus one, except in a subnet of at
    most two addresses. *)
Definition ip_cidrSubnet (cidrString : string) : exn + subnet :=
  match split "/" cidrString with
  | [addr; prefix] =>
      match decimal prefix with
      | Some p =>
          if p <=? 32 then
            let numberOfAddresses := 2 ^ (32 - p) in
            let networkAddress := Z.land (ip_toLong addr) (two32 - numberOfAddresses) in
            inr (if numberOfAddresses <=? 2
                 then {| firstAddress := ip_fromLong networkAddress;
                         lastAddress := ip_fromLong (networkAddress + numberOfAddresses - 1) |}
                 else {| firstAddress := ip_fromLong (networkAddress + 1);
                         lastAddress := ip_fromLong (networkAddress + numberOfAddresses - 2) |})
          else inl (Error "prefix length above 32")
      | None => inl (Error "prefix length is not a number")
      end
  | addr :: _ => inl (Error ("invalid CIDR subnet: " ++ addr))
  | [] => inl (Error "invalid CIDR subnet: ")
  end.

(** *** The outside world *)

(** A clock that starts on 2023-11-14T22:13:20Z and advances by one second
    at every reading. *)
Definition clock (n : nat) : Z := 1700000000000 + 1000 * Z.of_nat n.

(** Every command succeeds; [wg show wg0 dump] prints [dump], the key
    commands print a key named after their position in the run, the others
    print nothing. *)
Definition shell (dump : string) (n : nat) (cmd : string) : exn + string :=
  if String.eqb cmd "wg show wg0 dump" then inr dump
  else if String.prefix "wg gen" cmd || String.prefix "echo " cmd
       then inr ("key" ++ string_of_Z (Z.of_nat n))
       else inr "".

Definition uuid (n : nat) : string := "uuid-" ++ string_of_Z (Z.of_nat n).

(** *** [Object.prototype] *)

(** The functions an ordinary object inherits, by the name of the member,
    with their [name] and [length]. *)
Definition prototype_functions : list (string * (string * Z)) :=
  [("constructor", ("Object", 1));
   ("__defineGetter__", ("__defineGetter__", 2));
   ("__defineSetter__", ("__defineSetter__", 2));
   ("hasOwnProperty", ("hasOwnProperty", 1));
   ("__lookupGetter__", ("__lookupGetter__", 1));
   ("__lookupSetter__", ("__lookupSetter__", 1));
   ("isPrototypeOf", ("isPrototypeOf", 1));
   ("propertyIsEnumerable", ("propertyIsEnumerable", 1));
   ("toString", ("toString", 0));
   ("valueOf", ("valueOf", 0));
   ("toLocaleString", ("toLocaleString", 0))].

(** A built-in function: [name] and [length] are read-only, so assigning
    to them throws in strict code; any other property can be added. *)
Definition function_object (name : string) (arity : Z) : builtin :=
  {| properties := [("length", JNumber (Some arity)); ("name", JString name)];
     put := fun k =>
              if String.eqb k "name" || String.eqb k "length"
              then Some (TypeError ("Cannot assign to read only property '" ++ k ++
                                    "' of function 'function " ++ name ++
                                    "() { [native code] }'"))
              else None |}.

Fixpoint member (k : string) (l : list (string * (string * Z))) : option (string * Z) :=
  match l with
  | [] => None
  | (k', f) :: rest => if String.eqb k k' then Some f else member k rest
  end.

(** [__proto__] reads as [Object.prototype] itself, the other names as the
    function of that name. *)
Definition Object_prototype (k : string) : option builtin :=
  if String.eqb k "__proto__" then Some {| properties := []; put := fun _ => None |}
  else match member k prototype_functions with
       | Some (name, arity) => Some (function_object name arity)
       | None => None
       end.

Definition runtime (dump : string) : Runtime :=
  Build_Runtime clock (shell dump) uuid Object_prototype ip_cidrSubnet ip_toLong ip_fromLong
    Number_of_string Date_parse Date_toISOString Date_toString
    Date_setHours Date_setMinutes Date_setSeconds.

(** The defaults of wg-easy for the constants of [../config]. *)
Definition settings (expires links : string) : Settings :=
  {| WG_HOST := JString "vpn.example.org";
     WG_PORT := JString "51820";
     WG_DEFAULT_ADDRESS := "10.8.0.0/24";
     WG_PRE_UP := JString "";
     WG_POST_UP := JString "iptables -A FORWARD -i wg0 -j ACCEPT";
     WG_PRE_DOWN := JString "";
     WG_POST_DOWN := JString "iptables -D FORWARD -i wg0 -j ACCEPT";
     WG_ENABLE_EXPIRES_TIME := JString expires;
     WG_ENABLE_ONE_TIME_LINKS := JString links |}.

(** A process that has not touched its configuration yet. *)
Definition boot (file : option snapshot_doc) : world :=
  {| configPromise := None; wg0_json := file; wg0_conf := None;
     fs_writes := []; execs := []; clock_reads := 0; uuids_drawn := 0 |}.

(** A process whose cache holds [c]. *)
Definition loaded (c : config) : world :=
  {| configPromise := Some (inr c); wg0_json := None; wg0_conf := None;
     fs_writes := []; execs := []; clock_reads := 0; uuids_drawn := 0 |}.

End Node.

(** ** Vocabulary of the statements *)

(** The client object the cache holds under [clientId], if the cache is
    loaded and has one. *)
Definition cached_client (clientId : string) (w : world) : option obj :=
  match configPromise w with
  | Some (inr c) => lookup_client clientId (clients c)
  | _ => None
  end.

Definition sync_command : string := "wg syncconf wg0 <(wg-quick strip wg0)".

(** What [__syncConfig] answers when it is the next command to run in [w]. *)
Definition sync_outcome (rt : Runtime) (w : world) : exn + unit :=
  match shell rt (length (execs w)) sync_command with
  | inl e => inl e
  | inr _ => inr tt
  end.

(** The world after [__saveConfig(c)] and [__syncConfig()]. *)
Definition persisted (env : Settings) (rt : Runtime) (c : config) (w : world) : world :=
  log_exec sync_command (put_conf (render env rt c) (put_json (JSON_stringify rt c) w)).

(** The configuration after [client.k = v; client.updatedAt = new Date()]
    on the client stored under [clientId], the clock reading [now]. *)
Definition touched (clientId k : string) (v : jsval) (now : Z) (c : config) : config :=
  {| server := server c;
     clients := update_client clientId
                  (fun o => set "updatedAt" (JDate (Some now)) (set k v o)) (clients c) |}.

(** The time value of the [updatedAt] the cache holds for [clientId]. *)
Definition updatedAt_of (rt : Runtime) (clientId : string) (w : world) : option Z :=
  match cached_client clientId w with
  | Some client => Date_of rt (get "updatedAt" client)
  | None => None
  end.

(** A caller that switches one client on and off. *)
Inductive toggle : Type := Enable | Disable.

Definition call (env : Settings) (rt : Runtime) (clientId : string) (t : toggle) : M unit :=
  match t with
  | Enable => enableClient env rt clientId
  | Disable => disableClient env rt clientId
  end.

(** The calls are made one after the other; the caller goes on whatever a
    call answers. *)
Fixpoint run_calls (env : Settings) (rt : Runtime) (clientId : string)
    (calls : list toggle) (w : world) : world :=
  match calls with
  | [] => w
  | t :: rest => run_calls env rt clientId rest (snd (call env rt clientId t w))
  end.

(** The value [enabled] holds after a call. *)
Definition switched (t : toggle) : jsval :=
  match t with
  | Enable => JBool true
  | Disable => JBool false
  end.

(** What a run of calls preserves: the cache stays loaded, the client keeps
    the properties of [client0] other than [enabled] and [updatedAt], and
    its stamp was read from the clock before now. *)
Definition toggling_invariant (rt : Runtime) (clientId : string) (client0 : obj) (w : world)
  : Prop :=
  exists client t,
    cached_client clientId w = Some client /\
    (forall k, k <> "enabled" -> k <> "updatedAt" -> get k client = get k client0) /\
    Date_of rt (get "updatedAt" client) = Some t /\
    t < clock rt (clock_reads w).

(** [w'] is [w] after some readings of the clock and nothing else. *)
Definition only_clock (w w' : world) : Prop :=
  configPromise w' = configPromise w /\
  wg0_json w' = wg0_json w /\
  wg0_conf w' = wg0_conf w /\
  fs_writes w' = fs_writes w /\
  execs w' = execs w /\
  uuids_drawn w' = uuids_drawn w /\
  (clock_reads w <= clock_reads w')%nat.

(** The test of the first loop of [cronJobEveryMinute] on one client, when
    its [new Date()] is the [n]-th reading of the clock, and the client it
    leaves when the test holds (the stamp is the next reading). *)
Definition expiry_due (rt : Runtime) (n : nat) (client : obj) : bool :=
  strict_eq (get "enabled" client) (JBool true) &&
  negb (strict_eq (get "expiredAt" client) JNull) &&
  date_gt (Some (clock rt n)) (Date_of rt (get "expiredAt" client)).

Definition expiry_applied (rt : Runtime) (n : nat) (client : obj) : obj :=
  set "updatedAt" (JDate (Some (clock rt (S n)))) (set "enabled" (JBool false) client).

(** The same for the second loop. *)
Definition link_due (rt : Runtime) (n : nat) (client : obj) : bool :=
  negb (strict_eq (get "oneTimeLink" client) JNull) &&
  date_gt (Some (clock rt n)) (Date_of rt (get "oneTimeLinkExpiresAt" client)).

Definition link_applied (rt : Runtime) (n : nat) (client : obj) : obj :=
  set "updatedAt" (JDate (Some (clock rt (S n))))
    (set "oneTimeLinkExpiresAt" JNull (set "oneTimeLink" JNull client)).

(** [swept due applied lo hi cs b cs']: one loop over the clients [cs]
    whose clock readings have indices between [lo] and [hi] leaves [cs'],
    and [b] tells whether the test held for some client. *)
Inductive swept (due : nat -> obj -> bool) (applied : nat -> obj -> obj) (lo hi : nat)
  : list (string * obj) -> bool -> list (string * obj) -> Prop :=
| swept_nil : swept due applied lo hi [] false []
| swept_cons (id : string) (client : obj) (rest rest' : list (string * obj))
    (b : bool) (n : nat) :
    (lo <= n)%nat -> (n <= hi)%nat ->
    (due n client = true -> (S n <= hi)%nat) ->
    swept due applied lo hi rest b rest' ->
    swept due applied lo hi ((id, client) :: rest) (due n client || b)
      ((id, if due n client then applied n client else client) :: rest').

(** The configuration after [eraseOneTimeLink(clientId)] when [Date.now()]
    read [now] and [new Date()] read [stamp]. *)
Definition link_shortened (clientId : string) (now stamp : Z) (c : config) : config :=
  {| server := server c;
     clients := update_client clientId
                  (fun o => set "updatedAt" (JDate (Some stamp))
                              (set "oneTimeLinkExpiresAt" (JDate (Some (now + 10 * 1000))) o))
                  (clients c) |}.

(** The public key a record of the dump starts with, and whether a view
    of [getClients] is the client the record is about. *)
Definition record_key (line : string) : jsval := element 0 (split tab line).

Definition matches (line : string) (view : obj) : bool :=
  strict_eq (get "publicKey" view) (record_key line).

(** The lines of a text, and the number of them that read [[Peer]]: the
    peer sections a reader of [wg0.conf] sees. *)
Definition lines (s : string) : list string := split "010"%char s.

Definition peer_sections (s : string) : nat := count_occ string_dec (lines s) "[Peer]".

(** No line feed in [s]. *)
Fixpoint one_line (s : string) : bool :=
  match s with
  | EmptyString => true
  | String c rest => negb (Ascii.eqb c "010"%char) && one_line rest
  end.

(** The loop of [__saveConfig] skips a client when [!client.enabled]. *)
Definition is_enabled (client : obj) : bool := truthy (get "enabled" client).

Definition enabled_entries (c : config) : list (string * obj) :=
  filter (fun entry => is_enabled (snd entry)) (clients c).

(** The id of a client and the four properties its block prints hold no
    line feed. *)
Definition printed_on_one_line (rt : Runtime) (entry : string * obj) : bool :=
  one_line (fst entry) &&
  one_line (toStr rt (get "name" (snd entry))) &&
  one_line (toStr rt (get "publicKey" (snd entry))) &&
  one_line (toStr rt (get "preSharedKey" (snd entry))) &&
  one_line (toStr rt (get "address" (snd entry))).

Definition join (l : list string) : string := fold_right append EmptyString l.

(** What a property value is once written by [JSON.stringify] and read
    back by [JSON.parse]: a [Date] comes back as its ISO string, an Invalid
    Date and [NaN] as [null]. *)
Definition read_back (rt : Runtime) (v : jsval) : jsval :=
  match v with
  | JDate (Some t) => JString (Date_toISOString rt t)
  | JDate None => JNull
  | JNumber None => JNull
  | _ => v
  end.

Definition is_undefined (v : jsval) : bool :=
  match v with
  | JUndefined => true
  | _ => false
  end.

(** An object after the round trip: properties that hold [undefined] are
    gone, the others are read back. *)
Definition obj_json_form (rt : Runtime) (o : obj) : obj :=
  map (fun p => (fst p, read_back rt (snd p)))
      (filter (fun p => negb (is_undefined (snd p))) o).

Definition json_form (rt : Runtime) (c : config) : config :=
  {| server := obj_json_form rt (server c);
     clients := map (fun entry => (fst entry, obj_json_form rt (snd entry))) (clients c) |}.

(** The values [JSON.parse] produces. *)
Definition plain_json (v : jsval) : bool :=
  match v with
  | JNull | JBool _ | JNumber (Some _) | JString _ => true
  | _ => false
  end.

Definition obj_in_json_form (o : obj) : bool := forallb (fun p => plain_json (snd p)) o.

Definition in_json_form (c : config) : bool :=
  obj_in_json_form (server c) && forallb (fun entry => obj_in_json_form (snd entry)) (clients c).

(** The configuration [__buildConfig] generates when [wg0.json] cannot be
    read. *)
Definition generated (privateKey publicKey : string) (cidr : subnet) : config :=
  {| server := [("privateKey", JString privateKey);
                ("publicKey", JString publicKey);
                ("firstAddress", JString (firstAddress cidr))];
     clients := [] |}.

(** No client of the map has [address]. *)
Definition free (rt : Runtime) (cs : list (string * obj)) (i : Z) : bool :=
  negb (existsb (fun client => strict_eq (get "address" client) (JString (ip_fromLong rt i)))
                (Object_values cs)).

(** ** The other methods of the class *)

(** The constants of [../config] that only [getClientConfiguration]
    reads. *)
Record ClientSettings : Type := {
  WG_CONFIG_PORT : jsval;
  WG_MTU : jsval;
  WG_DEFAULT_DNS : jsval;
  WG_PERSISTENT_KEEPALIVE : jsval;
  WG_ALLOWED_IPS : jsval
}.

(** Two more library functions: [ip.isV4Format] and [CRC32.str] (a signed
    32-bit integer). *)
Record Libraries : Type := {
  ip_isV4Format : string -> bool;
  CRC32_str : string -> Z
}.

(** [delete clients[clientId]]: a key occurs once in an object. *)
Definition remove_client (clientId : string) (cs : list (string * obj)) : list (string * obj) :=
  filter (fun entry => negb (String.eqb clientId (fst entry))) cs.

Definition hex_digit (d : Z) : string :=
  String.substring (Z.to_nat d) 1 "0123456789abcdef".

(** The digits of [n] in base 16, at most [fuel] of them after the first. *)
Fixpoint hex_from (fuel : nat) (n : Z) (acc : string) : string :=
  match fuel with
  | O => (hex_digit (n mod 16) ++ acc)%string
  | S fuel' =>
      if n <? 16 then (hex_digit n ++ acc)%string
      else hex_from fuel' (n / 16) (hex_digit (n mod 16) ++ acc)%string
  end.

(** [n.toString(16)] for an integer [0 <= n]. *)
Definition toString16 (n : Z) : string := hex_from (Z.to_nat (Z.log2 n)) n EmptyString.

Section WireGuardMore.

Variable env : Settings.
Variable cenv : ClientSettings.
Variable rt : Runtime.
Variable lib : Libraries.

(** *** getClientConfiguration *)

(** The template of [getClientConfiguration]; a backslash at the end of a
    line of the template joins it to the next. *)
Definition client_configuration (server client : obj) : string :=
  nl ++ "[Interface]" ++ nl ++
  "PrivateKey = " ++ (if truthy (get "privateKey" client)
                      then toStr rt (get "privateKey" client)
                      else "REPLACE_ME") ++ nl ++
  "Address = " ++ toStr rt (get "address" client) ++ nl ++
  (if truthy (WG_DEFAULT_DNS cenv)
   then "DNS = " ++ toStr rt (WG_DEFAULT_DNS cenv) ++ nl else "") ++
  (if truthy (WG_MTU cenv)
   then "MTU = " ++ toStr rt (WG_MTU cenv) ++ nl else "") ++
  nl ++ "[Peer]" ++ nl ++
  "PublicKey = " ++ toStr rt (get "publicKey" server) ++ nl ++
  (if truthy (get "preSharedKey" client)
   then "PresharedKey = " ++ toStr rt (get "preSharedKey" client) ++ nl
   else "") ++
  "AllowedIPs = " ++ toStr rt (WG_ALLOWED_IPS cenv) ++ nl ++
  "PersistentKeepalive = " ++ toStr rt (WG_PERSISTENT_KEEPALIVE cenv) ++ nl ++
  "Endpoint = " ++ toStr rt (WG_HOST env) ++ ":" ++ toStr rt (WG_CONFIG_PORT cenv).

Definition getClientConfiguration (clientId : string) : M string :=
  config <- getConfig env rt ;;
  client <- getClient env rt clientId ;;
  ret (client_configuration (server config) client).

(** *** deleteClient *)

(** The test [config.clients[clientId]] reads through the prototype chain
    as in [getClient]; [delete] removes an own property only. *)
Definition deleteClient (clientId : string) : M unit :=
  config <- getConfig env rt ;;
  match lookup_client clientId (clients config), Object_prototype rt clientId with
  | None, None => ret tt
  | _, _ =>
      mutate_clients (remove_client clientId) ;;;
      saveConfig env rt
  end.

(** *** generateOneTimeLink *)

(** [random] is the value [Math.floor(Math.random() * 1000)] takes in the
    call. *)
Definition generateOneTimeLink (clientId : string) (random : Z) : M unit :=
  client <- getClient env rt clientId ;;
  let key := clientId ++ "-" ++ string_of_Z random in
  assign rt clientId "oneTimeLink" (JString (toString16 (Z.abs (CRC32_str lib key)))) ;;;
  now <- Date_now rt ;;
  assign rt clientId "oneTimeLinkExpiresAt" (JDate (Some (now + 5 * 60 * 1000))) ;;;
  stamp <- new_Date rt ;;
  assign rt clientId "updatedAt" (JDate stamp) ;;;
  saveConfig env rt.

(** *** updateClientAddress, updateClientExpireDate *)

Definition updateClientAddress (clientId : string) (address : string) : M unit :=
  client <- getClient env rt clientId ;;
  if negb (ip_isV4Format lib address) then
    throw (ServerError ("Invalid Address: " ++ address) 400)
  else
    assign rt clientId "address" (JString address) ;;;
    now <- new_Date rt ;;
    assign rt clientId "updatedAt" (JDate now) ;;;
    saveConfig env rt.

Definition updateClientExpireDate (clientId : string) (expireDate : jsval) : M unit :=
  client <- getClient env rt clientId ;;
  assign rt clientId "expiredAt"
    (if truthy expireDate then JDate (end_of_day rt (Date_of rt expireDate)) else JNull) ;;;
  now <- new_Date rt ;;
  assign rt clientId "updatedAt" (JDate now) ;;;
  saveConfig env rt.

(** *** Shutdown *)

Definition Shutdown : M unit :=
  catch (exec rt "wg-quick down wg0" ;;; ret tt) (fun _ => ret tt).

(** *** getMetricsJSON *)

(** The three counters of the loop over the views. *)
Definition count_if (p : obj -> bool) (views : list obj) : Z :=
  Z.of_nat (List.length (filter p views)).

Definition getMetricsJSON : M obj :=
  views <- getClients env rt ;;
  let wireguardPeerCount := Z.of_nat (List.length views) in
  let wireguardEnabledPeersCount :=
    count_if (fun client => strict_eq (get "enabled" client) (JBool true)) views in
  let wireguardConnectedPeersCount :=
    count_if (fun client => negb (strict_eq (get "endpoint" client) JNull)) views in
  ret [("wireguard_configured_peers", JNumber (Some wireguardPeerCount));
       ("wireguard_enabled_peers", JNumber (Some wireguardEnabledPeersCount));
       ("wireguard_connected_peers", JNumber (Some wireguardConnectedPeersCount))].

End WireGuardMore.

(** ** The concrete libraries *)

Module NodeLib.

Definition is_digit (c : ascii) : bool :=
  let n := nat_of_ascii c in ((48 <=? n)%nat && (n <=? 57)%nat)%bool.

Fixpoint all_digits (s : string) : bool :=
  match s with
  | EmptyString => true
  | String c rest => is_digit c && all_digits rest
  end.

(** One to three digits. *)
Definition octet_format (s : string) : bool :=
  (1 <=? String.length s)%nat && (String.length s <=? 3)%nat && all_digits s.

(** [ip.isV4Format]: the regular expression [^(\d{1,3}\.){3,3}\d{1,3}$]. *)
Definition ip_isV4Format (s : string) : bool :=
  match split "." s with
  | [a; b; c; d] => octet_format a && octet_format b && octet_format c && octet_format d
  | _ => false
  end.

(** One step of the reflected CRC-32 polynomial on a 32-bit register. *)
Definition crc_shift (c : Z) : Z :=
  if Z.odd c then Z.lxor (Z.shiftr c 1) 3988292384 else Z.shiftr c 1.

Definition crc_byte (crc : Z) (b : ascii) : Z :=
  let c := Z.lxor crc (Z.of_nat (nat_of_ascii b)) in
  crc_shift (crc_shift (crc_shift (crc_shift (crc_shift (crc_shift (crc_shift (crc_shift c))))))).

Fixpoint crc_bytes (crc : Z) (s : string) : Z :=
  match s with
  | EmptyString => crc
  | String b rest => crc_bytes (crc_byte crc b) rest
  end.

(** [CRC32.str] on the bytes of the string, as a signed 32-bit integer. *)
Definition CRC32_str (s : string) : Z :=
  let u := Z.lxor (crc_bytes 4294967295 s) 4294967295 in
  if u <? 2147483648 then u else u - 4294967296.

Definition libraries : Libraries := Build_Libraries ip_isV4Format CRC32_str.

(** The defaults of wg-easy for the constants of the client
    configuration. *)
Definition client_settings : ClientSettings :=
  {| WG_CONFIG_PORT := JString "51820";
     WG_MTU := JNull;
     WG_DEFAULT_DNS := JString "1.1.1.1";
     WG_PERSISTENT_KEEPALIVE := JString "0";
     WG_ALLOWED_IPS := JString "0.0.0.0/0, ::/0" |}.

End NodeLib.

(** ** Vocabulary of the statements, continued *)

(** What one loop of [cronJobEveryMinute] makes of one client: nothing
    when the toggle of the loop is not the string ['true']; otherwise the
    test is made at a reading [n] of the clock between [lo] and [hi], and
    the client is changed when the test holds. *)
Definition loop_step (toggle : jsval) (due : nat -> obj -> bool) (applied : nat -> obj -> obj)
    (lo hi : nat) (client client' : obj) : Prop :=
  if strict_eq toggle (JString "true")
  then exists n, (lo <= n)%nat /\ (n <= hi)%nat /\
                 (due n client = true -> (S n <= hi)%nat) /\
                 client' = (if due n client then applied n client else client)
  else client' = client.

(** The configuration after [generateOneTimeLink(clientId)] stored [token],
    when [Date.now()] read [now] and [new Date()] read [stamp]. *)
Definition link_issued (clientId token : string) (now stamp : Z) (c : config) : config :=
  {| server := server c;
     clients := update_client clientId
                  (fun o => set "updatedAt" (JDate (Some stamp))
                              (set "oneTimeLinkExpiresAt" (JDate (Some (now + 5 * 60 * 1000)))
                                 (set "oneTimeLink" (JString token) o)))
                  (clients c) |}.

(** The token [generateOneTimeLink] derives from the id and the random
    draw. *)
Definition link_token (lib : Libraries) (clientId : string) (random : Z) : string :=
  toString16 (Z.abs (CRC32_str lib (clientId ++ "-" ++ string_of_Z random))).

(** The values [getClientConfiguration] prints hold no line feed. *)
Definition configuration_on_one_line (env : Settings) (cenv : ClientSettings) (rt : Runtime)
    (server client : obj) : bool :=
  one_line (toStr rt (get "privateKey" client)) &&
  one_line (toStr rt (get "address" client)) &&
  one_line (toStr rt (WG_DEFAULT_DNS cenv)) &&
  one_line (toStr rt (WG_MTU cenv)) &&
  one_line (toStr rt (get "publicKey" server)) &&
  one_line (toStr rt (get "preSharedKey" client)) &&
  one_line (toStr rt (WG_ALLOWED_IPS cenv)) &&
  one_line (toStr rt (WG_PERSISTENT_KEEPALIVE cenv)) &&
  one_line (toStr rt (WG_HOST env)) &&
  one_line (toStr rt (WG_CONFIG_PORT cenv)).

(** The properties of a view that [getClients] takes from the dump. *)
Definition live_key (k : string) : bool :=
  String.eqb k "latestHandshakeAt" || String.eqb k "endpoint" || String.eqb k "transferRx" ||
  String.eqb k "transferTx" || String.eqb k "persistentKeepalive".

(** [b] has the properties of [a], but for the live ones. *)
Definition same_registry_fields (a b : obj) : Prop :=
  forall k, live_key k = false -> get k b = get k a /\ has k b = has k a.

(** The two tests of the loop of [getMetricsJSON]. *)
Definition enabled_view (client : obj) : bool := strict_eq (get "enabled" client) (JBool true).
Definition connected_view (client : obj) : bool := negb (strict_eq (get "endpoint" client) JNull).





(** * Properties *)

Unset Implicit Arguments.

(** ** Objects and client maps *)

Lemma get_set_same (k : string) (v : jsval) (o : obj) : get k (set k v o) = v.
Proof.
  induction o as [|[k' v'] rest IH]; simpl.
  - now rewrite String.eqb_refl.
  - destruct (String.eqb k k') eqn:E; simpl; rewrite E; auto.
Qed.

Lemma get_set_other (k k' : string) (v : jsval) (o : obj) :
  k <> k' -> get k' (set k v o) = get k' o.
Proof.
  intros Hne. induction o as [|[k0 v0] rest IH]; simpl.
  - destruct (String.eqb k' k) eqn:E; auto.
    apply String.eqb_eq in E. congruence.
  - destruct (String.eqb k k0) eqn:E; simpl.
    + apply String.eqb_eq in E. subst k0.
      destruct (String.eqb k' k) eqn:E'; auto.
      apply String.eqb_eq in E'. congruence.
    + now rewrite IH.
Qed.

Lemma lookup_update_same (id : string) (f : obj -> obj) (cs : list (string * obj)) (c : obj) :
  lookup_client id cs = Some c ->
  lookup_client id (update_client id f cs) = Some (f c).
Proof.
  induction cs as [|[k c0] rest IH]; simpl; [discriminate|].
  destruct (String.eqb id k) eqn:E; simpl; rewrite E; auto.
  now intros [= ->].
Qed.

Lemma lookup_update_other (id id' : string) (f : obj -> obj) (cs : list (string * obj)) :
  id <> id' ->
  lookup_client id' (update_client id f cs) = lookup_client id' cs.
Proof.
  intros Hne. induction cs as [|[k c0] rest IH]; simpl; auto.
  destruct (String.eqb id k) eqn:E; simpl.
  - apply String.eqb_eq in E. subst k.
    destruct (String.eqb id' id) eqn:E'; auto.
    apply String.eqb_eq in E'. congruence.
  - now rewrite IH.
Qed.

Lemma update_update (id : string) (f g : obj -> obj) (cs : list (string * obj)) :
  update_client id g (update_client id f cs) = update_client id (fun o => g (f o)) cs.
Proof.
  induction cs as [|[k c0] rest IH]; simpl; auto.
  destruct (String.eqb id k) eqn:E; simpl; rewrite E; auto.
  now rewrite IH.
Qed.

Lemma update_keys (id : string) (f : obj -> obj) (cs : list (string * obj)) :
  map fst (update_client id f cs) = map fst cs.
Proof.
  induction cs as [|[k c0] rest IH]; simpl; auto.
  destruct (String.eqb id k); simpl; congruence.
Qed.

(** ** Methods on a loaded cache *)

Section Loaded.

Variable env : Settings.
Variable rt : Runtime.

Lemma getConfig_loaded (w : world) (c : config) :
  configPromise w = Some (inr c) -> getConfig env rt w = (inr c, w).
Proof. intros H. unfold getConfig. now rewrite H. Qed.

Lemma saveConfig_loaded (w : world) (c : config) :
  configPromise w = Some (inr c) ->
  saveConfig env rt w = (sync_outcome rt w, persisted env rt c w).
Proof.
  intros H. unfold saveConfig, bind. rewrite (getConfig_loaded w c H).
  unfold __saveConfig, __syncConfig, bind, writeFile_wg0_json, writeFile_wg0_conf, exec,
    sync_outcome, persisted, ret. simpl.
  fold sync_command. destruct (shell rt (length (execs w)) sync_command); reflexivity.
Qed.

Lemma getClient_loaded (w : world) (c : config) (clientId : string) (client : obj) :
  configPromise w = Some (inr c) ->
  lookup_client clientId (clients c) = Some client ->
  getClient env rt clientId w = (inr client, w).
Proof.
  intros H Hc. unfold getClient, bind. rewrite (getConfig_loaded w c H), Hc. reflexivity.
Qed.

(** An assignment to a client of the map is an update of the cache. *)
Lemma assign_own (w : world) (c : config) (clientId k : string) (v : jsval) (client : obj) :
  configPromise w = Some (inr c) ->
  lookup_client clientId (clients c) = Some client ->
  assign rt clientId k v w
  = (inr tt,
     with_promise
       (Some (inr {| server := server c;
                     clients := update_client clientId (set k v) (clients c) |})) w).
Proof.
  intros H Hc. unfold assign, mutate_clients. rewrite H, Hc. reflexivity.
Qed.

Lemma assign_stamp_save (w : world) (c : config) (clientId k : string) (v : jsval) (client : obj) :
  configPromise w = Some (inr c) ->
  lookup_client clientId (clients c) = Some client ->
  (client <- getClient env rt clientId ;;
   assign rt clientId k v ;;;
   now <- new_Date rt ;;
   assign rt clientId "updatedAt" (JDate now) ;;;
   saveConfig env rt) w
  = let c' := touched clientId k v (clock rt (clock_reads w)) c in
    (sync_outcome rt w, persisted env rt c' (tick (with_promise (Some (inr c')) w))).
Proof.
  intros H Hc. unfold bind at 1. rewrite (getClient_loaded w c clientId client H Hc).
  unfold bind at 1. rewrite (assign_own w c clientId k v client H Hc).
  unfold bind at 1. unfold new_Date at 1.
  unfold bind at 1.
  match goal with
  | |- context [assign rt clientId "updatedAt" ?v0 ?w0] =>
      rewrite (assign_own w0
                 {| server := server c;
                    clients := update_client clientId (set k v) (clients c) |}
                 clientId "updatedAt" v0 (set k v client) eq_refl
                 (lookup_update_same clientId (set k v) (clients c) client Hc))
  end.
  erewrite saveConfig_loaded by reflexivity.
  unfold touched. simpl. rewrite update_update. reflexivity.
Qed.

End Loaded.

(** The next assignment of the goal, made on a client of the map. *)
Ltac assign_own_step :=
  match goal with
  | |- context [assign ?rt0 ?id ?k ?v ?w0] =>
      let p := eval cbn [configPromise with_promise tick] in (configPromise w0) in
      match p with
      | Some (inr ?c0) =>
          erewrite (assign_own rt0 w0 c0 id k v _ eq_refl)
            by (cbn [clients]; eauto using lookup_update_same)
      end
  end.


(** ** Creation with an empty name *)

(** C3. [createClient] called with an empty name throws
    [Error('Missing: Name')], the failure the code has for a missing name,
    before anything else runs: whatever the state of the process, loaded or
    not, the world after the call is the world before it.  No command was
    run (no key generated), the clock and the UUID source were not read,
    the cache and both files are as they were, and the address loop was
    not entered. *)
Theorem createClient_empty_name (env : Settings) (rt : Runtime) (expiredDate : jsval) (w : world) :
  let r := fst (createClient env rt (JString "") expiredDate w) in
  let w' := snd (createClient env rt (JString "") expiredDate w) in
  r = inl (Error "Missing: Name") /\
  w' = w /\
  execs w' = execs w /\
  fs_writes w' = fs_writes w /\
  wg0_json w' = wg0_json w /\
  wg0_conf w' = wg0_conf w /\
  configPromise w' = configPromise w /\
  clock_reads w' = clock_reads w /\
  uuids_drawn w' = uuids_drawn w.
Proof.
  intros r w'.
  assert (Hrun : createClient env rt (JString "") expiredDate w
                 = (inl (Error "Missing: Name"), w)).
  { unfold createClient. cbn [truthy String.eqb negb]. reflexivity. }
  subst r w'. rewrite Hrun. cbn [fst snd]. repeat split.
Qed.

(** ** Renaming *)

(** C10. [updateClientName] does not look at the new name.  For a client
    the loaded cache holds and any string, the empty one included, the call
    stores the string as [name], stamps [updatedAt] with the clock, leaves
    the other properties alone, writes both files once, and answers what
    the daemon synchronisation answers: it completes unless that external
    command fails, whereas [createClient] rejects the empty name. *)
Theorem updateClientName_any_string (env : Settings) (rt : Runtime) (w : world) (c : config)
    (clientId : string) (client : obj) (name : string) :
  configPromise w = Some (inr c) ->
  lookup_client clientId (clients c) = Some client ->
  let now := clock rt (clock_reads w) in
  let c' := touched clientId "name" (JString name) now c in
  let r := fst (updateClientName env rt clientId (JString name) w) in
  let w' := snd (updateClientName env rt clientId (JString name) w) in
  r = sync_outcome rt w /\
  (forall out, shell rt (length (execs w)) sync_command = inr out -> r = inr tt) /\
  configPromise w' = Some (inr c') /\
  (exists client',
      cached_client clientId w' = Some client' /\
      get "name" client' = JString name /\
      get "updatedAt" client' = JDate (Some now) /\
      forall k, k <> "name" -> k <> "updatedAt" -> get k client' = get k client) /\
  wg0_json w' = Some (JSON_stringify rt c') /\
  wg0_conf w' = Some (render env rt c') /\
  fs_writes w' = "wg0.conf" :: "wg0.json" :: fs_writes w /\
  fst (createClient env rt (JString "") JUndefined w) = inl (Error "Missing: Name").
Proof.
  intros H Hc now c' r w'. subst r w'. unfold updateClientName.
  rewrite (assign_stamp_save env rt w c clientId "name" (JString name) client H Hc).
  cbv zeta. fold now. fold c'. simpl fst. simpl snd.
  split; [reflexivity|].
  split.
  { intros out Hout. unfold sync_outcome. now rewrite Hout. }
  split; [reflexivity|].
  split.
  { exists (set "updatedAt" (JDate (Some now)) (set "name" (JString name) client)).
    split.
    - unfold cached_client. simpl.
      exact (lookup_update_same clientId
               (fun o => set "updatedAt" (JDate (Some now)) (set "name" (JString name) o))
               (clients c) client Hc).
    - split.
      + rewrite get_set_other by discriminate. apply get_set_same.
      + split; [apply get_set_same|].
        intros k Hk1 Hk2. rewrite !get_set_other; auto. }
  repeat split.
Qed.

Lemma updateClientName_any_string_witness :
  let c := {| server := []; clients := [("id1", [("name", JString "laptop")])] |} in
  let w' := snd (updateClientName (Node.settings "true" "true") (Node.runtime "") "id1"
                   (JString "") (Node.loaded c)) in
  exists client',
    cached_client "id1" w' = Some client' /\ get "name" client' = JString "".
Proof.
  intros c w'.
  destruct (updateClientName_any_string (Node.settings "true" "true") (Node.runtime "")
              (Node.loaded c) c "id1" [("name", JString "laptop")] ""
              eq_refl eq_refl) as (_ & _ & _ & (client' & H1 & H2 & _) & _).
  exists client'. split; assumption.
Defined.

(** ** Enabling and disabling *)

Section Toggling.

Variable env : Settings.
Variable rt : Runtime.
Variable clientId : string.

Lemma call_loaded (w : world) (c : config) (client : obj) (t : toggle) :
  configPromise w = Some (inr c) ->
  lookup_client clientId (clients c) = Some client ->
  call env rt clientId t w
  = let c' := touched clientId "enabled" (switched t) (clock rt (clock_reads w)) c in
    (sync_outcome rt w, persisted env rt c' (tick (with_promise (Some (inr c')) w))).
Proof.
  intros H Hc. destruct t; unfold call, enableClient, disableClient;
    apply (assign_stamp_save env rt w c clientId "enabled" _ client H Hc).
Qed.

Lemma run_calls_app (before after : list toggle) (w : world) :
  run_calls env rt clientId (before ++ after)%list w
  = run_calls env rt clientId after (run_calls env rt clientId before w).
Proof.
  revert w. induction before as [|t before IH]; intros w; simpl; auto.
Qed.

Lemma cached_client_loaded (w : world) (client : obj) :
  cached_client clientId w = Some client ->
  exists c, configPromise w = Some (inr c) /\ lookup_client clientId (clients c) = Some client.
Proof.
  unfold cached_client. destruct (configPromise w) as [[e|c]|]; try discriminate.
  intros H. now exists c.
Qed.

Lemma toggling_step (client0 : obj) (w : world) (t : toggle) :
  (forall n, clock rt n < clock rt (S n)) ->
  toggling_invariant rt clientId client0 w ->
  toggling_invariant rt clientId client0 (snd (call env rt clientId t w)) /\
  exists client' t1 t2,
    cached_client clientId (snd (call env rt clientId t w)) = Some client' /\
    get "enabled" client' = switched t /\
    updatedAt_of rt clientId w = Some t1 /\
    updatedAt_of rt clientId (snd (call env rt clientId t w)) = Some t2 /\
    t1 < t2.
Proof.
  intros Hclock (client & t1 & Hcached & Hframe & Hstamp & Hpast).
  destruct (cached_client_loaded w client Hcached) as (c & H & Hc).
  rewrite (call_loaded w c client t H Hc). cbv zeta. simpl snd.
  set (now := clock rt (clock_reads w)) in *.
  set (client' := set "updatedAt" (JDate (Some now)) (set "enabled" (switched t) client)).
  assert (Hcached' :
    cached_client clientId
      (persisted env rt (touched clientId "enabled" (switched t) now c)
         (tick (with_promise (Some (inr (touched clientId "enabled" (switched t) now c))) w)))
    = Some client').
  { unfold cached_client. simpl.
    exact (lookup_update_same clientId
             (fun o => set "updatedAt" (JDate (Some now)) (set "enabled" (switched t) o))
             (clients c) client Hc). }
  assert (Hnow : Date_of rt (get "updatedAt" client') = Some now).
  { unfold client'. now rewrite get_set_same. }
  split.
  - exists client', now. split; [exact Hcached'|]. split.
    + intros k Hk1 Hk2. unfold client'. rewrite !get_set_other; auto.
    + split; [exact Hnow|]. simpl. apply Hclock.
  - exists client', t1, now. split; [exact Hcached'|]. split.
    + unfold client'. rewrite get_set_other by discriminate. apply get_set_same.
    + split; [unfold updatedAt_of; now rewrite Hcached|].
      split; [unfold updatedAt_of; now rewrite Hcached'|]. exact Hpast.
Qed.

Lemma toggling_run (client0 : obj) (calls : list toggle) (w : world) :
  (forall n, clock rt n < clock rt (S n)) ->
  toggling_invariant rt clientId client0 w ->
  toggling_invariant rt clientId client0 (run_calls env rt clientId calls w).
Proof.
  intros Hclock. revert w. induction calls as [|t calls IH]; intros w Hinv; simpl; auto.
  apply IH. now apply toggling_step.
Qed.

End Toggling.

(** C8. Take a client of the loaded cache whose [updatedAt] was stamped
    before now, and a clock that advances from one reading to the next.
    After any sequence of [enableClient] / [disableClient] calls the client
    is still there and every property other than [enabled] and [updatedAt]
    ([id], [publicKey], [address] among them) reads as before; and each
    call of the sequence leaves [enabled] as the call says and moves
    [updatedAt] to a strictly later instant than it held before the call. *)
Theorem enable_disable_frame (env : Settings) (rt : Runtime) (w : world) (c : config)
    (clientId : string) (client : obj) (t0 : Z) (calls : list toggle) :
  configPromise w = Some (inr c) ->
  lookup_client clientId (clients c) = Some client ->
  (forall n, clock rt n < clock rt (S n)) ->
  Date_of rt (get "updatedAt" client) = Some t0 ->
  t0 < clock rt (clock_reads w) ->
  (exists client',
      cached_client clientId (run_calls env rt clientId calls w) = Some client' /\
      get "id" client' = get "id" client /\
      get "publicKey" client' = get "publicKey" client /\
      get "address" client' = get "address" client /\
      forall k, k <> "enabled" -> k <> "updatedAt" -> get k client' = get k client) /\
  (forall before t after, calls = (before ++ t :: after)%list ->
     exists client' t1 t2,
       cached_client clientId (run_calls env rt clientId (before ++ [t])%list w) = Some client' /\
       get "enabled" client' = switched t /\
       updatedAt_of rt clientId (run_calls env rt clientId before w) = Some t1 /\
       updatedAt_of rt clientId (run_calls env rt clientId (before ++ [t])%list w) = Some t2 /\
       t1 < t2).
Proof.
  intros H Hc Hclock Hstamp Hpast.
  assert (Hinv : toggling_invariant rt clientId client w).
  { exists client, t0. unfold cached_client. rewrite H. auto. }
  split.
  - destruct (toggling_run env rt clientId client calls w Hclock Hinv)
      as (client' & t & Hcached & Hframe & _).
    exists client'. split; [exact Hcached|].
    repeat split; try (apply Hframe; discriminate); exact Hframe.
  - intros before t after _.
    rewrite run_calls_app. simpl.
    apply (toggling_step env rt clientId client (run_calls env rt clientId before w) t Hclock).
    now apply toggling_run.
Qed.

Lemma enable_disable_frame_witness :
  let client := [("id", JString "id1"); ("name", JString "laptop");
                 ("address", JString "10.8.0.2"); ("publicKey", JString "pk1");
                 ("updatedAt", JString "2023-11-14T00:00:00.000Z");
                 ("enabled", JBool true)] in
  let c := {| server := []; clients := [("id1", client)] |} in
  exists client',
    cached_client "id1"
      (run_calls (Node.settings "true" "true") (Node.runtime "") "id1"
         [Enable; Disable; Enable] (Node.loaded c)) = Some client' /\
    get "address" client' = JString "10.8.0.2".
Proof.
  intros client c.
  assert (Hclock : forall n, clock (Node.runtime "") n < clock (Node.runtime "") (S n)).
  { intros n. simpl. unfold Node.clock. lia. }
  destruct (enable_disable_frame (Node.settings "true" "true") (Node.runtime "")
              (Node.loaded c) c "id1" client 1699920000000 [Enable; Disable; Enable]
              eq_refl eq_refl Hclock eq_refl eq_refl)
    as ((client' & Hcached & _ & _ & Haddr & _) & _).
  exists client'. split; [exact Hcached|exact Haddr].
Defined.

(** ** The scheduler sweep *)

Lemma strict_eq_true (a b : jsval) : strict_eq a b = true -> a = b.
Proof.
  destruct a as [| |x|[x|]|x|x], b as [| |y|[y|]|y|y]; simpl; try discriminate; auto.
  - intros H. apply Bool.eqb_prop in H. congruence.
  - intros H. apply Z.eqb_eq in H. congruence.
  - intros H. apply String.eqb_eq in H. congruence.
Qed.

Lemma only_clock_refl (w : world) : only_clock w w.
Proof. unfold only_clock. repeat split; auto. Qed.

Lemma only_clock_trans (w1 w2 w3 : world) :
  only_clock w1 w2 -> only_clock w2 w3 -> only_clock w1 w3.
Proof.
  unfold only_clock. intros (A1 & A2 & A3 & A4 & A5 & A6 & A7) (B1 & B2 & B3 & B4 & B5 & B6 & B7).
  repeat split; try congruence. lia.
Qed.

Lemma only_clock_tick (w : world) : only_clock w (tick w).
Proof. unfold only_clock. simpl. repeat split; auto. Qed.

Section Sweep.

Variable rt : Runtime.

Lemma expire_client_spec (client : obj) (w : world) :
  exists w',
    expire_client rt client w
    = (inr (expiry_due rt (clock_reads w) client,
            if expiry_due rt (clock_reads w) client
            then expiry_applied rt (clock_reads w) client else client), w') /\
    only_clock w w' /\
    (expiry_due rt (clock_reads w) client = true -> (S (clock_reads w) <= clock_reads w')%nat).
Proof.
  unfold expire_client, expiry_due, expiry_applied.
  destruct (strict_eq (get "enabled" client) (JBool true)); cbn [negb andb].
  2:{ exists w. split; [reflexivity|]. split; [apply only_clock_refl|discriminate]. }
  destruct (strict_eq (get "expiredAt" client) JNull); cbn [negb andb].
  { exists w. split; [reflexivity|]. split; [apply only_clock_refl|discriminate]. }
  unfold bind, new_Date, ret. cbv beta iota.
  destruct (date_gt (Some (clock rt (clock_reads w))) (Date_of rt (get "expiredAt" client))).
  - exists (tick (tick w)). split; [reflexivity|]. split.
    + apply only_clock_trans with (tick w); apply only_clock_tick.
    + intros _. simpl. lia.
  - exists (tick w). split; [reflexivity|]. split; [apply only_clock_tick|discriminate].
Qed.

Lemma expire_link_spec (client : obj) (w : world) :
  exists w',
    expire_link rt client w
    = (inr (link_due rt (clock_reads w) client,
            if link_due rt (clock_reads w) client
            then link_applied rt (clock_reads w) client else client), w') /\
    only_clock w w' /\
    (link_due rt (clock_reads w) client = true -> (S (clock_reads w) <= clock_reads w')%nat).
Proof.
  unfold expire_link, link_due, link_applied.
  destruct (strict_eq (get "oneTimeLink" client) JNull); cbn [negb andb].
  { exists w. split; [reflexivity|]. split; [apply only_clock_refl|discriminate]. }
  unfold bind, new_Date, ret. cbv beta iota.
  destruct (date_gt (Some (clock rt (clock_reads w)))
              (Date_of rt (get "oneTimeLinkExpiresAt" client))).
  - exists (tick (tick w)). split; [reflexivity|]. split.
    + apply only_clock_trans with (tick w); apply only_clock_tick.
    + intros _. simpl. lia.
  - exists (tick w). split; [reflexivity|]. split; [apply only_clock_tick|discriminate].
Qed.

End Sweep.

Section Swept.

Variable due : nat -> obj -> bool.
Variable applied : nat -> obj -> obj.

Lemma swept_widen (lo lo' hi hi' : nat) (cs cs' : list (string * obj)) (b : bool) :
  (lo' <= lo)%nat -> (hi <= hi')%nat ->
  swept due applied lo hi cs b cs' -> swept due applied lo' hi' cs b cs'.
Proof.
  intros Hlo Hhi H. induction H.
  - constructor.
  - constructor; auto; try lia. intros Hd. specialize (H1 Hd). lia.
Qed.

Lemma for_each_client_swept (body : obj -> M (bool * obj)) :
  (forall client w, exists w',
      body client w
      = (inr (due (clock_reads w) client,
              if due (clock_reads w) client then applied (clock_reads w) client else client),
         w') /\
      only_clock w w' /\
      (due (clock_reads w) client = true -> (S (clock_reads w) <= clock_reads w')%nat)) ->
  forall cs w, exists b cs' w',
      for_each_client body cs w = (inr (b, cs'), w') /\
      only_clock w w' /\
      swept due applied (clock_reads w) (clock_reads w') cs b cs'.
Proof.
  intros Hbody. induction cs as [|[id client] rest IH]; intros w.
  - exists false, [], w. split; [reflexivity|]. split; [apply only_clock_refl|constructor].
  - destruct (Hbody client w) as (w1 & E1 & O1 & D1).
    destruct (IH w1) as (b & rest' & w2 & E2 & O2 & S2).
    exists (due (clock_reads w) client || b),
      ((id, if due (clock_reads w) client then applied (clock_reads w) client else client)
         :: rest'), w2.
    split.
    + simpl. unfold bind. rewrite E1, E2. reflexivity.
    + split; [eapply only_clock_trans; eauto|].
      assert (clock_reads w <= clock_reads w1)%nat by apply O1.
      assert (clock_reads w1 <= clock_reads w2)%nat by apply O2.
      constructor; try lia.
      * intros Hd. specialize (D1 Hd). lia.
      * eapply swept_widen; [| |exact S2]; lia.
Qed.

Lemma swept_false (lo hi : nat) (cs cs' : list (string * obj)) :
  swept due applied lo hi cs false cs' -> cs' = cs.
Proof.
  intros H. remember false as b eqn:Hb. induction H; auto.
  apply orb_false_iff in Hb. destruct Hb as [Hd ->]. rewrite Hd. f_equal. auto.
Qed.

Lemma swept_nth (lo hi : nat) (cs cs' : list (string * obj)) (b : bool) :
  swept due applied lo hi cs b cs' ->
  forall i id client, nth_error cs i = Some (id, client) ->
    exists n, (lo <= n)%nat /\ (n <= hi)%nat /\
      (due n client = true -> (S n <= hi)%nat) /\
      nth_error cs' i = Some (id, if due n client then applied n client else client).
Proof.
  intros H. induction H; intros i id0 client0 Hi.
  - destruct i; discriminate.
  - destruct i as [|i]; simpl in *.
    + injection Hi as <- <-. exists n. auto.
    + eauto.
Qed.

Lemma swept_true (lo hi : nat) (cs cs' : list (string * obj)) :
  swept due applied lo hi cs true cs' ->
  exists i id client n,
    nth_error cs i = Some (id, client) /\ due n client = true /\
    nth_error cs' i = Some (id, applied n client).
Proof.
  intros H. remember true as b eqn:Hb. induction H; [discriminate|].
  destruct (due n client) eqn:Hd.
  - exists 0%nat, id, client, n. simpl. auto.
  - simpl in Hb. destruct (IHswept Hb) as (i & id0 & c0 & n0 & A & B & C).
    exists (S i), id0, c0, n0. simpl. auto.
Qed.

Lemma swept_keys (lo hi : nat) (cs cs' : list (string * obj)) (b : bool) :
  swept due applied lo hi cs b cs' -> map fst cs' = map fst cs.
Proof. intros H. induction H; simpl; congruence. Qed.

End Swept.

Section Cron.

Variable env : Settings.
Variable rt : Runtime.

(** One sweep of [cronJobEveryMinute]: the loop when its toggle is the
    string ['true'], nothing otherwise. *)
Lemma sweep_gated (toggle : jsval) (body : obj -> M (bool * obj))
    (due : nat -> obj -> bool) (applied : nat -> obj -> obj) :
  (forall client w, exists w',
      body client w
      = (inr (due (clock_reads w) client,
              if due (clock_reads w) client then applied (clock_reads w) client else client),
         w') /\
      only_clock w w' /\
      (due (clock_reads w) client = true -> (S (clock_reads w) <= clock_reads w')%nat)) ->
  forall cs w, exists b cs' w',
      (if strict_eq toggle (JString "true")
       then for_each_client body cs else ret (false, cs)) w = (inr (b, cs'), w') /\
      only_clock w w' /\
      (if strict_eq toggle (JString "true")
       then swept due applied (clock_reads w) (clock_reads w') cs b cs'
       else b = false /\ cs' = cs).
Proof.
  intros Hbody cs w. destruct (strict_eq toggle (JString "true")).
  - apply for_each_client_swept, Hbody.
  - exists false, cs, w. split; [reflexivity|]. split; [apply only_clock_refl|auto].
Qed.

Lemma sync_outcome_only_clock (w w' : world) (p : option (exn + config)) :
  only_clock w w' -> sync_outcome rt (with_promise p w') = sync_outcome rt w.
Proof.
  intros (_ & _ & _ & _ & E & _). unfold sync_outcome. simpl. now rewrite E.
Qed.

Lemma cron_loaded (w : world) (c : config) :
  configPromise w = Some (inr c) ->
  exists b1 cs1 b2 cs2 w1 w2,
    only_clock w w1 /\ only_clock w1 w2 /\
    (if strict_eq (WG_ENABLE_EXPIRES_TIME env) (JString "true")
     then swept (expiry_due rt) (expiry_applied rt) (clock_reads w) (clock_reads w1)
            (clients c) b1 cs1
     else b1 = false /\ cs1 = clients c) /\
    (if strict_eq (WG_ENABLE_ONE_TIME_LINKS env) (JString "true")
     then swept (link_due rt) (link_applied rt) (clock_reads w1) (clock_reads w2) cs1 b2 cs2
     else b2 = false /\ cs2 = cs1) /\
    cronJobEveryMinute env rt w
    = let c' := {| server := server c; clients := cs2 |} in
      if b1 || b2
      then (sync_outcome rt w, persisted env rt c' (with_promise (Some (inr c')) w2))
      else (inr tt, with_promise (Some (inr c')) w2).
Proof.
  intros H.
  destruct (sweep_gated (WG_ENABLE_EXPIRES_TIME env) (expire_client rt)
              (expiry_due rt) (expiry_applied rt) (expire_client_spec rt) (clients c) w)
    as (b1 & cs1 & w1 & E1 & O1 & S1).
  destruct (sweep_gated (WG_ENABLE_ONE_TIME_LINKS env) (expire_link rt)
              (link_due rt) (link_applied rt) (expire_link_spec rt) cs1 w1)
    as (b2 & cs2 & w2 & E2 & O2 & S2).
  exists b1, cs1, b2, cs2, w1, w2.
  split; [exact O1|]. split; [exact O2|]. split; [exact S1|]. split; [exact S2|].
  unfold cronJobEveryMinute. unfold bind at 1. rewrite (getConfig_loaded env rt w c H).
  unfold bind at 1. rewrite E1. unfold bind at 1. cbn [snd fst]. rewrite E2.
  unfold bind at 1. unfold mutate_clients.
  assert (Hp : configPromise w2 = Some (inr c)).
  { destruct O1 as (A & _), O2 as (B & _). congruence. }
  rewrite Hp. cbn [fst snd]. cbv zeta.
  destruct (b1 || b2).
  - rewrite (saveConfig_loaded env rt
               (with_promise (Some (inr {| server := server c; clients := cs2 |})) w2)
               {| server := server c; clients := cs2 |} eq_refl).
    rewrite (sync_outcome_only_clock w w2); [reflexivity|].
    eapply only_clock_trans; eauto.
  - reflexivity.
Qed.

End Cron.

Section CronPeers.

Variable rt : Runtime.

Lemma not_null_strict (v : jsval) : v <> JNull -> strict_eq v JNull = false.
Proof.
  intros Hv. destruct (strict_eq v JNull) eqn:E; auto.
  apply strict_eq_true in E. contradiction.
Qed.

Lemma strict_null_false (v : jsval) : strict_eq v JNull = false -> v <> JNull.
Proof. intros E ->. discriminate. Qed.

Lemma expiry_applied_get (n : nat) (client : obj) (k : string) :
  k <> "enabled" -> k <> "updatedAt" -> get k (expiry_applied rt n client) = get k client.
Proof. intros H1 H2. unfold expiry_applied. rewrite !get_set_other; auto. Qed.

Lemma link_applied_get (n : nat) (client : obj) (k : string) :
  k <> "oneTimeLink" -> k <> "oneTimeLinkExpiresAt" -> k <> "updatedAt" ->
  get k (link_applied rt n client) = get k client.
Proof. intros H1 H2 H3. unfold link_applied. rewrite !get_set_other; auto. Qed.

Lemma link_applied_link (n : nat) (client : obj) :
  get "oneTimeLink" (link_applied rt n client) = JNull /\
  get "oneTimeLinkExpiresAt" (link_applied rt n client) = JNull /\
  get "updatedAt" (link_applied rt n client) = JDate (Some (clock rt (S n))).
Proof.
  unfold link_applied. repeat split.
  - rewrite !get_set_other by discriminate. apply get_set_same.
  - rewrite get_set_other by discriminate. apply get_set_same.
  - apply get_set_same.
Qed.

Lemma expiry_due_true (n : nat) (client : obj) :
  expiry_due rt n client = true ->
  get "enabled" client = JBool true /\ get "expiredAt" client <> JNull /\
  exists t, Date_of rt (get "expiredAt" client) = Some t /\ t < clock rt n.
Proof.
  unfold expiry_due. intros H.
  apply andb_true_iff in H. destruct H as [H Hd].
  apply andb_true_iff in H. destruct H as [He Hn].
  split; [now apply strict_eq_true|]. split.
  - apply strict_null_false. now apply negb_true_iff.
  - unfold date_gt in Hd. destruct (Date_of rt (get "expiredAt" client)) as [t|]; [|discriminate].
    exists t. split; auto. now apply Z.ltb_lt.
Qed.

Lemma link_due_true (n : nat) (client : obj) :
  link_due rt n client = true ->
  get "oneTimeLink" client <> JNull /\
  exists t, Date_of rt (get "oneTimeLinkExpiresAt" client) = Some t /\ t < clock rt n.
Proof.
  unfold link_due. intros H.
  apply andb_true_iff in H. destruct H as [Hn Hd].
  split.
  - apply strict_null_false. now apply negb_true_iff.
  - unfold date_gt in Hd.
    destruct (Date_of rt (get "oneTimeLinkExpiresAt" client)) as [t|]; [|discriminate].
    exists t. split; auto. now apply Z.ltb_lt.
Qed.

(** What both loops, one after the other, leave of the client at one
    position of the map. *)
Lemma two_sweeps_nth (links : jsval) (lo mid hi : nat)
    (cs cs1 cs2 : list (string * obj)) (b1 b2 : bool) :
  (lo <= mid)%nat -> (mid <= hi)%nat ->
  swept (expiry_due rt) (expiry_applied rt) lo mid cs b1 cs1 ->
  (if strict_eq links (JString "true")
   then swept (link_due rt) (link_applied rt) mid hi cs1 b2 cs2
   else b2 = false /\ cs2 = cs1) ->
  forall i id client, nth_error cs i = Some (id, client) ->
    exists n1 client1 client2,
      (lo <= n1)%nat /\ (n1 <= hi)%nat /\
      (expiry_due rt n1 client = true -> (S n1 <= hi)%nat) /\
      client1 = (if expiry_due rt n1 client then expiry_applied rt n1 client else client) /\
      nth_error cs1 i = Some (id, client1) /\
      nth_error cs2 i = Some (id, client2) /\
      (client2 = client1 \/
       exists n2, strict_eq links (JString "true") = true /\
                  (lo <= n2)%nat /\ (S n2 <= hi)%nat /\
                  link_due rt n2 client1 = true /\
                  client2 = link_applied rt n2 client1).
Proof.
  intros Hlm Hmh S1 S2 i id client Hi.
  destruct (swept_nth _ _ _ _ _ _ _ S1 i id client Hi) as (n1 & L1 & U1 & D1 & N1).
  set (client1 := if expiry_due rt n1 client then expiry_applied rt n1 client else client) in *.
  destruct (strict_eq links (JString "true")) eqn:Hlinks.
  - destruct (swept_nth _ _ _ _ _ _ _ S2 i id client1 N1) as (n2 & L2 & U2 & D2 & N2).
    exists n1, client1, (if link_due rt n2 client1 then link_applied rt n2 client1 else client1).
    repeat split; auto; try lia.
    + intros Hd. specialize (D1 Hd). lia.
    + destruct (link_due rt n2 client1) eqn:Hd; [right|left; reflexivity].
      exists n2. specialize (D2 eq_refl). repeat split; auto; lia.
  - destruct S2 as [-> ->].
    exists n1, client1, client1. repeat split; auto; try lia.
    intros Hd. specialize (D1 Hd). lia.
Qed.

End CronPeers.

Section CronRun.

Variable rt : Runtime.

Lemma swept_nth_inv (due : nat -> obj -> bool) (applied : nat -> obj -> obj)
    (lo hi : nat) (cs cs' : list (string * obj)) (b : bool) :
  swept due applied lo hi cs b cs' ->
  forall i id client', nth_error cs' i = Some (id, client') ->
    exists client n,
      nth_error cs i = Some (id, client) /\
      client' = (if due n client then applied n client else client).
Proof.
  intros H. induction H; intros i id0 client0 Hi.
  - destruct i; discriminate.
  - destruct i as [|i]; simpl in *.
    + injection Hi as <- <-. exists client, n. auto.
    + eauto.
Qed.

(** A run that set [needSaveConfig] changed a client. *)
Lemma two_sweeps_changed (links : jsval) (lo mid hi : nat)
    (cs cs1 cs2 : list (string * obj)) (b1 b2 : bool) :
  (lo <= mid)%nat -> (mid <= hi)%nat ->
  swept (expiry_due rt) (expiry_applied rt) lo mid cs b1 cs1 ->
  (if strict_eq links (JString "true")
   then swept (link_due rt) (link_applied rt) mid hi cs1 b2 cs2
   else b2 = false /\ cs2 = cs1) ->
  b1 || b2 = true -> cs2 <> cs.
Proof.
  intros Hlm Hmh S1 S2 Hb Heq. apply orb_true_iff in Hb. destruct Hb as [-> | ->].
  - destruct (swept_true _ _ _ _ _ _ S1) as (i & id & client & n & Hi & Hd & Hi1).
    destruct (expiry_due_true rt n client Hd) as (Hen & _).
    destruct (two_sweeps_nth rt links _ _ _ _ _ _ _ _ Hlm Hmh S1 S2 i id client Hi)
      as (n1 & client1 & client2 & _ & _ & _ & _ & M1 & M2 & Hc2).
    rewrite Hi1 in M1. injection M1 as <-.
    rewrite Heq, Hi in M2. injection M2 as <-.
    assert (Hoff : get "enabled" (expiry_applied rt n client) = JBool false).
    { unfold expiry_applied. rewrite get_set_other by discriminate. apply get_set_same. }
    destruct Hc2 as [Hc2 | (n2 & _ & _ & _ & _ & Hc2)].
    + rewrite <- Hc2 in Hoff. congruence.
    + rewrite Hc2 in Hen. rewrite link_applied_get in Hen by discriminate. congruence.
  - destruct (strict_eq links (JString "true")); [|destruct S2; discriminate].
    destruct (swept_true _ _ _ _ _ _ S2) as (i & id & client1 & n & Hi1 & Hd & Hi2).
    destruct (link_due_true rt n client1 Hd) as (Hlink & _).
    destruct (swept_nth_inv _ _ _ _ _ _ _ S1 i id client1 Hi1) as (client & n1 & Hi & Hc1).
    rewrite Heq, Hi in Hi2. injection Hi2 as Hc.
    apply Hlink. rewrite Hc1.
    assert (Hnull : get "oneTimeLink" client = JNull).
    { rewrite Hc. apply link_applied_link. }
    destruct (expiry_due rt n1 client); auto.
    rewrite expiry_applied_get by discriminate. exact Hnull.
Qed.

Lemma two_sweeps_unchanged (links : jsval) (lo mid hi : nat)
    (cs cs1 cs2 : list (string * obj)) (b1 b2 : bool) :
  swept (expiry_due rt) (expiry_applied rt) lo mid cs b1 cs1 ->
  (if strict_eq links (JString "true")
   then swept (link_due rt) (link_applied rt) mid hi cs1 b2 cs2
   else b2 = false /\ cs2 = cs1) ->
  b1 || b2 = false -> cs2 = cs.
Proof.
  intros S1 S2 Hb. apply orb_false_iff in Hb. destruct Hb as [-> ->].
  apply swept_false in S1. subst cs1.
  destruct (strict_eq links (JString "true")).
  - now apply swept_false in S2.
  - now destruct S2.
Qed.

Lemma two_sweeps_keys (links : jsval) (lo mid hi : nat)
    (cs cs1 cs2 : list (string * obj)) (b1 b2 : bool) :
  swept (expiry_due rt) (expiry_applied rt) lo mid cs b1 cs1 ->
  (if strict_eq links (JString "true")
   then swept (link_due rt) (link_applied rt) mid hi cs1 b2 cs2
   else b2 = false /\ cs2 = cs1) ->
  map fst cs2 = map fst cs.
Proof.
  intros S1 S2. apply swept_keys in S1. rewrite <- S1.
  destruct (strict_eq links (JString "true")).
  - now apply swept_keys in S2.
  - destruct S2 as [_ ->]. reflexivity.
Qed.

End CronRun.

(** C5, as the code has it.  On a loaded cache and with the expiry toggle
    set to ['true'], one run of [cronJobEveryMinute] keeps the server and
    the client ids, and for the client at each position of the map:
    - if it is enabled and its [expiredAt] is set and lies before the clock
      readings of the run, it ends disabled, with [updatedAt] stamped by
      one of these readings;
    - if its [expiredAt] lies after them, the expiry loop leaves it alone:
      every property other than [oneTimeLink], [oneTimeLinkExpiresAt] and
      [updatedAt] reads as before, and the client is unchanged altogether
      when the one-time-link toggle is off or its link is not due at the
      clock readings of the run.
    If the run changed a client, both files are written once and the daemon
    is synchronised once; if it changed none, nothing is written and no
    command runs. *)
Theorem cron_sweep (env : Settings) (rt : Runtime) (w : world) (c : config) :
  configPromise w = Some (inr c) ->
  WG_ENABLE_EXPIRES_TIME env = JString "true" ->
  let r := fst (cronJobEveryMinute env rt w) in
  let w' := snd (cronJobEveryMinute env rt w) in
  exists c',
    configPromise w' = Some (inr c') /\
    server c' = server c /\
    map fst (clients c') = map fst (clients c) /\
    (forall i id client, nth_error (clients c) i = Some (id, client) ->
       exists client',
         nth_error (clients c') i = Some (id, client') /\
         (forall t,
             get "enabled" client = JBool true ->
             get "expiredAt" client <> JNull ->
             Date_of rt (get "expiredAt" client) = Some t ->
             (forall n, (clock_reads w <= n <= clock_reads w')%nat -> t < clock rt n) ->
             get "enabled" client' = JBool false /\
             exists n, (clock_reads w <= n <= clock_reads w')%nat /\
                       get "updatedAt" client' = JDate (Some (clock rt n))) /\
         (forall t,
             Date_of rt (get "expiredAt" client) = Some t ->
             (forall n, (clock_reads w <= n <= clock_reads w')%nat -> clock rt n <= t) ->
             (forall k, k <> "oneTimeLink" -> k <> "oneTimeLinkExpiresAt" ->
                        k <> "updatedAt" -> get k client' = get k client) /\
             (strict_eq (WG_ENABLE_ONE_TIME_LINKS env) (JString "true") = false \/
              (forall n, (clock_reads w <= n <= clock_reads w')%nat ->
                         link_due rt n client = false) ->
              client' = client))) /\
    (clients c' <> clients c ->
       r = sync_outcome rt w /\
       fs_writes w' = "wg0.conf" :: "wg0.json" :: fs_writes w /\
       wg0_json w' = Some (JSON_stringify rt c') /\
       wg0_conf w' = Some (render env rt c') /\
       execs w' = sync_command :: execs w) /\
    (clients c' = clients c ->
       r = inr tt /\
       fs_writes w' = fs_writes w /\
       wg0_json w' = wg0_json w /\
       wg0_conf w' = wg0_conf w /\
       execs w' = execs w).
Proof.
  intros H Htoggle r w'. subst r w'.
  destruct (cron_loaded env rt w c H) as (b1 & cs1 & b2 & cs2 & w1 & w2 & O1 & O2 & S1 & S2 & E).
  rewrite Htoggle in S1. change (strict_eq (JString "true") (JString "true")) with true in S1.
  cbv iota in S1. cbv zeta in E.
  assert (L1 : (clock_reads w <= clock_reads w1)%nat) by apply O1.
  assert (L2 : (clock_reads w1 <= clock_reads w2)%nat) by apply O2.
  assert (O : only_clock w w2) by (eapply only_clock_trans; eauto).
  destruct O as (_ & Ojson & Oconf & Owrites & Oexecs & _).
  assert (Hreads : clock_reads (snd (cronJobEveryMinute env rt w)) = clock_reads w2).
  { rewrite E. destruct (b1 || b2); reflexivity. }
  rewrite Hreads.
  exists {| server := server c; clients := cs2 |}. simpl server. simpl clients.
  split; [rewrite E; destruct (b1 || b2); reflexivity|].
  split; [reflexivity|].
  split; [exact (two_sweeps_keys rt _ _ _ _ _ _ _ _ _ S1 S2)|].
  split.
  { intros i id client Hi.
    destruct (two_sweeps_nth rt (WG_ENABLE_ONE_TIME_LINKS env) _ _ _ _ _ _ _ _ L1 L2 S1 S2
                i id client Hi)
      as (n1 & client1 & client2 & Hlo & Hhi & Hstamp & Hc1 & _ & M2 & Hc2).
    exists client2. split; [exact M2|]. split.
    - intros t Hen Hset Ht Hpast.
      assert (Hd : expiry_due rt n1 client = true).
      { unfold expiry_due. rewrite Hen, (not_null_strict _ Hset), Ht. simpl.
        apply Z.ltb_lt. apply Hpast. lia. }
      rewrite Hd in Hc1. specialize (Hstamp Hd).
      assert (Hoff : get "enabled" client1 = JBool false).
      { subst client1. unfold expiry_applied.
        rewrite get_set_other by discriminate. apply get_set_same. }
      destruct Hc2 as [-> | (n2 & _ & Hlo2 & Hhi2 & _ & ->)].
      + split; [exact Hoff|]. exists (S n1). split; [lia|].
        subst client1. apply get_set_same.
      + split; [rewrite link_applied_get by discriminate; exact Hoff|].
        exists (S n2). split; [lia|]. apply link_applied_link.
    - intros t Ht Hfuture.
      assert (Hd : expiry_due rt n1 client = false).
      { unfold expiry_due. rewrite Ht. simpl.
        assert (Hlt : (t <? clock rt n1) = false) by (apply Z.ltb_ge; apply Hfuture; lia).
        rewrite Hlt.
        apply andb_false_r. }
      rewrite Hd in Hc1. subst client1.
      destruct Hc2 as [-> | (n2 & Hon & Hlo2 & Hhi2 & Hdue & ->)].
      + split; auto.
      + split.
        * intros k K1 K2 K3. now apply link_applied_get.
        * intros [Hoff | Hnot]; [congruence|].
          rewrite Hnot in Hdue by lia. discriminate. }
  destruct (b1 || b2) eqn:Hb; rewrite E; simpl fst; simpl snd.
  - split.
    + intros _. simpl. rewrite Owrites, Oexecs. repeat split.
    + intros Heq. exfalso.
      exact (two_sweeps_changed rt (WG_ENABLE_ONE_TIME_LINKS env) _ _ _ _ _ _ _ _
               L1 L2 S1 S2 Hb Heq).
  - split.
    + intros Hne. exfalso. apply Hne.
      exact (two_sweeps_unchanged rt (WG_ENABLE_ONE_TIME_LINKS env) _ _ _ _ _ _ _ _ S1 S2 Hb).
    + intros _. simpl. repeat split; auto.
Qed.

Lemma cron_sweep_witness :
  let expired := [("id", JString "a"); ("enabled", JBool true);
                  ("expiredAt", JString "2023-11-13T23:59:59.000Z");
                  ("updatedAt", JString "2023-11-01T00:00:00.000Z")] in
  let valid := [("id", JString "b"); ("enabled", JBool true);
                ("expiredAt", JString "2023-11-15T23:59:59.000Z");
                ("updatedAt", JString "2023-11-01T00:00:00.000Z")] in
  let c := {| server := []; clients := [("a", expired); ("b", valid)] |} in
  let w' := snd (cronJobEveryMinute (Node.settings "true" "false") (Node.runtime "")
                   (Node.loaded c)) in
  exists c' client',
    configPromise w' = Some (inr c') /\
    nth_error (clients c') 0 = Some ("a", client') /\
    get "enabled" client' = JBool false.
Proof.
  intros expired valid c w'.
  destruct (cron_sweep (Node.settings "true" "false") (Node.runtime "") (Node.loaded c) c
              eq_refl eq_refl) as (c' & Hc' & _ & _ & Hpeers & _).
  destruct (Hpeers 0%nat "a" expired eq_refl) as (client' & Hnth & Hpast & _).
  exists c', client'. split; [exact Hc'|]. split; [exact Hnth|].
  apply (Hpast 1699919999000).
  - reflexivity.
  - discriminate.
  - vm_compute; reflexivity.
  - intros n _. change (clock (Node.runtime "") n) with (Node.clock n).
    unfold Node.clock. lia.
Defined.

(** C5, as the claim words it, fails: with both toggles on, a client
    whose [expiredAt] lies in 2100, after every clock reading of the run,
    but whose one-time link ran out in January 2023, does not come out of
    the run unchanged: the second loop clears its link and stamps it. *)
Lemma cron_changes_unexpired_client :
  let client := [("id", JString "a"); ("enabled", JBool true);
                 ("expiredAt", JString "2100-01-01T23:59:59.000Z");
                 ("oneTimeLink", JString "5f3a9c01");
                 ("oneTimeLinkExpiresAt", JString "2023-01-01T00:05:00.000Z");
                 ("updatedAt", JString "2023-01-01T00:00:00.000Z")] in
  let c := {| server := []; clients := [("a", client)] |} in
  let env := Node.settings "true" "true" in
  let rt := Node.runtime "" in
  let w' := snd (cronJobEveryMinute env rt (Node.loaded c)) in
  WG_ENABLE_EXPIRES_TIME env = JString "true" /\
  Date_of rt (get "expiredAt" client) = Some 4102531199000 /\
  (forall n, (n <= clock_reads w')%nat -> clock rt n < 4102531199000) /\
  cached_client "a" w' <> Some client /\
  (exists client', cached_client "a" w' = Some client' /\ get "oneTimeLink" client' = JNull).
Proof.
  intros client c env rt w'.
  split; [reflexivity|]. split; [vm_compute; reflexivity|]. split.
  - intros n Hn.
    assert (Hreads : clock_reads w' = 3%nat) by (vm_compute; reflexivity).
    rewrite Hreads in Hn. change (clock rt n) with (Node.clock n).
    unfold Node.clock. clear - Hn. lia.
  - split.
    + vm_compute; discriminate.
    + exists [("id", JString "a"); ("enabled", JBool true);
              ("expiredAt", JString "2100-01-01T23:59:59.000Z");
              ("oneTimeLink", JNull); ("oneTimeLinkExpiresAt", JNull);
              ("updatedAt", JDate (Some 1700000002000))].
      split; [vm_compute; reflexivity|reflexivity].
Qed.

(** ** One-time links *)

Section Links.

Variable env : Settings.
Variable rt : Runtime.

Lemma gated_nth (toggle : jsval) (due : nat -> obj -> bool) (applied : nat -> obj -> obj)
    (lo hi : nat) (cs cs' : list (string * obj)) (b : bool) :
  (if strict_eq toggle (JString "true")
   then swept due applied lo hi cs b cs'
   else b = false /\ cs' = cs) ->
  forall i id client, nth_error cs i = Some (id, client) ->
    exists client',
      nth_error cs' i = Some (id, client') /\
      (client' = client \/ exists n, due n client = true /\ client' = applied n client) /\
      (strict_eq toggle (JString "true") = true ->
       exists n, (lo <= n)%nat /\ (n <= hi)%nat /\
                 client' = (if due n client then applied n client else client)).
Proof.
  intros S i id client Hi. destruct (strict_eq toggle (JString "true")).
  - destruct (swept_nth _ _ _ _ _ _ _ S i id client Hi) as (n & Hlo & Hhi & _ & Hn).
    exists (if due n client then applied n client else client).
    split; [exact Hn|]. split.
    + destruct (due n client) eqn:Hd; [right; exists n; auto|left; reflexivity].
    + intros _. exists n. auto.
  - destruct S as [_ ->]. exists client. split; [exact Hi|]. split; [now left|discriminate].
Qed.

Lemma gated_keys (toggle : jsval) (due : nat -> obj -> bool) (applied : nat -> obj -> obj)
    (lo hi : nat) (cs cs' : list (string * obj)) (b : bool) :
  (if strict_eq toggle (JString "true")
   then swept due applied lo hi cs b cs'
   else b = false /\ cs' = cs) ->
  map fst cs' = map fst cs.
Proof.
  intros S. destruct (strict_eq toggle (JString "true")).
  - eapply swept_keys; eauto.
  - destruct S as [_ ->]. reflexivity.
Qed.

(** The object found under an id sits at some position of the map, and an
    object at that position of a map with the same keys is found under the
    same id. *)
Lemma lookup_position (id : string) (cs : list (string * obj)) (client : obj) :
  lookup_client id cs = Some client ->
  exists i,
    nth_error cs i = Some (id, client) /\
    forall cs' client',
      map fst cs' = map fst cs -> nth_error cs' i = Some (id, client') ->
      lookup_client id cs' = Some client'.
Proof.
  induction cs as [|[k c0] rest IH]; simpl; [discriminate|].
  destruct (String.eqb id k) eqn:E.
  - intros [= ->]. apply String.eqb_eq in E. subst k.
    exists 0%nat. split; [reflexivity|].
    intros [|[k' c'] rest'] client' Hk Hn; simpl in *; [discriminate|].
    injection Hn as -> ->. now rewrite String.eqb_refl.
  - intros H. destruct (IH H) as (i & Hi & Hrest).
    exists (S i). split; [exact Hi|].
    intros [|[k' c'] rest'] client' Hk Hn; simpl in *; [discriminate|].
    injection Hk as -> Hk. rewrite E. now apply Hrest.
Qed.

(** The second loop of [cronJobEveryMinute] clears a link that ran out
    before the readings of the run. *)
Lemma cron_clears_link (w : world) (c : config) (clientId : string) (client : obj) (t : Z) :
  configPromise w = Some (inr c) ->
  strict_eq (WG_ENABLE_ONE_TIME_LINKS env) (JString "true") = true ->
  lookup_client clientId (clients c) = Some client ->
  get "oneTimeLink" client <> JNull ->
  Date_of rt (get "oneTimeLinkExpiresAt" client) = Some t ->
  (forall n, (clock_reads w <= n)%nat -> t < clock rt n) ->
  exists client',
    cached_client clientId (snd (cronJobEveryMinute env rt w)) = Some client' /\
    get "oneTimeLink" client' = JNull /\
    get "oneTimeLinkExpiresAt" client' = JNull.
Proof.
  intros H Hon Hc Hlink Ht Hpast.
  destruct (cron_loaded env rt w c H) as (b1 & cs1 & b2 & cs2 & w1 & w2 & O1 & O2 & S1 & S2 & E).
  cbv zeta in E.
  assert (L1 : (clock_reads w <= clock_reads w1)%nat) by apply O1.
  destruct (lookup_position clientId (clients c) client Hc) as (i & Hi & Hfound).
  destruct (gated_nth _ _ _ _ _ _ _ _ S1 i clientId client Hi) as (client1 & N1 & Hc1 & _).
  destruct (gated_nth _ _ _ _ _ _ _ _ S2 i clientId client1 N1) as (client2 & N2 & _ & Hc2).
  destruct (Hc2 Hon) as (n2 & Hlo2 & _ & ->).
  assert (Hsame : get "oneTimeLink" client1 = get "oneTimeLink" client /\
                  get "oneTimeLinkExpiresAt" client1 = get "oneTimeLinkExpiresAt" client).
  { destruct Hc1 as [-> | (n1 & _ & ->)]; [auto|].
    split; apply expiry_applied_get; discriminate. }
  destruct Hsame as [Hs1 Hs2].
  assert (Hdue : link_due rt n2 client1 = true).
  { unfold link_due. rewrite Hs1, Hs2, (not_null_strict _ Hlink), Ht. simpl.
    apply Z.ltb_lt. apply Hpast. lia. }
  rewrite Hdue in N2.
  exists (link_applied rt n2 client1). split.
  - assert (Hcache : configPromise (snd (cronJobEveryMinute env rt w))
                     = Some (inr {| server := server c; clients := cs2 |})).
    { rewrite E. destruct (b1 || b2); reflexivity. }
    unfold cached_client. rewrite Hcache. simpl clients.
    apply Hfound; [|exact N2].
    rewrite (gated_keys _ _ _ _ _ _ _ _ S2). exact (gated_keys _ _ _ _ _ _ _ _ S1).
  - split; apply link_applied_link.
Qed.

End Links.

Lemma eraseOneTimeLink_loaded (env : Settings) (rt : Runtime) (w : world) (c : config)
    (clientId : string) (client : obj) :
  configPromise w = Some (inr c) ->
  lookup_client clientId (clients c) = Some client ->
  eraseOneTimeLink env rt clientId w
  = let c' := link_shortened clientId (clock rt (clock_reads w))
                (clock rt (S (clock_reads w))) c in
    (sync_outcome rt w, persisted env rt c' (tick (tick (with_promise (Some (inr c')) w)))).
Proof.
  intros H Hc. unfold eraseOneTimeLink.
  unfold bind at 1. rewrite (getClient_loaded env rt w c clientId client H Hc).
  unfold bind at 1. unfold Date_now at 1.
  unfold bind at 1. rewrite (assign_own rt (tick w) c clientId _ _ client H Hc).
  unfold bind at 1. unfold new_Date at 1.
  unfold bind at 1. assign_own_step.
  match goal with
  | |- saveConfig env rt ?w0 = _ =>
      match w0 with
      | with_promise (Some (inr ?c0)) _ => rewrite (saveConfig_loaded env rt w0 c0 eq_refl)
      end
  end.
  unfold link_shortened. simpl. rewrite update_update. reflexivity.
Qed.

(** C6, as the code has it.  For a client of the loaded cache,
    [eraseOneTimeLink] does not clear the token: [oneTimeLink] keeps its
    value, [oneTimeLinkExpiresAt] becomes ten seconds after the reading of
    [Date.now()], [updatedAt] is stamped, nothing else changes and the
    configuration is saved.  The token is cleared later: when the
    one-time-link toggle is ['true'] and the next readings of the clock are
    past these ten seconds, the following run of [cronJobEveryMinute]
    leaves [oneTimeLink] and [oneTimeLinkExpiresAt] null. *)
Theorem eraseOneTimeLink_shortens (env : Settings) (rt : Runtime) (w : world) (c : config)
    (clientId : string) (client : obj) :
  configPromise w = Some (inr c) ->
  lookup_client clientId (clients c) = Some client ->
  get "oneTimeLink" client <> JNull ->
  let now := clock rt (clock_reads w) in
  let stamp := clock rt (S (clock_reads w)) in
  let w' := snd (eraseOneTimeLink env rt clientId w) in
  (exists client',
      cached_client clientId w' = Some client' /\
      get "oneTimeLink" client' = get "oneTimeLink" client /\
      get "oneTimeLinkExpiresAt" client' = JDate (Some (now + 10 * 1000)) /\
      get "updatedAt" client' = JDate (Some stamp) /\
      forall k, k <> "oneTimeLinkExpiresAt" -> k <> "updatedAt" ->
                get k client' = get k client) /\
  wg0_json w' = Some (JSON_stringify rt (link_shortened clientId now stamp c)) /\
  fs_writes w' = "wg0.conf" :: "wg0.json" :: fs_writes w /\
  (WG_ENABLE_ONE_TIME_LINKS env = JString "true" ->
   (forall n, (clock_reads w' <= n)%nat -> now + 10 * 1000 < clock rt n) ->
   exists client'',
     cached_client clientId (snd (cronJobEveryMinute env rt w')) = Some client'' /\
     get "oneTimeLink" client'' = JNull /\
     get "oneTimeLinkExpiresAt" client'' = JNull).
Proof.
  intros H Hc Hlink now stamp w'. subst w'.
  rewrite (eraseOneTimeLink_loaded env rt w c clientId client H Hc).
  cbv zeta. fold now. fold stamp. simpl snd.
  set (client' := set "updatedAt" (JDate (Some stamp))
                    (set "oneTimeLinkExpiresAt" (JDate (Some (now + 10 * 1000))) client)).
  assert (Hfound : lookup_client clientId (clients (link_shortened clientId now stamp c))
                   = Some client').
  { exact (lookup_update_same clientId
             (fun o => set "updatedAt" (JDate (Some stamp))
                         (set "oneTimeLinkExpiresAt" (JDate (Some (now + 10 * 1000))) o))
             (clients c) client Hc). }
  assert (Hkeep : get "oneTimeLink" client' = get "oneTimeLink" client).
  { unfold client'. rewrite !get_set_other by discriminate. reflexivity. }
  assert (Hexp : get "oneTimeLinkExpiresAt" client' = JDate (Some (now + 10 * 1000))).
  { unfold client'. rewrite get_set_other by discriminate. apply get_set_same. }
  split.
  { exists client'. split; [unfold cached_client; simpl; exact Hfound|].
    split; [exact Hkeep|]. split; [exact Hexp|].
    split; [apply get_set_same|].
    intros k K1 K2. unfold client'. rewrite !get_set_other; auto. }
  split; [reflexivity|]. split; [reflexivity|].
  intros Hon Hlater.
  apply (cron_clears_link env rt _ (link_shortened clientId now stamp c) clientId client'
           (now + 10 * 1000)).
  - reflexivity.
  - rewrite Hon. reflexivity.
  - exact Hfound.
  - rewrite Hkeep. exact Hlink.
  - rewrite Hexp. reflexivity.
  - exact Hlater.
Qed.

Lemma eraseOneTimeLink_shortens_witness :
  let client := [("id", JString "a"); ("enabled", JBool true);
                 ("oneTimeLink", JString "5f3a9c01");
                 ("oneTimeLinkExpiresAt", JString "2023-11-14T22:18:20.000Z")] in
  let c := {| server := []; clients := [("a", client)] |} in
  let w' := snd (eraseOneTimeLink (Node.settings "true" "true") (Node.runtime "") "a"
                   (Node.loaded c)) in
  exists client',
    cached_client "a" w' = Some client' /\
    get "oneTimeLink" client' = JString "5f3a9c01" /\
    get "oneTimeLinkExpiresAt" client' = JDate (Some 1700000010000).
Proof.
  intros client c w'.
  assert (Hlink : get "oneTimeLink" client <> JNull) by discriminate.
  destruct (eraseOneTimeLink_shortens (Node.settings "true" "true") (Node.runtime "")
              (Node.loaded c) c "a" client eq_refl eq_refl Hlink)
    as ((client' & Hcached & Hkeep & Hexp & _) & _).
  exists client'. split; [exact Hcached|]. split; [exact Hkeep|exact Hexp].
Defined.

(** C6, as the claim words it, fails: a client holds the link
    ["5f3a9c01"]; once [eraseOneTimeLink] has completed, the cache still
    holds that link for it, not [null]. *)
Lemma eraseOneTimeLink_keeps_token :
  let client := [("id", JString "a"); ("enabled", JBool true);
                 ("oneTimeLink", JString "5f3a9c01");
                 ("oneTimeLinkExpiresAt", JString "2023-11-14T22:18:20.000Z")] in
  let c := {| server := []; clients := [("a", client)] |} in
  let run := eraseOneTimeLink (Node.settings "true" "true") (Node.runtime "") "a"
               (Node.loaded c) in
  get "oneTimeLink" client <> JNull /\
  fst run = inr tt /\
  (exists client',
      cached_client "a" (snd run) = Some client' /\
      get "oneTimeLink" client' = JString "5f3a9c01") /\
  ~ (exists client',
        cached_client "a" (snd run) = Some client' /\ get "oneTimeLink" client' = JNull).
Proof.
  intros client c run.
  split; [discriminate|]. split; [vm_compute; reflexivity|].
  assert (Hrun : cached_client "a" (snd run)
                 = Some [("id", JString "a"); ("enabled", JBool true);
                         ("oneTimeLink", JString "5f3a9c01");
                         ("oneTimeLinkExpiresAt", JDate (Some 1700000010000));
                         ("updatedAt", JDate (Some 1700000001000))])
    by (vm_compute; reflexivity).
  split.
  - eexists. split; [exact Hrun|reflexivity].
  - intros (client' & Hcached & Hnull). rewrite Hrun in Hcached.
    injection Hcached as <-. discriminate.
Qed.

(** ** The status merge *)

Section Merge.

Variable rt : Runtime.

Lemma update_first_none (p : obj -> bool) (f : obj -> obj) (l : list obj) :
  (forall v, In v l -> p v = false) -> update_first p f l = l.
Proof.
  induction l as [|v rest IH]; simpl; auto.
  intros Hnone. rewrite (Hnone v) by now left.
  f_equal. apply IH. intros v' Hv'. apply Hnone. now right.
Qed.

Lemma update_first_found (p : obj -> bool) (f : obj -> obj) (before after : list obj) (c : obj) :
  (forall v, In v before -> p v = false) -> p c = true ->
  update_first p f (before ++ c :: after)%list = (before ++ f c :: after)%list.
Proof.
  induction before as [|v rest IH]; simpl; intros Hnone Hc.
  - now rewrite Hc.
  - rewrite (Hnone v) by now left.
    f_equal. apply IH; auto.
Qed.

Lemma update_first_nth (p : obj -> bool) (f : obj -> obj) (l : list obj) (i : nat) (v : obj) :
  nth_error l i = Some v -> p v = false -> nth_error (update_first p f l) i = Some v.
Proof.
  revert i. induction l as [|v0 rest IH]; intros [|i]; simpl; try discriminate.
  - intros [= ->] Hp. now rewrite Hp.
  - intros Hi Hp. destruct (p v0); simpl; auto.
Qed.

Lemma update_first_map (A : Type) (g : obj -> A) (p : obj -> bool) (f : obj -> obj)
    (l : list obj) :
  (forall v, g (f v) = g v) -> map g (update_first p f l) = map g l.
Proof.
  intros Hg. induction l as [|v rest IH]; simpl; auto.
  destruct (p v); simpl; congruence.
Qed.

Lemma set_live_publicKey (e h rx tx ka : jsval) (client : obj) :
  get "publicKey" (set_live rt e h rx tx ka client) = get "publicKey" client.
Proof. unfold set_live. rewrite !get_set_other by discriminate. reflexivity. Qed.

Lemma set_live_fields (e h rx tx ka : jsval) (client : obj) :
  get "latestHandshakeAt" (set_live rt e h rx tx ka client)
  = (if strict_eq h (JString "0") then JNull
     else JDate (Number rt (JString (toStr rt h ++ "000")))) /\
  get "endpoint" (set_live rt e h rx tx ka client)
  = (if strict_eq e (JString "(none)") then JNull else e).
Proof.
  unfold set_live. split.
  - rewrite !get_set_other by discriminate. apply get_set_same.
  - rewrite !get_set_other by discriminate. apply get_set_same.
Qed.

Lemma merge_line_keys (views : list obj) (line : string) :
  map (get "publicKey") (merge_line rt views line) = map (get "publicKey") views.
Proof.
  unfold merge_line. apply update_first_map. intros v. apply set_live_publicKey.
Qed.

Lemma merge_line_unmatched (views : list obj) (line : string) :
  (forall v, In v views -> matches line v = false) -> merge_line rt views line = views.
Proof. intros Hnone. unfold merge_line. now apply update_first_none. Qed.

(** Whether a record matches some view depends on the public keys only. *)
Lemma matched_keys (line : string) (views views' : list obj) :
  map (get "publicKey") views' = map (get "publicKey") views ->
  existsb (matches line) views' = existsb (matches line) views.
Proof.
  revert views'. induction views as [|v rest IH]; intros [|v' rest']; simpl;
    try discriminate; auto.
  intros [= Hv Hrest]. unfold matches at 1 3. rewrite Hv. f_equal. auto.
Qed.

Lemma merge_ignores_unmatched (lines : list string) (views : list obj) :
  fold_left (merge_line rt) lines views
  = fold_left (merge_line rt)
      (filter (fun line => existsb (matches line) views) lines) views.
Proof.
  assert (Hgen : forall views0 views1,
             map (get "publicKey") views1 = map (get "publicKey") views0 ->
             fold_left (merge_line rt) lines views1
             = fold_left (merge_line rt)
                 (filter (fun line => existsb (matches line) views0) lines) views1).
  { induction lines as [|line rest IH]; intros views0 views1 Hk; simpl; auto.
    rewrite <- (matched_keys line views0 views1 Hk).
    destruct (existsb (matches line) views1) eqn:Hm; simpl.
    - apply IH. now rewrite merge_line_keys.
    - rewrite merge_line_unmatched; auto.
      intros v Hv. destruct (matches line v) eqn:Hmv; auto.
      assert (existsb (matches line) views1 = true)
        by (apply existsb_exists; exists v; auto).
      congruence. }
  now apply Hgen.
Qed.

Lemma merge_keeps_unmatched (lines : list string) (views : list obj) (i : nat) (v : obj) :
  nth_error views i = Some v ->
  (forall line, In line lines -> matches line v = false) ->
  nth_error (fold_left (merge_line rt) lines views) i = Some v.
Proof.
  revert views. induction lines as [|line rest IH]; intros views Hi Hnone; simpl; auto.
  apply IH.
  - unfold merge_line. apply update_first_nth; auto.
    apply (Hnone line). now left.
  - intros l Hl. apply Hnone. now right.
Qed.

(** What the five assignments leave in the live properties. *)
Lemma set_live_counters (e h rx tx ka : jsval) (client : obj) :
  get "transferRx" (set_live rt e h rx tx ka client) = JNumber (Number rt rx) /\
  get "transferTx" (set_live rt e h rx tx ka client) = JNumber (Number rt tx) /\
  get "persistentKeepalive" (set_live rt e h rx tx ka client) = ka.
Proof.
  unfold set_live. split; [|split].
  - rewrite !get_set_other by discriminate. apply get_set_same.
  - rewrite !get_set_other by discriminate. apply get_set_same.
  - apply get_set_same.
Qed.

Lemma set_live_id (e h rx tx ka : jsval) (client : obj) :
  get "id" (set_live rt e h rx tx ka client) = get "id" client.
Proof. unfold set_live. rewrite !get_set_other by discriminate. reflexivity. Qed.

(** The merge of any records keeps the [publicKey] and the [id] of every
    view. *)
Lemma merge_keys (lines : list string) (views : list obj) :
  map (get "publicKey") (fold_left (merge_line rt) lines views) = map (get "publicKey") views /\
  map (get "id") (fold_left (merge_line rt) lines views) = map (get "id") views.
Proof.
  revert views. induction lines as [|line rest IH]; intros views; simpl; [auto|].
  destruct (IH (merge_line rt views line)) as (Hk & Hi). split.
  - rewrite Hk. apply merge_line_keys.
  - rewrite Hi. unfold merge_line. apply update_first_map. intros v. apply set_live_id.
Qed.

(** A record updates the view at position [i] when that view carries its
    key and no view before it does. *)
Lemma merge_line_hits (views : list obj) (line : string) (i : nat) (v : obj) :
  nth_error views i = Some v ->
  matches line v = true ->
  (forall j u, (j < i)%nat -> nth_error views j = Some u -> matches line u = false) ->
  nth_error (merge_line rt views line) i
  = Some (set_live rt (element 2 (split tab line)) (element 4 (split tab line))
            (element 5 (split tab line)) (element 6 (split tab line))
            (element 7 (split tab line)) v).
Proof.
  unfold merge_line. fold (record_key line). fold (matches line).
  revert i. induction views as [|v0 rest IH]; intros [|i] Hi Hm Hbefore; simpl in *;
    try discriminate.
  - injection Hi as ->. now rewrite Hm.
  - rewrite (Hbefore 0%nat v0) by (simpl; auto with arith). simpl.
    apply IH; auto. intros j u Hj Hu. apply (Hbefore (S j) u); simpl; auto with arith.
Qed.

(** In the merge of a whole dump, the view at position [i] ends with the
    live properties of the last record that carries its key, when no view
    before it carries that key. *)
Lemma merge_last_record (before after : list string) (line : string) (views : list obj)
    (i : nat) (v : obj) :
  nth_error views i = Some v ->
  matches line v = true ->
  (forall j u, (j < i)%nat -> nth_error views j = Some u -> matches line u = false) ->
  (forall l, In l after -> matches l v = false) ->
  exists v1,
    nth_error (fold_left (merge_line rt) (before ++ line :: after)%list views) i
    = Some (set_live rt (element 2 (split tab line)) (element 4 (split tab line))
              (element 5 (split tab line)) (element 6 (split tab line))
              (element 7 (split tab line)) v1) /\
    get "publicKey" v1 = get "publicKey" v /\
    get "id" v1 = get "id" v.
Proof.
  intros Hi Hm Hbefore Hafter.
  rewrite fold_left_app. simpl.
  set (views1 := fold_left (merge_line rt) before views).
  destruct (merge_keys before views) as (Hk & Hid). fold views1 in Hk, Hid.
  assert (Hkey : forall j u, nth_error views j = Some u ->
                   exists u1, nth_error views1 j = Some u1 /\
                              get "publicKey" u1 = get "publicKey" u /\
                              get "id" u1 = get "id" u).
  { intros j u Hu.
    pose proof (f_equal (fun l => nth_error l j) Hk) as Ek.
    pose proof (f_equal (fun l => nth_error l j) Hid) as Ei.
    cbv beta in Ek, Ei. rewrite !nth_error_map, Hu in Ek, Ei.
    destruct (nth_error views1 j) as [u1|]; [|discriminate].
    exists u1. simpl in Ek, Ei. split; [reflexivity|]. split; congruence. }
  destruct (Hkey i v Hi) as (v1 & Hi1 & Hk1 & Hid1).
  exists v1. split; [|auto].
  apply merge_keeps_unmatched.
  - apply merge_line_hits; [exact Hi1| |].
    + unfold matches in *. now rewrite Hk1.
    + intros j u1 Hj Hu1.
      pose proof (f_equal (fun l => nth_error l j) Hk) as Ek. cbv beta in Ek.
      rewrite !nth_error_map, Hu1 in Ek.
      destruct (nth_error views j) as [u|] eqn:Hu; [|discriminate].
      simpl in Ek. unfold matches. injection Ek as ->.
      exact (Hbefore j u Hj Hu).
  - intros l Hl. unfold matches. rewrite set_live_publicKey, Hk1. exact (Hafter l Hl).
Qed.

End Merge.

(** C7. The callback of [getClients] on one record of the dump updates
    the first view whose [publicKey] is the first field of the record:
    [latestHandshakeAt] becomes [null] when the fifth field is the string
    ["0"] (and a [Date] otherwise), [endpoint] becomes [null] when the third
    field is ["(none)"] (and the field otherwise); a record whose key no
    view carries leaves the views as they are, so the merge of a whole dump
    is the merge of its matching records.  In the list [getClients]
    returns from a loaded cache, a client whose key no record of the dump
    carries has [null] in all five live properties, and a client whose key
    a record carries -- the first client of the map with that key -- has
    the live properties of the last such record: its handshake and
    endpoint with ["0"] and ["(none)"] read as [null], its two counters as
    numbers and its keepalive field. *)
Theorem status_merge (env : Settings) (rt : Runtime) :
  (forall (before after : list obj) (client : obj) (line : string),
      (forall v, In v before -> matches line v = false) ->
      matches line client = true ->
      exists client',
        merge_line rt (before ++ client :: after)%list line
        = (before ++ client' :: after)%list /\
        get "publicKey" client' = get "publicKey" client /\
        get "latestHandshakeAt" client'
        = (if strict_eq (element 4 (split tab line)) (JString "0") then JNull
           else JDate (Number rt (JString (toStr rt (element 4 (split tab line)) ++ "000")))) /\
        get "endpoint" client'
        = (if strict_eq (element 2 (split tab line)) (JString "(none)") then JNull
           else element 2 (split tab line)) /\
        (element 4 (split tab line) = JString "0" ->
         get "latestHandshakeAt" client' = JNull) /\
        (element 2 (split tab line) = JString "(none)" ->
         get "endpoint" client' = JNull)) /\
  (forall (views : list obj) (line : string),
      (forall v, In v views -> matches line v = false) ->
      merge_line rt views line = views) /\
  (forall (views : list obj) (lines : list string),
      fold_left (merge_line rt) lines views
      = fold_left (merge_line rt)
          (filter (fun line => existsb (matches line) views) lines) views) /\
  (forall (w : world) (c : config) (dump : string),
      configPromise w = Some (inr c) ->
      shell rt (length (execs w)) "wg show wg0 dump" = inr dump ->
      exists views,
        fst (getClients env rt w) = inr views /\
        forall i id client,
          nth_error (clients c) i = Some (id, client) ->
          (forall line, In line (dump_records dump) ->
                        strict_eq (get "publicKey" client) (record_key line) = false) ->
          exists view,
            nth_error views i = Some view /\
            get "id" view = JString id /\
            get "publicKey" view = get "publicKey" client /\
            get "latestHandshakeAt" view = JNull /\
            get "endpoint" view = JNull /\
            get "transferRx" view = JNull /\
            get "transferTx" view = JNull /\
            get "persistentKeepalive" view = JNull) /\
  (forall (w : world) (c : config) (dump : string),
      configPromise w = Some (inr c) ->
      shell rt (length (execs w)) "wg show wg0 dump" = inr dump ->
      exists views,
        fst (getClients env rt w) = inr views /\
        forall i id client before line after,
          nth_error (clients c) i = Some (id, client) ->
          dump_records dump = (before ++ line :: after)%list ->
          strict_eq (get "publicKey" client) (record_key line) = true ->
          (forall j id' client',
              (j < i)%nat -> nth_error (clients c) j = Some (id', client') ->
              strict_eq (get "publicKey" client') (record_key line) = false) ->
          (forall l, In l after ->
                     strict_eq (get "publicKey" client) (record_key l) = false) ->
          exists view,
            nth_error views i = Some view /\
            get "id" view = JString id /\
            get "publicKey" view = get "publicKey" client /\
            get "latestHandshakeAt" view
            = (if strict_eq (element 4 (split tab line)) (JString "0") then JNull
               else JDate (Number rt (JString (toStr rt (element 4 (split tab line))
                                               ++ "000")))) /\
            get "endpoint" view
            = (if strict_eq (element 2 (split tab line)) (JString "(none)") then JNull
               else element 2 (split tab line)) /\
            get "transferRx" view = JNumber (Number rt (element 5 (split tab line))) /\
            get "transferTx" view = JNumber (Number rt (element 6 (split tab line))) /\
            get "persistentKeepalive" view = element 7 (split tab line)).
Proof.
  split.
  { intros before after client line Hnone Hmatch.
    set (fields := split tab line).
    exists (set_live rt (element 2 fields) (element 4 fields) (element 5 fields)
              (element 6 fields) (element 7 fields) client).
    split; [unfold merge_line; now apply update_first_found|].
    split; [apply set_live_publicKey|].
    destruct (set_live_fields rt (element 2 fields) (element 4 fields) (element 5 fields)
                (element 6 fields) (element 7 fields) client) as (Hh & He).
    split; [exact Hh|]. split; [exact He|]. split.
    - intros E. rewrite Hh. fold fields in E. now rewrite E.
    - intros E. rewrite He. fold fields in E. now rewrite E. }
  split; [apply merge_line_unmatched|].
  split; [intros views lines; apply merge_ignores_unmatched|].
  split.
  { intros w c dump H Hdump.
    exists (fold_left (merge_line rt) (dump_records dump) (map (client_view rt) (clients c))).
    split.
    { unfold getClients, bind. rewrite (getConfig_loaded env rt w c H).
      unfold exec. rewrite Hdump. reflexivity. }
    intros i id client Hi Hnone.
    exists (client_view rt (id, client)). split.
    - apply merge_keeps_unmatched.
      + rewrite nth_error_map, Hi. reflexivity.
      + intros line Hline. unfold matches. apply (Hnone line Hline).
    - repeat split. }
  intros w c dump H Hdump.
  exists (fold_left (merge_line rt) (dump_records dump) (map (client_view rt) (clients c))).
  split.
  { unfold getClients, bind. rewrite (getConfig_loaded env rt w c H).
    unfold exec. rewrite Hdump. reflexivity. }
  intros i id client before line after Hi Hrecords Hmatch Hfirst Hlast.
  rewrite Hrecords.
  destruct (merge_last_record rt before after line (map (client_view rt) (clients c)) i
              (client_view rt (id, client)))
    as (v1 & Hnth & Hk1 & Hid1).
  - rewrite nth_error_map, Hi. reflexivity.
  - exact Hmatch.
  - intros j u Hj Hu. rewrite nth_error_map in Hu.
    destruct (nth_error (clients c) j) as [[id' client']|] eqn:Hj'; [|discriminate].
    injection Hu as <-. exact (Hfirst j id' client' Hj Hj').
  - intros l Hl. exact (Hlast l Hl).
  - eexists. split; [exact Hnth|].
    destruct (set_live_fields rt (element 2 (split tab line)) (element 4 (split tab line))
                (element 5 (split tab line)) (element 6 (split tab line))
                (element 7 (split tab line)) v1) as (Hh & He).
    destruct (set_live_counters rt (element 2 (split tab line)) (element 4 (split tab line))
                (element 5 (split tab line)) (element 6 (split tab line))
                (element 7 (split tab line)) v1) as (Hrx & Htx & Hka).
    split; [rewrite set_live_id; exact Hid1|].
    split; [rewrite set_live_publicKey; exact Hk1|].
    repeat split; assumption.
Qed.

Lemma status_merge_witness :
  let t := String tab EmptyString in
  let line := "pkA" ++ t ++ "(none)" ++ t ++ "(none)" ++ t ++ "10.8.0.2/32" ++ t ++
              "0" ++ t ++ "0" ++ t ++ "0" ++ t ++ "off" in
  let stray := "pkZ" ++ t ++ "(none)" ++ t ++ "203.0.113.7:51820" ++ t ++ "10.8.0.9/32" ++ t ++
               "1700000000" ++ t ++ "10" ++ t ++ "20" ++ t ++ "off" in
  let live := "pkD" ++ t ++ "(none)" ++ t ++ "203.0.113.9:40000" ++ t ++ "10.8.0.4/32" ++ t ++
              "1700000000" ++ t ++ "10" ++ t ++ "20" ++ t ++ "25" in
  let dump := "priv" ++ t ++ "pub" ++ t ++ "51820" ++ t ++ "off" ++ nl ++
              line ++ nl ++ stray ++ nl ++ live ++ nl in
  let a := [("name", JString "laptop"); ("publicKey", JString "pkA")] in
  let b := [("name", JString "phone"); ("publicKey", JString "pkB")] in
  let d := [("name", JString "tablet"); ("publicKey", JString "pkD")] in
  let c := {| server := []; clients := [("a", a); ("b", b); ("d", d)] |} in
  (exists view,
      merge_line (Node.runtime dump) [client_view (Node.runtime dump) ("a", a)] line = [view] /\
      get "latestHandshakeAt" view = JNull /\ get "endpoint" view = JNull) /\
  (exists views view,
      fst (getClients (Node.settings "true" "true") (Node.runtime dump) (Node.loaded c))
      = inr views /\
      nth_error views 1 = Some view /\
      get "id" view = JString "b" /\ get "endpoint" view = JNull) /\
  (exists views view,
      fst (getClients (Node.settings "true" "true") (Node.runtime dump) (Node.loaded c))
      = inr views /\
      nth_error views 2 = Some view /\
      get "id" view = JString "d" /\
      get "endpoint" view = JString "203.0.113.9:40000" /\
      get "latestHandshakeAt" view = JDate (Some 1700000000000) /\
      get "transferRx" view = JNumber (Some 10) /\
      get "transferTx" view = JNumber (Some 20) /\
      get "persistentKeepalive" view = JString "25").
Proof.
  intros t line stray live dump a b d c.
  destruct (status_merge (Node.settings "true" "true") (Node.runtime dump))
    as (Hline & _ & _ & Hall & Hmerged).
  assert (Hrecords : dump_records dump = [line; stray; live]) by (vm_compute; reflexivity).
  split; [|split].
  - destruct (Hline [] [] (client_view (Node.runtime dump) ("a", a)) line)
      as (view & Hmerge & _ & Hhandshake & Hendpoint & _).
    + intros v [].
    + vm_compute; reflexivity.
    + exists view. split; [exact Hmerge|]. split.
      * rewrite Hhandshake. vm_compute; reflexivity.
      * rewrite Hendpoint. vm_compute; reflexivity.
  - destruct (Hall (Node.loaded c) c dump eq_refl) as (views & Hviews & Hpeers).
    + vm_compute; reflexivity.
    + destruct (Hpeers 1%nat "b" b eq_refl) as (view & Hnth & Hid & _ & _ & Hendpoint & _).
      * rewrite Hrecords. intros l [<- | [<- | [<- | []]]]; vm_compute; reflexivity.
      * exists views, view. auto.
  - destruct (Hmerged (Node.loaded c) c dump eq_refl) as (views & Hviews & Hpeers).
    + vm_compute; reflexivity.
    + destruct (Hpeers 2%nat "d" d [line; stray] live [] eq_refl Hrecords)
        as (view & Hnth & Hid & _ & Hhandshake & Hendpoint & Hrx & Htx & Hka).
      * vm_compute; reflexivity.
      * intros [|[|j]] id' client' Hj Hj'.
        -- injection Hj' as <- <-. vm_compute; reflexivity.
        -- injection Hj' as <- <-. vm_compute; reflexivity.
        -- exfalso. clear - Hj. lia.
      * intros l [].
      * exists views, view.
        split; [exact Hviews|]. split; [exact Hnth|]. split; [exact Hid|].
        split; [rewrite Hendpoint; vm_compute; reflexivity|].
        split; [rewrite Hhandshake; vm_compute; reflexivity|].
        split; [rewrite Hrx; vm_compute; reflexivity|].
        split; [rewrite Htx; vm_compute; reflexivity|].
        rewrite Hka. vm_compute; reflexivity.
Defined.

(** ** The rendered daemon configuration *)

Lemma append_assoc (a b c : string) : ((a ++ b) ++ c)%string = (a ++ (b ++ c))%string.
Proof. induction a as [|ch a IH]; simpl; congruence. Qed.

Lemma append_nil_r (a : string) : (a ++ "")%string = a.
Proof. induction a as [|ch a IH]; simpl; congruence. Qed.

Lemma split_from_nonempty (sep : ascii) (cur s : string) : split_from sep cur s <> [].
Proof.
  revert cur. induction s as [|ch s IH]; intros cur; simpl; [discriminate|].
  destruct (Ascii.eqb ch sep); [discriminate|apply IH].
Qed.

Lemma split_from_app (sep : ascii) (cur a b : string) :
  split_from sep cur (a ++ b)
  = (removelast (split_from sep cur a)
       ++ split_from sep (last (split_from sep cur a) EmptyString) b)%list.
Proof.
  revert cur. induction a as [|ch a IH]; intros cur; simpl; auto.
  destruct (Ascii.eqb ch sep).
  - rewrite IH.
    destruct (split_from sep "" a) eqn:E; [now apply split_from_nonempty in E|].
    reflexivity.
  - apply IH.
Qed.

Lemma split_from_plain (cur a s : string) :
  one_line a = true ->
  split_from "010"%char cur (a ++ s) = split_from "010"%char (cur ++ a) s.
Proof.
  revert cur. induction a as [|ch a IH]; intros cur Ha; simpl.
  - now rewrite append_nil_r.
  - simpl in Ha. apply andb_true_iff in Ha. destruct Ha as [Hch Ha].
    apply negb_true_iff in Hch. rewrite Hch, (IH _ Ha), append_assoc. reflexivity.
Qed.

Lemma split_from_plain_end (cur a : string) :
  one_line a = true -> split_from "010"%char cur a = [(cur ++ a)%string].
Proof.
  intros Ha. rewrite <- (append_nil_r a) at 1. now rewrite split_from_plain.
Qed.

Lemma lines_app (r s : string) :
  lines (r ++ s)
  = (removelast (lines r) ++ split_from "010"%char (last (lines r) EmptyString) s)%list.
Proof. apply split_from_app. Qed.

Lemma lines_last (r : string) :
  lines r = (removelast (lines r) ++ [last (lines r) EmptyString])%list.
Proof. apply app_removelast_last, split_from_nonempty. Qed.

Lemma last_app_cons (A : Type) (l l' : list A) (x d : A) :
  last (l ++ x :: l')%list d = last (x :: l') d.
Proof.
  induction l as [|y l IH]; auto.
  simpl app. rewrite <- IH. simpl. destruct (l ++ x :: l')%list eqn:E; auto.
  now destruct l.
Qed.

(** A text that ends with a line feed leaves an empty last line, whatever
    comes before it. *)
Lemma ends_with_newline_app (a b : string) :
  (forall cur, last (split_from "010"%char cur b) EmptyString = EmptyString) ->
  forall cur, last (split_from "010"%char cur (a ++ b)) EmptyString = EmptyString.
Proof.
  intros Hb cur. rewrite split_from_app.
  destruct (split_from "010"%char (last (split_from "010"%char cur a) "") b) eqn:E.
  - now apply split_from_nonempty in E.
  - rewrite last_app_cons, <- E. apply Hb.
Qed.

Section Render.

Variable env : Settings.
Variable rt : Runtime.

Lemma render_clients_join (entries : list (string * obj)) (result : string) :
  render_clients rt entries result
  = (result ++ join (map (fun entry => peer_block rt (fst entry) (snd entry))
                        (filter (fun entry => is_enabled (snd entry)) entries)))%string.
Proof.
  revert result. induction entries as [|[id client] rest IH]; intros result; simpl.
  - now rewrite append_nil_r.
  - unfold is_enabled at 1. simpl snd.
    destruct (truthy (get "enabled" client)); simpl.
    + rewrite IH, append_assoc. reflexivity.
    + apply IH.
Qed.

(** The lines a peer block adds to a text whose last line is [cur]. *)
Lemma peer_block_lines (cur id : string) (client : obj) :
  printed_on_one_line rt (id, client) = true ->
  split_from "010"%char cur (peer_block rt id client)
  = ([cur; EmptyString;
      "# Client: " ++ toStr rt (get "name" client) ++ " (" ++ id ++ ")";
      "[Peer]";
      "PublicKey = " ++ toStr rt (get "publicKey" client)]%string
     ++ (if truthy (get "preSharedKey" client)
         then ["PresharedKey = " ++ toStr rt (get "preSharedKey" client)]%string
         else [])
     ++ ["AllowedIPs = " ++ toStr rt (get "address" client) ++ "/32"]%string)%list.
Proof.
  unfold printed_on_one_line. simpl fst. simpl snd. intros H.
  repeat (apply andb_true_iff in H; destruct H as [H ?]).
  unfold peer_block, nl.
  destruct (truthy (get "preSharedKey" client));
    repeat (simpl; rewrite ?append_assoc; rewrite split_from_plain by assumption);
    simpl; rewrite ?append_assoc; reflexivity.
Qed.

Lemma count_app_peer (l1 l2 : list string) :
  count_occ string_dec (l1 ++ l2)%list "[Peer]"
  = (count_occ string_dec l1 "[Peer]" + count_occ string_dec l2 "[Peer]")%nat.
Proof. apply count_occ_app. Qed.

(** Appending the block of a client adds one [[Peer]] line, and the text
    then ends with the [AllowedIPs] line of that client. *)
Lemma peer_block_sections (result id : string) (client : obj) :
  printed_on_one_line rt (id, client) = true ->
  last (lines result) EmptyString <> "[Peer]" ->
  peer_sections (result ++ peer_block rt id client) = S (peer_sections result) /\
  last (lines (result ++ peer_block rt id client)) EmptyString
  = ("AllowedIPs = " ++ toStr rt (get "address" client) ++ "/32")%string.
Proof.
  intros Hone Hlast. unfold peer_sections.
  rewrite lines_app, (peer_block_lines _ id client Hone).
  rewrite (lines_last result) at 3.
  set (closed := removelast (lines result)).
  set (open := last (lines result) EmptyString) in *.
  split.
  - rewrite !count_app_peer. simpl.
    destruct (string_dec open "[Peer]") as [E|_]; [contradiction|].
    destruct (truthy (get "preSharedKey" client)); simpl; lia.
  - destruct (truthy (get "preSharedKey" client)); simpl;
      rewrite last_app_cons; reflexivity.
Qed.

(** The loop adds one [[Peer]] line for each client it does not skip. *)
Lemma render_clients_sections (entries : list (string * obj)) (result : string) :
  (forall entry, In entry entries -> is_enabled (snd entry) = true ->
                 printed_on_one_line rt entry = true) ->
  last (lines result) EmptyString <> "[Peer]" ->
  peer_sections (render_clients rt entries result)
  = (peer_sections result
     + List.length (filter (fun entry => is_enabled (snd entry)) entries))%nat.
Proof.
  revert result. induction entries as [|[id client] rest IH]; intros result Hone Hlast; simpl.
  - lia.
  - unfold is_enabled at 1. simpl snd.
    destruct (truthy (get "enabled" client)) eqn:Hen; simpl.
    + destruct (peer_block_sections result id client) as (Hcount & Hopen); auto.
      { apply (Hone (id, client)); [now left|exact Hen]. }
      rewrite IH.
      * rewrite Hcount. lia.
      * intros entry Hin. apply Hone. now right.
      * rewrite Hopen. discriminate.
    + apply IH; auto. intros entry Hin. apply Hone. now right.
Qed.

Lemma interface_block_open (server : obj) :
  last (lines (interface_block env rt server)) EmptyString = EmptyString.
Proof.
  unfold interface_block, lines, split.
  repeat apply ends_with_newline_app. intros cur. reflexivity.
Qed.



End Render.

(** C4. The text [__saveConfig] writes to [wg0.conf] is the interface
    block followed by the blocks of the clients the loop does not skip
    (those whose [enabled] is truthy), in the order of the map, and by
    nothing else.  When the printed properties hold no line feed, a block
    is made of the lines listed below, the last one being
    [AllowedIPs = <address>/32], and the text has one [[Peer]] line per
    enabled client on top of those of the interface block.  With a client A
    enabled and a client B disabled the text is the interface block and the
    block of A. *)
Theorem rendered_peer_blocks (env : Settings) (rt : Runtime) (c : config) :
  render env rt c
  = (interface_block env rt (server c)
     ++ join (map (fun entry => peer_block rt (fst entry) (snd entry))
                  (enabled_entries c)))%string /\
  (forall w, wg0_conf (snd (__saveConfig env rt c w)) = Some (render env rt c)) /\
  (forall id client,
      printed_on_one_line rt (id, client) = true ->
      lines (peer_block rt id client)
      = ([EmptyString; EmptyString;
          "# Client: " ++ toStr rt (get "name" client) ++ " (" ++ id ++ ")";
          "[Peer]";
          "PublicKey = " ++ toStr rt (get "publicKey" client)]%string
         ++ (if truthy (get "preSharedKey" client)
             then ["PresharedKey = " ++ toStr rt (get "preSharedKey" client)]%string
             else [])
         ++ ["AllowedIPs = " ++ toStr rt (get "address" client) ++ "/32"]%string)%list) /\
  ((forall entry, In entry (enabled_entries c) -> printed_on_one_line rt entry = true) ->
   peer_sections (render env rt c)
   = (peer_sections (interface_block env rt (server c))
      + List.length (enabled_entries c))%nat) /\
  (forall idA A idB B,
      clients c = [(idA, A); (idB, B)] ->
      is_enabled A = true -> is_enabled B = false ->
      render env rt c = (interface_block env rt (server c) ++ peer_block rt idA A)%string).
Proof.
  split; [apply render_clients_join|].
  split; [reflexivity|].
  split; [intros id client; apply peer_block_lines|].
  split.
  - intros Hone. unfold render. apply render_clients_sections.
    + intros entry Hin Hen. apply Hone. unfold enabled_entries.
      apply filter_In. auto.
    + rewrite interface_block_open. discriminate.
  - intros idA A idB B Hc HA HB. unfold render. rewrite Hc. simpl.
    unfold is_enabled in HA, HB. rewrite HA, HB. reflexivity.
Qed.

Lemma rendered_peer_blocks_witness :
  let a := [("name", JString "laptop"); ("address", JString "10.8.0.2");
            ("publicKey", JString "pkA"); ("preSharedKey", JString "pskA");
            ("enabled", JBool true)] in
  let b := [("name", JString "phone"); ("address", JString "10.8.0.3");
            ("publicKey", JString "pkB"); ("preSharedKey", JString "pskB");
            ("enabled", JBool false)] in
  let c := {| server := [("privateKey", JString "priv"); ("address", JString "10.8.0.1")];
              clients := [("a", a); ("b", b)] |} in
  peer_sections (render (Node.settings "true" "true") (Node.runtime "") c) = 1%nat /\
  last (lines (peer_block (Node.runtime "") "a" a)) EmptyString = "AllowedIPs = 10.8.0.2/32".
Proof.
  intros a b c.
  destruct (rendered_peer_blocks (Node.settings "true" "true") (Node.runtime "") c)
    as (_ & _ & Hlines & Hsections & _).
  split.
  - rewrite Hsections.
    + vm_compute; reflexivity.
    + intros entry [<- | []]. vm_compute; reflexivity.
  - rewrite (Hlines "a" a) by (vm_compute; reflexivity). reflexivity.
Defined.

(** The count of C4 needs the condition on line feeds.  [updateClientName]
    stores any string: after it has stored a name of four lines for the
    one enabled client of a registry, the text written to [wg0.conf] has
    two [[Peer]] lines for that one client, none of them from the interface
    block, and a line [AllowedIPs = 0.0.0.0/0] that is not the address of
    the client with [/32]. *)
Lemma rendered_peer_blocks_multiline_name :
  let env := Node.settings "true" "true" in
  let rt := Node.runtime "" in
  let name := "x" ++ nl ++ "[Peer]" ++ nl ++ "AllowedIPs = 0.0.0.0/0" ++ nl ++ "# y" in
  let a := [("name", JString "laptop"); ("address", JString "10.8.0.2");
            ("publicKey", JString "pkA"); ("enabled", JBool true)] in
  let c := {| server := [("privateKey", JString "priv"); ("address", JString "10.8.0.1")];
              clients := [("a", a)] |} in
  let w' := snd (updateClientName env rt "a" (JString name) (Node.loaded c)) in
  let c' := {| server := server c;
               clients := [("a", set "updatedAt" (JDate (Some (Node.clock 0)))
                                   (set "name" (JString name) a))] |} in
  configPromise w' = Some (inr c') /\
  wg0_conf w' = Some (render env rt c') /\
  List.length (enabled_entries c') = 1%nat /\
  peer_sections (interface_block env rt (server c')) = 0%nat /\
  peer_sections (render env rt c') = 2%nat /\
  existsb (String.eqb "AllowedIPs = 0.0.0.0/0") (lines (render env rt c')) = true /\
  last (lines (render env rt c')) EmptyString = "AllowedIPs = 10.8.0.2/32".
Proof.
  intros env rt name a c w' c'.
  repeat split; vm_compute; reflexivity.
Qed.

(** ** Backup and restore *)

Section Backup.

Variable env : Settings.
Variable rt : Runtime.

Lemma parse_stringify_obj (o : obj) :
  parse_obj (stringify_obj rt o) = obj_json_form rt o.
Proof.
  unfold obj_json_form. induction o as [|[k v] rest IH]; simpl; auto.
  destruct v as [| |b|[n|]|s|[t|]]; simpl; rewrite ?IH; reflexivity.
Qed.

Lemma parse_stringify (c : config) :
  JSON_parse (JSON_stringify rt c) = json_form rt c.
Proof.
  unfold JSON_parse, JSON_stringify, json_form. simpl. rewrite parse_stringify_obj.
  f_equal. rewrite map_map. apply map_ext. intros [id client]. simpl.
  now rewrite parse_stringify_obj.
Qed.

Lemma stringify_parse_obj (o : jsonobj) : stringify_obj rt (parse_obj o) = o.
Proof.
  induction o as [|[k j] rest IH]; simpl; auto.
  destruct j; simpl; now rewrite IH.
Qed.

Lemma stringify_parse (d : snapshot_doc) : JSON_stringify rt (JSON_parse d) = d.
Proof.
  destruct d as [s cs]. unfold JSON_stringify, JSON_parse. simpl.
  rewrite stringify_parse_obj. f_equal.
  rewrite map_map. rewrite <- (map_id cs) at 2. apply map_ext.
  intros [id o]. simpl. now rewrite stringify_parse_obj.
Qed.

Lemma obj_json_form_plain (o : obj) : obj_in_json_form o = true -> obj_json_form rt o = o.
Proof.
  unfold obj_in_json_form, obj_json_form.
  induction o as [|[k v] rest IH]; simpl; auto.
  intros H. apply andb_true_iff in H. destruct H as [Hv Hrest].
  destruct v as [| |b|[n|]|s|[t|]]; try discriminate; simpl; now rewrite IH.
Qed.

Lemma json_form_plain (c : config) : in_json_form c = true -> json_form rt c = c.
Proof.
  destruct c as [s cs]. unfold in_json_form, json_form. simpl.
  intros H. apply andb_true_iff in H. destruct H as [Hs Hcs].
  rewrite (obj_json_form_plain s Hs). f_equal.
  induction cs as [|[id o] rest IH]; simpl in *; auto.
  apply andb_true_iff in Hcs. destruct Hcs as [Ho Hrest].
  now rewrite (obj_json_form_plain o Ho), IH.
Qed.

Lemma json_form_lookup (c : config) (id : string) (client : obj) :
  lookup_client id (clients c) = Some client ->
  lookup_client id (clients (json_form rt c)) = Some (obj_json_form rt client).
Proof.
  unfold json_form. simpl. induction (clients c) as [|[k o] rest IH]; simpl; [discriminate|].
  destruct (String.eqb id k); auto. now intros [= ->].
Qed.

Lemma backupConfiguration_loaded (w : world) (c : config) :
  configPromise w = Some (inr c) ->
  backupConfiguration env rt w = (inr (JSON_stringify rt c), w).
Proof.
  intros H. unfold backupConfiguration, bind. now rewrite (getConfig_loaded env rt w c H).
Qed.

(** [restoreConfiguration] writes the parsed text, reads it back from
    [wg0.json] and makes that the cache, before the daemon is
    synchronised. *)
Lemma restoreConfiguration_cache (w : world) (text : snapshot_doc) :
  truthy (WG_HOST env) = true ->
  let w' := snd (restoreConfiguration env rt text w) in
  configPromise w' = Some (inr (JSON_parse text)) /\
  wg0_json w' = Some text /\
  wg0_conf w' = Some (render env rt (JSON_parse text)).
Proof.
  intros Hhost. unfold restoreConfiguration, __reloadConfig, __buildConfig, buildConfig_body,
    __saveConfig, __syncConfig, bind, catch, writeFile_wg0_json, writeFile_wg0_conf,
    readFile_wg0_json, exec, ret.
  rewrite Hhost. simpl. rewrite !stringify_parse.
  destruct (shell rt (length (execs w)) "wg syncconf wg0 <(wg-quick strip wg0)");
    simpl; auto.
Qed.

End Backup.

(** C9, as the code has it.  On a loaded cache (and with [WG_HOST] set, as
    every load requires), [backupConfiguration] followed by
    [restoreConfiguration] of the text it returned leaves in the cache the
    JSON form of the configuration: the same client ids in the same order,
    the server and each client with their properties read back from JSON
    -- a property holding a [Date] object now holds its ISO string, one
    holding an Invalid Date or [NaN] holds [null], one holding [undefined]
    is gone, every other property is as it was.  A configuration that is in
    JSON form already, as one loaded from [wg0.json] is, comes back
    identical; and [wg0.json] holds the text of the backup. *)
Theorem backup_restore (env : Settings) (rt : Runtime) (w : world) (c : config) :
  configPromise w = Some (inr c) ->
  truthy (WG_HOST env) = true ->
  exists text,
    backupConfiguration env rt w = (inr text, w) /\
    let w' := snd (restoreConfiguration env rt text w) in
    configPromise w' = Some (inr (json_form rt c)) /\
    wg0_json w' = Some text /\
    map fst (clients (json_form rt c)) = map fst (clients c) /\
    server (json_form rt c) = obj_json_form rt (server c) /\
    (forall id client,
        lookup_client id (clients c) = Some client ->
        cached_client id w' = Some (obj_json_form rt client)) /\
    (in_json_form c = true -> configPromise w' = Some (inr c)).
Proof.
  intros H Hhost. exists (JSON_stringify rt c).
  split; [now apply backupConfiguration_loaded|].
  destruct (restoreConfiguration_cache env rt w (JSON_stringify rt c) Hhost)
    as (Hcache & Hjson & _).
  rewrite parse_stringify in Hcache. cbv zeta.
  split; [exact Hcache|]. split; [exact Hjson|].
  split.
  { unfold json_form. simpl. rewrite map_map. reflexivity. }
  split; [reflexivity|].
  split.
  { intros id client Hc. unfold cached_client. rewrite Hcache.
    now apply json_form_lookup. }
  intros Hplain. rewrite Hcache. now rewrite json_form_plain.
Qed.

Lemma backup_restore_witness :
  let client := [("id", JString "a"); ("name", JString "laptop");
                 ("address", JString "10.8.0.2"); ("enabled", JBool true);
                 ("updatedAt", JString "2023-11-01T00:00:00.000Z");
                 ("expiredAt", JNull)] in
  let c := {| server := [("privateKey", JString "priv"); ("publicKey", JString "pub");
                         ("address", JString "10.8.0.1")];
              clients := [("a", client)] |} in
  let env := Node.settings "true" "true" in
  let rt := Node.runtime "" in
  exists text,
    backupConfiguration env rt (Node.loaded c) = (inr text, Node.loaded c) /\
    configPromise (snd (restoreConfiguration env rt text (Node.loaded c))) = Some (inr c).
Proof.
  intros client c env rt.
  destruct (backup_restore env rt (Node.loaded c) c eq_refl eq_refl)
    as (text & Hbackup & _ & _ & _ & _ & _ & Hsame).
  exists text. split; [exact Hbackup|]. apply Hsame. reflexivity.
Defined.

(** C9, as the claim words it, fails on a registry that was modified in
    this process: [enableClient] leaves a [Date] object in [updatedAt];
    after [backupConfiguration] and [restoreConfiguration], with nothing in
    between, the cache holds a string there, so the configuration is not
    the one that was backed up. *)
Lemma backup_restore_changes_dates :
  let client := [("id", JString "a"); ("name", JString "laptop");
                 ("address", JString "10.8.0.2"); ("enabled", JBool false);
                 ("updatedAt", JString "2023-11-01T00:00:00.000Z")] in
  let c := {| server := [("privateKey", JString "priv"); ("publicKey", JString "pub");
                         ("address", JString "10.8.0.1")];
              clients := [("a", client)] |} in
  let env := Node.settings "true" "true" in
  let rt := Node.runtime "" in
  let w := snd (enableClient env rt "a" (Node.loaded c)) in
  let backup := backupConfiguration env rt w in
  exists text before after,
    backup = (inr text, w) /\
    configPromise w = Some (inr before) /\
    configPromise (snd (restoreConfiguration env rt text w)) = Some (inr after) /\
    after <> before /\
    (exists o, lookup_client "a" (clients before) = Some o /\
               get "updatedAt" o = JDate (Some 1700000000000)) /\
    (exists o, lookup_client "a" (clients after) = Some o /\
               get "updatedAt" o = JString "2023-11-14T22:13:20.000Z").
Proof.
  intros client c env rt w backup.
  set (stamped := fun (stamp : jsval) =>
         {| server := [("privateKey", JString "priv"); ("publicKey", JString "pub");
                       ("address", JString "10.8.0.1")];
            clients := [("a", [("id", JString "a"); ("name", JString "laptop");
                               ("address", JString "10.8.0.2"); ("enabled", JBool true);
                               ("updatedAt", stamp)])] |}).
  exists (JSON_stringify rt (stamped (JDate (Some 1700000000000)))),
    (stamped (JDate (Some 1700000000000))),
    (stamped (JString "2023-11-14T22:13:20.000Z")).
  split; [vm_compute; reflexivity|].
  split; [vm_compute; reflexivity|].
  split; [vm_compute; reflexivity|].
  split; [discriminate|].
  split; eexists; split; reflexivity.
Qed.

(** ** First start *)

Section FirstBoot.

Variable env : Settings.
Variable rt : Runtime.

Lemma buildConfig_first_boot (w : world) (privateKey publicKey : string) (cidr : subnet) :
  wg0_json w = None ->
  truthy (WG_HOST env) = true ->
  shell rt (length (execs w)) "wg genkey" = inr privateKey ->
  shell rt (S (length (execs w))) ("echo " ++ privateKey ++ " | wg pubkey") = inr publicKey ->
  ip_cidrSubnet rt (WG_DEFAULT_ADDRESS env) = inr cidr ->
  __buildConfig env rt w
  = (inr (generated privateKey publicKey cidr),
     with_promise (Some (inr (generated privateKey publicKey cidr)))
       (log_exec ("echo " ++ privateKey ++ " | wg pubkey") (log_exec "wg genkey" w))).
Proof.
  intros Hfile Hhost Hpriv Hpub Hcidr.
  unfold __buildConfig, buildConfig_body. rewrite Hhost. cbn [negb].
  unfold catch, bind at 1. unfold readFile_wg0_json. rewrite Hfile.
  unfold bind at 1. unfold exec at 1. rewrite Hpriv.
  unfold bind at 1. unfold exec at 1. cbn [execs log_exec length]. rewrite Hpub, Hcidr.
  reflexivity.
Qed.

(** The steps of the first [getConfig] that follow [__saveConfig] run
    commands only. *)
Lemma bring_up_keeps_files (c : config) (w : world) :
  let w' := snd ((catch (exec rt "wg-quick down wg0" ;;; ret tt) (fun _ => ret tt) ;;;
                  catch (exec rt "wg-quick up wg0" ;;; ret tt)
                    (fun err =>
                       if includes no_device (message_of err)
                       then throw (Error no_kernel_support)
                       else throw err) ;;;
                  __syncConfig rt ;;;
                  ret c) w) in
  configPromise w' = configPromise w /\ wg0_json w' = wg0_json w /\ wg0_conf w' = wg0_conf w.
Proof.
  unfold __syncConfig, catch, bind, exec, ret, throw.
  destruct (shell rt (length (execs w)) "wg-quick down wg0"); cbn [fst snd execs log_exec length];
    (destruct (shell rt (S (length (execs w))) "wg-quick up wg0") as [e'|out'];
     cbn [fst snd execs log_exec length];
     [destruct (includes no_device (message_of e')); cbn [fst snd]; auto|];
     destruct (shell rt (S (S (length (execs w)))) "wg syncconf wg0 <(wg-quick strip wg0)");
     cbn [fst snd]; auto).
Qed.

Lemma saveConfig_writes (c : config) (w : world) :
  __saveConfig env rt c w
  = (inr tt, put_conf (render env rt c) (put_json (JSON_stringify rt c) w)).
Proof. reflexivity. Qed.

Lemma getConfig_first_boot (w : world) (privateKey publicKey : string) (cidr : subnet) :
  configPromise w = None ->
  wg0_json w = None ->
  truthy (WG_HOST env) = true ->
  shell rt (length (execs w)) "wg genkey" = inr privateKey ->
  shell rt (S (length (execs w))) ("echo " ++ privateKey ++ " | wg pubkey") = inr publicKey ->
  ip_cidrSubnet rt (WG_DEFAULT_ADDRESS env) = inr cidr ->
  getConfig env rt w
  = (catch (exec rt "wg-quick down wg0" ;;; ret tt) (fun _ => ret tt) ;;;
     catch (exec rt "wg-quick up wg0" ;;; ret tt)
       (fun err =>
          if includes no_device (message_of err)
          then throw (Error no_kernel_support)
          else throw err) ;;;
     __syncConfig rt ;;;
     ret (generated privateKey publicKey cidr))
      (put_conf (render env rt (generated privateKey publicKey cidr))
         (put_json (JSON_stringify rt (generated privateKey publicKey cidr))
            (with_promise (Some (inr (generated privateKey publicKey cidr)))
               (log_exec ("echo " ++ privateKey ++ " | wg pubkey")
                  (log_exec "wg genkey" w))))).
Proof.
  intros Hnone Hfile Hhost Hpriv Hpub Hcidr.
  unfold getConfig. rewrite Hnone.
  unfold bind at 1.
  rewrite (buildConfig_first_boot w privateKey publicKey cidr Hfile Hhost Hpriv Hpub Hcidr).
  unfold bind at 1. rewrite saveConfig_writes. reflexivity.
Qed.

End FirstBoot.

(** C2 on the code.  When nothing is cached, [wg0.json] cannot be read,
    [WG_HOST] is set and the two key commands and [ip.cidrSubnet] succeed,
    [getConfig] caches and writes a server object with the properties
    [privateKey], [publicKey] and [firstAddress]: the first address of the
    subnet is there, but under the name [firstAddress]; the object has no
    [address], and the [Address] line of the rendered interface block,
    which reads [config.server.address], prints [undefined]. *)
Theorem first_boot_server_object (env : Settings) (rt : Runtime) (w : world)
    (privateKey publicKey : string) (cidr : subnet) :
  configPromise w = None ->
  wg0_json w = None ->
  truthy (WG_HOST env) = true ->
  shell rt (length (execs w)) "wg genkey" = inr privateKey ->
  shell rt (S (length (execs w))) ("echo " ++ privateKey ++ " | wg pubkey") = inr publicKey ->
  ip_cidrSubnet rt (WG_DEFAULT_ADDRESS env) = inr cidr ->
  let w' := snd (getConfig env rt w) in
  let c := generated privateKey publicKey cidr in
  configPromise w' = Some (inr c) /\
  get "firstAddress" (server c) = JString (firstAddress cidr) /\
  get "address" (server c) = JUndefined /\
  wg0_json w'
  = Some {| doc_server := [("privateKey", JsonString privateKey);
                           ("publicKey", JsonString publicKey);
                           ("firstAddress", JsonString (firstAddress cidr))];
            doc_clients := [] |} /\
  wg0_conf w' = Some (interface_block env rt (server c)) /\
  exists before after,
    interface_block env rt (server c)
    = (before ++ "Address = undefined" ++ nl ++ after)%string.
Proof.
  intros Hnone Hfile Hhost Hpriv Hpub Hcidr w' c. subst w'.
  rewrite (getConfig_first_boot env rt w privateKey publicKey cidr
             Hnone Hfile Hhost Hpriv Hpub Hcidr).
  fold c.
  match goal with
  | |- context [snd (?m ?w0)] =>
      destruct (bring_up_keeps_files rt c w0) as (Hp & Hj & Hc)
  end.
  rewrite Hp, Hj, Hc. cbn [configPromise wg0_json wg0_conf put_conf put_json with_promise].
  split; [reflexivity|]. split; [reflexivity|]. split; [reflexivity|].
  split; [reflexivity|]. split; [reflexivity|].
  unfold interface_block. cbn [get server c generated].
  exists (nl ++ "# Note: Do not edit this file directly." ++ nl ++
          "# Your changes will be overwritten!" ++ nl ++ nl ++ "# Server" ++ nl ++
          "[Interface]" ++ nl ++ "PrivateKey = " ++ toStr rt (JString privateKey) ++ nl)%string.
  eexists. rewrite !append_assoc. reflexivity.
Qed.

Lemma first_boot_server_object_witness :
  let env := Node.settings "true" "true" in
  let rt := Node.runtime "" in
  let w' := snd (getConfig env rt (Node.boot None)) in
  configPromise w'
  = Some (inr {| server := [("privateKey", JString "key0"); ("publicKey", JString "key1");
                            ("firstAddress", JString "10.8.0.1")];
                 clients := [] |}) /\
  wg0_json w'
  = Some {| doc_server := [("privateKey", JsonString "key0");
                           ("publicKey", JsonString "key1");
                           ("firstAddress", JsonString "10.8.0.1")];
            doc_clients := [] |} /\
  exists conf, wg0_conf w' = Some conf /\ In "Address = undefined" (lines conf).
Proof.
  intros env rt w'.
  destruct (first_boot_server_object env rt (Node.boot None) "key0" "key1"
              {| firstAddress := "10.8.0.1"; lastAddress := "10.8.0.254" |}
              eq_refl eq_refl eq_refl eq_refl eq_refl eq_refl)
    as (Hcache & _ & _ & Hjson & Hconf & _).
  split; [exact Hcache|]. split; [exact Hjson|].
  eexists. split; [exact Hconf|].
  vm_compute. do 7 right. left. reflexivity.
Defined.

(** ** Creation *)

Section Creation.

Variable env : Settings.
Variable rt : Runtime.

(** What the address loop computes over a pool of clients: the first
    address of the range no client has, or [undefined] when each is
    taken. *)
Lemma nextIP_lowest_free (cs : list (string * obj)) (n : nat) (i : Z) :
  match nextIP rt (inr cs) i n with
  | inr (JString a) =>
      exists j, i <= j < i + Z.of_nat n /\ a = ip_fromLong rt j /\
                free rt cs j = true /\ forall k, i <= k < j -> free rt cs k = false
  | inr JUndefined => forall k, i <= k < i + Z.of_nat n -> free rt cs k = false
  | _ => False
  end.
Proof.
  revert i. induction n as [|n IH]; intros i.
  - simpl. intros k Hk. lia.
  - cbn [nextIP].
    destruct (find (fun client => strict_eq (get "address" client) (JString (ip_fromLong rt i)))
                   (Object_values cs)) as [client|] eqn:Hfind.
    + assert (Htaken : free rt cs i = false).
      { unfold free. apply negb_false_iff. apply existsb_exists.
        exists client. apply find_some in Hfind. exact Hfind. }
      specialize (IH (i + 1)).
      destruct (nextIP rt (inr cs) (i + 1) n) as [e|[| | | |a|]]; auto.
      * intros k Hk. destruct (Z.eq_dec k i) as [->|Hne]; auto. apply IH. lia.
      * destruct IH as (j & Hj & Ha & Hfree & Hbelow).
        exists j. split; [lia|]. split; [exact Ha|]. split; [exact Hfree|].
        intros k Hk. destruct (Z.eq_dec k i) as [->|Hne]; auto. apply Hbelow. lia.
    + exists i. split; [lia|]. split; [reflexivity|]. split.
      * unfold free. apply negb_true_iff.
        destruct (existsb _ (Object_values cs)) eqn:Hex; auto.
        apply existsb_exists in Hex. destruct Hex as (client & Hin & Hc).
        now rewrite (find_none _ _ Hfind client Hin) in Hc.
      * intros k Hk. lia.
Qed.

(** With [clients] unbound the loop throws in its first iteration. *)
Lemma nextIP_unbound (x : string) (i : Z) (n : nat) :
  nextIP rt (unbound x) i n
  = match n with
    | O => inr JUndefined
    | S _ => inl (ReferenceError (x ++ " is not defined"))
    end.
Proof. destruct n; reflexivity. Qed.

End Creation.

(** C1 on the code.  On a loaded cache [createClient] never creates a
    client: whatever the name, the pool and the outcome of the key
    commands, the call throws, the cache still holds the configuration it
    held and no file is written.  With a non-empty name, the three key
    commands and [ip.cidrSubnet] succeeding and at least one address
    strictly between the first and the last of the subnet, what it throws
    is the [ReferenceError] of the first iteration of the address loop,
    which reads [clients], a name the method does not bind; with no such
    address it throws [Maximum number of clients reached.]. *)
Theorem createClient_never_allocates (env : Settings) (rt : Runtime) (name expiredDate : jsval)
    (w : world) (c : config) :
  configPromise w = Some (inr c) ->
  let r := fst (createClient env rt name expiredDate w) in
  let w' := snd (createClient env rt name expiredDate w) in
  (exists e, r = inl e) /\
  configPromise w' = Some (inr c) /\
  fs_writes w' = fs_writes w /\
  wg0_json w' = wg0_json w /\
  wg0_conf w' = wg0_conf w /\
  (forall privateKey publicKey preSharedKey cidr,
      truthy name = true ->
      shell rt (length (execs w)) "wg genkey" = inr privateKey ->
      shell rt (S (length (execs w))) ("echo " ++ privateKey ++ " | wg pubkey")
      = inr publicKey ->
      shell rt (S (S (length (execs w)))) "wg genpsk" = inr preSharedKey ->
      ip_cidrSubnet rt (WG_DEFAULT_ADDRESS env) = inr cidr ->
      r = inl (if ip_toLong rt (firstAddress cidr) + 1 <=? ip_toLong rt (lastAddress cidr) - 1
               then ReferenceError "clients is not defined"
               else Error "Maximum number of clients reached.")).
Proof.
  intros H r w'. subst r w'.
  assert (Houtcome : exists e w0,
             createClient env rt name expiredDate w = (inl e, w0) /\
             configPromise w0 = Some (inr c) /\ fs_writes w0 = fs_writes w /\
             wg0_json w0 = wg0_json w /\ wg0_conf w0 = wg0_conf w /\
             forall privateKey publicKey preSharedKey cidr,
               truthy name = true ->
               shell rt (length (execs w)) "wg genkey" = inr privateKey ->
               shell rt (S (length (execs w))) ("echo " ++ privateKey ++ " | wg pubkey")
               = inr publicKey ->
               shell rt (S (S (length (execs w)))) "wg genpsk" = inr preSharedKey ->
               ip_cidrSubnet rt (WG_DEFAULT_ADDRESS env) = inr cidr ->
               e = (if ip_toLong rt (firstAddress cidr) + 1
                       <=? ip_toLong rt (lastAddress cidr) - 1
                    then ReferenceError "clients is not defined"
                    else Error "Maximum number of clients reached.")).
  { unfold createClient.
    destruct (truthy name); cbn [negb].
    2:{ eexists; eexists. split; [reflexivity|]. repeat split; auto. intros; discriminate. }
    unfold bind at 1. rewrite (getConfig_loaded env rt w c H).
    unfold bind, exec, lift, throw, ret. cbn [execs log_exec length].
    destruct (shell rt (length (execs w)) "wg genkey") as [e1|privateKey];
      cbn [execs log_exec length].
    { eexists; eexists. split; [reflexivity|]. repeat split; auto. intros; discriminate. }
    destruct (shell rt (S (length (execs w))) ("echo " ++ privateKey ++ " | wg pubkey"))
      as [e2|publicKey] eqn:Hpub; cbn [execs log_exec length].
    { eexists; eexists. split; [reflexivity|]. repeat split; auto.
      intros ? ? ? ? _ [= <-]. congruence. }
    destruct (shell rt (S (S (length (execs w)))) "wg genpsk") as [e3|preSharedKey];
      cbn [execs log_exec length].
    { eexists; eexists. split; [reflexivity|]. repeat split; auto. intros; discriminate. }
    destruct (ip_cidrSubnet rt (WG_DEFAULT_ADDRESS env)) as [e4|cidr].
    { eexists; eexists. split; [reflexivity|]. repeat split; auto. intros; discriminate. }
    rewrite nextIP_unbound.
    set (first := ip_toLong rt (firstAddress cidr) + 1).
    set (last := ip_toLong rt (lastAddress cidr) - 1).
    destruct (Z.to_nat (last - first + 1)) as [|n] eqn:Hn; cbn [truthy negb].
    - eexists; eexists. split; [reflexivity|]. repeat split; auto.
      intros ? ? ? cidr' _ _ _ _ [= <-]. fold first last.
      destruct (Z.leb_spec first last); [lia|reflexivity].
    - eexists; eexists. split; [reflexivity|]. repeat split; auto.
      intros ? ? ? cidr' _ _ _ _ [= <-]. fold first last.
      destruct (Z.leb_spec first last); [reflexivity|lia]. }
  destruct Houtcome as (e & w0 & -> & Hc & Hw & Hj & Hf & He).
  cbn [fst snd]. split; [now exists e|]. repeat split; auto.
  intros. f_equal. eapply He; eauto.
Qed.

Lemma createClient_never_allocates_witness :
  let env := Node.settings "true" "true" in
  let rt := Node.runtime "" in
  let w := Node.loaded {| server := [("privateKey", JString "priv")]; clients := [] |} in
  fst (createClient env rt (JString "laptop") JUndefined w)
  = inl (ReferenceError "clients is not defined") /\
  fs_writes (snd (createClient env rt (JString "laptop") JUndefined w)) = [].
Proof.
  intros env rt w.
  destruct (createClient_never_allocates env rt (JString "laptop") JUndefined w
              {| server := [("privateKey", JString "priv")]; clients := [] |} eq_refl)
    as (_ & _ & Hwrites & _ & _ & Hthrows).
  split; [|exact Hwrites].
  exact (Hthrows "key0" "key1" "key2"
           {| firstAddress := "10.8.0.1"; lastAddress := "10.8.0.254" |}
           eq_refl eq_refl eq_refl eq_refl eq_refl).
Defined.

(** * Further properties *)

(** ** Unknown clients *)

Section Unknown.

Variable env : Settings.
Variable cenv : ClientSettings.
Variable rt : Runtime.
Variable lib : Libraries.

Lemma getClient_missing (w : world) (c : config) (clientId : string) :
  configPromise w = Some (inr c) ->
  lookup_client clientId (clients c) = None ->
  Object_prototype rt clientId = None ->
  getClient env rt clientId w
  = (inl (ServerError ("Client Not Found: " ++ clientId) 404), w).
Proof.
  intros H Hc Hp. unfold getClient, bind.
  rewrite (getConfig_loaded env rt w c H), Hc, Hp. reflexivity.
Qed.

Lemma getClient_inherited (w : world) (c : config) (clientId : string) (inherited : builtin) :
  configPromise w = Some (inr c) ->
  lookup_client clientId (clients c) = None ->
  Object_prototype rt clientId = Some inherited ->
  getClient env rt clientId w = (inr (properties inherited), w).
Proof.
  intros H Hc Hp. unfold getClient, bind.
  rewrite (getConfig_loaded env rt w c H), Hc, Hp. reflexivity.
Qed.

End Unknown.

(** X1. On a loaded cache whose map has no client under the id, the id
    being no name of a member of [Object.prototype], every method that
    addresses one client throws [ServerError('Client Not Found: id', 404)]
    and leaves the process as it was: the cache, both files, the command
    log and the clock are untouched (no stamp is taken, nothing is saved),
    whatever the other arguments -- an invalid address is not even looked
    at.  For an id that is no key of the map but names a member of
    [Object.prototype] ([constructor], [toString], [__proto__], ...) the
    read [config.clients[clientId]] finds that member: [getClient] throws
    no 404 and returns it. *)
Theorem unknown_client_404 (env : Settings) (cenv : ClientSettings) (rt : Runtime)
    (lib : Libraries) (w : world) (c : config) (clientId : string) :
  configPromise w = Some (inr c) ->
  lookup_client clientId (clients c) = None ->
  let not_found := ServerError ("Client Not Found: " ++ clientId) 404 in
  (Object_prototype rt clientId = None ->
   getClient env rt clientId w = (inl not_found, w) /\
   enableClient env rt clientId w = (inl not_found, w) /\
   disableClient env rt clientId w = (inl not_found, w) /\
   eraseOneTimeLink env rt clientId w = (inl not_found, w) /\
   (forall name, updateClientName env rt clientId name w = (inl not_found, w)) /\
   (forall address, updateClientAddress env rt lib clientId address w = (inl not_found, w)) /\
   (forall date, updateClientExpireDate env rt clientId date w = (inl not_found, w)) /\
   (forall random, generateOneTimeLink env rt lib clientId random w = (inl not_found, w)) /\
   getClientConfiguration env cenv rt clientId w = (inl not_found, w)) /\
  (forall inherited,
      Object_prototype rt clientId = Some inherited ->
      getClient env rt clientId w = (inr (properties inherited), w)).
Proof.
  intros H Hc not_found. split.
  - intros Hp.
    pose proof (getClient_missing env rt w c clientId H Hc Hp) as Hmiss.
    fold not_found in Hmiss.
    split; [exact Hmiss|].
    unfold enableClient, disableClient, eraseOneTimeLink, updateClientName,
      updateClientAddress, updateClientExpireDate, generateOneTimeLink,
      getClientConfiguration.
    repeat split; intros; unfold bind at 1; rewrite ?(getConfig_loaded env rt w c H);
      try (unfold bind at 1); rewrite Hmiss; reflexivity.
  - intros inherited Hp. exact (getClient_inherited env rt w c clientId inherited H Hc Hp).
Qed.

Lemma unknown_client_404_witness :
  let c := {| server := []; clients := [("a", [("name", JString "laptop")])] |} in
  updateClientAddress (Node.settings "true" "true") (Node.runtime "") NodeLib.libraries
    "b" "not an address" (Node.loaded c)
  = (inl (ServerError "Client Not Found: b" 404), Node.loaded c) /\
  fst (getClient (Node.settings "true" "true") (Node.runtime "") "constructor" (Node.loaded c))
  = inr [("length", JNumber (Some 1)); ("name", JString "Object")].
Proof.
  intros c. split.
  - destruct (unknown_client_404 (Node.settings "true" "true") NodeLib.client_settings
                (Node.runtime "") NodeLib.libraries (Node.loaded c) c "b" eq_refl eq_refl)
      as (Hunknown & _).
    destruct (Hunknown eq_refl) as (_ & _ & _ & _ & _ & Haddress & _).
    exact (Haddress "not an address").
  - destruct (unknown_client_404 (Node.settings "true" "true") NodeLib.client_settings
                (Node.runtime "") NodeLib.libraries (Node.loaded c) c "constructor"
                eq_refl eq_refl)
      as (_ & Hinherited).
    rewrite (Hinherited (Node.function_object "Object" 1) eq_refl). reflexivity.
Defined.

(** ** Deletion *)

Lemma lookup_remove_same (id : string) (cs : list (string * obj)) :
  lookup_client id (remove_client id cs) = None.
Proof.
  unfold remove_client. induction cs as [|[k c0] rest IH]; simpl; auto.
  destruct (String.eqb id k) eqn:E; simpl; auto. now rewrite E.
Qed.

Lemma lookup_remove_other (id id' : string) (cs : list (string * obj)) :
  id <> id' -> lookup_client id' (remove_client id cs) = lookup_client id' cs.
Proof.
  intros Hne. unfold remove_client. induction cs as [|[k c0] rest IH]; simpl; auto.
  destruct (String.eqb id k) eqn:E; simpl.
  - apply String.eqb_eq in E. subst k.
    destruct (String.eqb id' id) eqn:E'; auto.
    apply String.eqb_eq in E'. congruence.
  - now rewrite IH.
Qed.

Section Delete.

Variable env : Settings.
Variable cenv : ClientSettings.
Variable rt : Runtime.

Lemma deleteClient_absent (w : world) (c : config) (clientId : string) :
  configPromise w = Some (inr c) ->
  lookup_client clientId (clients c) = None ->
  Object_prototype rt clientId = None ->
  deleteClient env rt clientId w = (inr tt, w).
Proof.
  intros H Hc Hp. unfold deleteClient, bind.
  rewrite (getConfig_loaded env rt w c H), Hc, Hp. reflexivity.
Qed.



Lemma deleteClient_present (w : world) (c : config) (clientId : string) (client : obj) :
  configPromise w = Some (inr c) ->
  lookup_client clientId (clients c) = Some client ->
  deleteClient env rt clientId w
  = let c' := {| server := server c; clients := remove_client clientId (clients c) |} in
    (sync_outcome rt w, persisted env rt c' (with_promise (Some (inr c')) w)).
Proof.
  intros H Hc. unfold deleteClient. unfold bind at 1.
  rewrite (getConfig_loaded env rt w c H), Hc.
  unfold bind at 1. unfold mutate_clients. rewrite H.
  match goal with
  | |- saveConfig env rt ?w0 = _ =>
      rewrite (saveConfig_loaded env rt w0
                 {| server := server c; clients := remove_client clientId (clients c) |}
                 eq_refl)
  end.
  reflexivity.
Qed.

End Delete.

(** X2. [deleteClient] of a client the loaded cache holds removes that
    client and no other, writes both files once with the client gone and
    runs the synchronisation once, whether or not the synchronisation
    command succeeds.  Afterwards the map has no entry under the id; when
    the id is no name of a member of [Object.prototype], [getClient] then
    throws 404 and deleting the id again does nothing at all.  (For an id
    such as [toString] the read [config.clients[clientId]] still finds the
    inherited member after the deletion.) *)
Theorem deleteClient_removes (env : Settings) (rt : Runtime) (w : world) (c : config)
    (clientId : string) (client : obj) :
  configPromise w = Some (inr c) ->
  lookup_client clientId (clients c) = Some client ->
  let r := fst (deleteClient env rt clientId w) in
  let w' := snd (deleteClient env rt clientId w) in
  let c' := {| server := server c; clients := remove_client clientId (clients c) |} in
  r = sync_outcome rt w /\
  configPromise w' = Some (inr c') /\
  cached_client clientId w' = None /\
  (forall other, other <> clientId -> cached_client other w' = cached_client other w) /\
  wg0_json w' = Some (JSON_stringify rt c') /\
  wg0_conf w' = Some (render env rt c') /\
  fs_writes w' = "wg0.conf" :: "wg0.json" :: fs_writes w /\
  execs w' = sync_command :: execs w /\
  (Object_prototype rt clientId = None ->
   getClient env rt clientId w'
   = (inl (ServerError ("Client Not Found: " ++ clientId) 404), w') /\
   deleteClient env rt clientId w' = (inr tt, w')).
Proof.
  intros H Hc r w' c'. subst r w'.
  rewrite (deleteClient_present env rt w c clientId client H Hc). cbv zeta. fold c'.
  cbn [fst snd].
  assert (Hcache : configPromise (persisted env rt c' (with_promise (Some (inr c')) w))
                   = Some (inr c')) by reflexivity.
  assert (Hgone : lookup_client clientId (clients c') = None) by apply lookup_remove_same.
  split; [reflexivity|]. split; [exact Hcache|].
  split; [unfold cached_client; rewrite Hcache; exact Hgone|].
  split.
  { intros other Hne. unfold cached_client. rewrite Hcache, H.
    apply lookup_remove_other. congruence. }
  split; [reflexivity|]. split; [reflexivity|]. split; [reflexivity|]. split; [reflexivity|].
  intros Hp. split.
  - now apply getClient_missing with (c := c').
  - now apply deleteClient_absent with (c := c').
Qed.

Lemma deleteClient_removes_witness :
  let a := [("name", JString "laptop"); ("address", JString "10.8.0.2")] in
  let b := [("name", JString "phone"); ("address", JString "10.8.0.3")] in
  let c := {| server := []; clients := [("a", a); ("b", b)] |} in
  let w' := snd (deleteClient (Node.settings "true" "true") (Node.runtime "") "a"
                   (Node.loaded c)) in
  cached_client "a" w' = None /\ cached_client "b" w' = Some b /\
  getClient (Node.settings "true" "true") (Node.runtime "") "a" w'
  = (inl (ServerError "Client Not Found: a" 404), w').
Proof.
  intros a b c w'.
  destruct (deleteClient_removes (Node.settings "true" "true") (Node.runtime "")
              (Node.loaded c) c "a" a eq_refl eq_refl)
    as (_ & _ & Hgone & Hothers & _ & _ & _ & _ & Hafter).
  split; [exact Hgone|].
  split; [exact (Hothers "b" ltac:(discriminate))|].
  exact (proj1 (Hafter eq_refl)).
Defined.


(** ** The sweep, client by client *)

Section CronById.

Variable env : Settings.
Variable rt : Runtime.

Lemma gated_step (toggle : jsval) (due : nat -> obj -> bool) (applied : nat -> obj -> obj)
    (lo hi : nat) (cs cs' : list (string * obj)) (b : bool) :
  (if strict_eq toggle (JString "true")
   then swept due applied lo hi cs b cs'
   else b = false /\ cs' = cs) ->
  forall i id client, nth_error cs i = Some (id, client) ->
    exists client',
      nth_error cs' i = Some (id, client') /\
      loop_step toggle due applied lo hi client client'.
Proof.
  intros S i id client Hi. unfold loop_step. destruct (strict_eq toggle (JString "true")).
  - destruct (swept_nth _ _ _ _ _ _ _ S i id client Hi) as (n & Hlo & Hhi & Hd & Hn).
    exists (if due n client then applied n client else client).
    split; [exact Hn|]. exists n. auto.
  - destruct S as [_ ->]. exists client. auto.
Qed.

Lemma loop_step_widen (toggle : jsval) (due : nat -> obj -> bool)
    (applied : nat -> obj -> obj) (lo lo' hi hi' : nat) (client client' : obj) :
  (lo' <= lo)%nat -> (hi <= hi')%nat ->
  loop_step toggle due applied lo hi client client' ->
  loop_step toggle due applied lo' hi' client client'.
Proof.
  unfold loop_step. intros Hlo Hhi. destruct (strict_eq toggle (JString "true")); auto.
  intros (n & A & B & C & D). exists n. repeat split; auto; try lia.
  intros Hd. specialize (C Hd). lia.
Qed.

(** What one run of [cronJobEveryMinute] makes of the client stored under
    an id: the first loop, then the second, each at readings of the clock
    taken during the run. *)
Lemma cron_by_id (w : world) (c : config) (clientId : string) (client : obj) :
  configPromise w = Some (inr c) ->
  lookup_client clientId (clients c) = Some client ->
  let w' := snd (cronJobEveryMinute env rt w) in
  exists client1 client2,
    cached_client clientId w' = Some client2 /\
    loop_step (WG_ENABLE_EXPIRES_TIME env) (expiry_due rt) (expiry_applied rt)
      (clock_reads w) (clock_reads w') client client1 /\
    loop_step (WG_ENABLE_ONE_TIME_LINKS env) (link_due rt) (link_applied rt)
      (clock_reads w) (clock_reads w') client1 client2.
Proof.
  intros H Hc w'. subst w'.
  destruct (cron_loaded env rt w c H) as (b1 & cs1 & b2 & cs2 & w1 & w2 & O1 & O2 & S1 & S2 & E).
  cbv zeta in E.
  assert (L1 : (clock_reads w <= clock_reads w1)%nat) by apply O1.
  assert (L2 : (clock_reads w1 <= clock_reads w2)%nat) by apply O2.
  assert (Hreads : clock_reads (snd (cronJobEveryMinute env rt w)) = clock_reads w2).
  { rewrite E. destruct (b1 || b2); reflexivity. }
  assert (Hcache : configPromise (snd (cronJobEveryMinute env rt w))
                   = Some (inr {| server := server c; clients := cs2 |})).
  { rewrite E. destruct (b1 || b2); reflexivity. }
  rewrite Hreads.
  destruct (lookup_position clientId (clients c) client Hc) as (i & Hi & Hfound).
  destruct (gated_step _ _ _ _ _ _ _ _ S1 i clientId client Hi) as (client1 & N1 & Hc1).
  destruct (gated_step _ _ _ _ _ _ _ _ S2 i clientId client1 N1) as (client2 & N2 & Hc2).
  exists client1, client2. split.
  { unfold cached_client. rewrite Hcache. simpl clients.
    apply Hfound; [|exact N2].
    rewrite (gated_keys _ _ _ _ _ _ _ _ S2). exact (gated_keys _ _ _ _ _ _ _ _ S1). }
  split.
  - eapply loop_step_widen; [| |exact Hc1]; lia.
  - eapply loop_step_widen; [| |exact Hc2]; lia.
Qed.

Lemma loop_step_not_due (toggle : jsval) (due : nat -> obj -> bool)
    (applied : nat -> obj -> obj) (lo hi : nat) (client client' : obj) :
  (forall n, (lo <= n)%nat -> (n <= hi)%nat -> due n client = false) ->
  loop_step toggle due applied lo hi client client' -> client' = client.
Proof.
  unfold loop_step. intros Hnot. destruct (strict_eq toggle (JString "true")); auto.
  intros (n & A & B & _ & ->). now rewrite (Hnot n A B).
Qed.

Lemma loop_step_due (due : nat -> obj -> bool) (applied : nat -> obj -> obj)
    (toggle : jsval) (lo hi : nat) (client client' : obj) :
  strict_eq toggle (JString "true") = true ->
  (forall n, (lo <= n)%nat -> (n <= hi)%nat -> due n client = true) ->
  loop_step toggle due applied lo hi client client' ->
  exists n, (lo <= n)%nat /\ (S n <= hi)%nat /\ client' = applied n client.
Proof.
  unfold loop_step. intros -> Hdue (n & A & B & C & ->).
  rewrite (Hdue n A B) in *. exists n. auto.
Qed.

(** A client that is not enabled and has a null link passes a run
    untouched. *)
Lemma cron_settled (w : world) (c : config) (clientId : string) (client : obj) :
  configPromise w = Some (inr c) ->
  lookup_client clientId (clients c) = Some client ->
  strict_eq (get "enabled" client) (JBool true) = false ->
  get "oneTimeLink" client = JNull ->
  cached_client clientId (snd (cronJobEveryMinute env rt w)) = Some client.
Proof.
  intros H Hc Hen Hlink.
  destruct (cron_by_id w c clientId client H Hc) as (client1 & client2 & Hcached & H1 & H2).
  apply loop_step_not_due in H1.
  2:{ intros n _ _. unfold expiry_due. now rewrite Hen. }
  subst client1.
  apply loop_step_not_due in H2.
  2:{ intros n _ _. unfold link_due. now rewrite Hlink. }
  now subst client2.
Qed.

End CronById.

(** X3. One run of [cronJobEveryMinute] on a loaded cache never touches a
    client that is not enabled (its [enabled] is not [true]) and whose
    [oneTimeLink] is [null]: whatever the toggles and the clock, the
    client comes out identical, [updatedAt] included, and so does it from
    any number of further runs. *)
Theorem cron_skips_settled_client (env : Settings) (rt : Runtime) (runs : nat) (w : world)
    (c : config) (clientId : string) (client : obj) :
  configPromise w = Some (inr c) ->
  lookup_client clientId (clients c) = Some client ->
  strict_eq (get "enabled" client) (JBool true) = false ->
  get "oneTimeLink" client = JNull ->
  cached_client clientId
    (Nat.iter runs (fun w0 => snd (cronJobEveryMinute env rt w0)) w) = Some client.
Proof.
  intros H Hc Hen Hlink. induction runs as [|runs IH]; simpl.
  - unfold cached_client. now rewrite H.
  - destruct (cached_client_loaded clientId _ _ IH) as (c1 & Hc1 & Hl1).
    now apply (cron_settled env rt _ c1 clientId client Hc1 Hl1).
Qed.

Lemma cron_skips_settled_client_witness :
  let client := [("id", JString "a"); ("enabled", JBool false);
                 ("expiredAt", JString "2023-01-01T23:59:59.000Z");
                 ("oneTimeLink", JNull); ("oneTimeLinkExpiresAt", JNull);
                 ("updatedAt", JString "2023-01-02T00:00:10.000Z")] in
  let c := {| server := []; clients := [("a", client)] |} in
  cached_client "a"
    (Nat.iter 3 (fun w0 => snd (cronJobEveryMinute (Node.settings "true" "true")
                                  (Node.runtime "") w0)) (Node.loaded c))
  = Some client.
Proof.
  intros client c.
  exact (cron_skips_settled_client (Node.settings "true" "true") (Node.runtime "") 3
           (Node.loaded c) c "a" client eq_refl eq_refl eq_refl eq_refl).
Defined.

(** X4. A client the expiry loop disables is disabled once: on a loaded
    cache with the expiry toggle on, a client that is enabled, has a null
    [oneTimeLink] and whose [expiredAt] is set and lies before the readings
    of the clock comes out of a first run disabled and stamped, and a
    second run right after leaves it exactly as the first left it (it is
    not stamped again). *)
Theorem cron_disables_once (env : Settings) (rt : Runtime) (w : world) (c : config)
    (clientId : string) (client : obj) (t : Z) :
  configPromise w = Some (inr c) ->
  lookup_client clientId (clients c) = Some client ->
  WG_ENABLE_EXPIRES_TIME env = JString "true" ->
  get "enabled" client = JBool true ->
  get "expiredAt" client <> JNull ->
  Date_of rt (get "expiredAt" client) = Some t ->
  get "oneTimeLink" client = JNull ->
  (forall n, (clock_reads w <= n)%nat -> t < clock rt n) ->
  let w1 := snd (cronJobEveryMinute env rt w) in
  let w2 := snd (cronJobEveryMinute env rt w1) in
  exists client' n,
    cached_client clientId w1 = Some client' /\
    get "enabled" client' = JBool false /\
    get "updatedAt" client' = JDate (Some (clock rt n)) /\
    (forall k, k <> "enabled" -> k <> "updatedAt" -> get k client' = get k client) /\
    cached_client clientId w2 = Some client'.
Proof.
  intros H Hc Htoggle Hen Hset Ht Hlink Hpast w1 w2. subst w1 w2.
  destruct (cron_by_id env rt w c clientId client H Hc)
    as (client1 & client2 & Hcached & H1 & H2).
  apply (loop_step_due (expiry_due rt) (expiry_applied rt)) in H1.
  2:{ rewrite Htoggle. reflexivity. }
  2:{ intros n Hn _. unfold expiry_due. rewrite Hen, (not_null_strict _ Hset), Ht. simpl.
      apply Z.ltb_lt. now apply Hpast. }
  destruct H1 as (n1 & _ & _ & ->).
  assert (Hlink1 : get "oneTimeLink" (expiry_applied rt n1 client) = JNull).
  { rewrite expiry_applied_get by discriminate. exact Hlink. }
  assert (Hoff : get "enabled" (expiry_applied rt n1 client) = JBool false).
  { unfold expiry_applied. rewrite get_set_other by discriminate. apply get_set_same. }
  apply loop_step_not_due in H2.
  2:{ intros n _ _. unfold link_due. now rewrite Hlink1. }
  subst client2.
  exists (expiry_applied rt n1 client), (S n1).
  split; [exact Hcached|]. split; [exact Hoff|].
  split; [apply get_set_same|].
  split; [intros k K1 K2; now apply expiry_applied_get|].
  destruct (cached_client_loaded clientId _ _ Hcached) as (c1 & Hc1 & Hl1).
  apply (cron_settled env rt _ c1 clientId _ Hc1 Hl1).
  - rewrite Hoff. reflexivity.
  - exact Hlink1.
Qed.

Lemma cron_disables_once_witness :
  let client := [("id", JString "a"); ("enabled", JBool true);
                 ("expiredAt", JString "2023-11-13T23:59:59.000Z");
                 ("oneTimeLink", JNull);
                 ("updatedAt", JString "2023-11-01T00:00:00.000Z")] in
  let c := {| server := []; clients := [("a", client)] |} in
  let env := Node.settings "true" "true" in
  let rt := Node.runtime "" in
  let w1 := snd (cronJobEveryMinute env rt (Node.loaded c)) in
  exists client',
    cached_client "a" w1 = Some client' /\
    get "enabled" client' = JBool false /\
    cached_client "a" (snd (cronJobEveryMinute env rt w1)) = Some client'.
Proof.
  intros client c env rt w1.
  assert (Hpast : forall n, (clock_reads (Node.loaded c) <= n)%nat ->
                            1699919999000 < clock rt n).
  { intros n _. change (clock rt n) with (Node.clock n). unfold Node.clock. clear. lia. }
  destruct (cron_disables_once env rt (Node.loaded c) c "a" client 1699919999000
              eq_refl eq_refl eq_refl eq_refl ltac:(discriminate) eq_refl eq_refl Hpast)
    as (client' & n & H1 & H2 & _ & _ & H3).
  exists client'. auto.
Defined.

(** ** Changing the address and the expiry date *)

Section Readdress.

Variable env : Settings.
Variable rt : Runtime.
Variable lib : Libraries.

Lemma updateClientAddress_valid (w : world) (c : config) (clientId : string) (client : obj)
    (address : string) :
  configPromise w = Some (inr c) ->
  lookup_client clientId (clients c) = Some client ->
  ip_isV4Format lib address = true ->
  updateClientAddress env rt lib clientId address w
  = let c' := touched clientId "address" (JString address) (clock rt (clock_reads w)) c in
    (sync_outcome rt w, persisted env rt c' (tick (with_promise (Some (inr c')) w))).
Proof.
  intros H Hc Hv. unfold updateClientAddress. rewrite Hv. cbn [negb].
  apply (assign_stamp_save env rt w c clientId "address" (JString address) client H Hc).
Qed.

Lemma updateClientAddress_invalid (w : world) (c : config) (clientId : string) (client : obj)
    (address : string) :
  configPromise w = Some (inr c) ->
  lookup_client clientId (clients c) = Some client ->
  ip_isV4Format lib address = false ->
  updateClientAddress env rt lib clientId address w
  = (inl (ServerError ("Invalid Address: " ++ address) 400), w).
Proof.
  intros H Hc Hv. unfold updateClientAddress. rewrite Hv. cbn [negb].
  unfold bind. rewrite (getClient_loaded env rt w c clientId client H Hc). reflexivity.
Qed.

Lemma updateClientExpireDate_loaded (w : world) (c : config) (clientId : string)
    (client : obj) (expireDate : jsval) :
  configPromise w = Some (inr c) ->
  lookup_client clientId (clients c) = Some client ->
  updateClientExpireDate env rt clientId expireDate w
  = let c' := touched clientId "expiredAt"
                (if truthy expireDate then JDate (end_of_day rt (Date_of rt expireDate))
                 else JNull)
                (clock rt (clock_reads w)) c in
    (sync_outcome rt w, persisted env rt c' (tick (with_promise (Some (inr c')) w))).
Proof.
  intros H Hc. unfold updateClientExpireDate.
  apply (assign_stamp_save env rt w c clientId "expiredAt" _ client H Hc).
Qed.

(** The client stored under an id once [touched] has run. *)
Lemma touched_lookup (c : config) (clientId k : string) (v : jsval) (now : Z) (client : obj) :
  lookup_client clientId (clients c) = Some client ->
  lookup_client clientId (clients (touched clientId k v now c))
  = Some (set "updatedAt" (JDate (Some now)) (set k v client)).
Proof.
  intros Hc. unfold touched. simpl clients.
  exact (lookup_update_same clientId
           (fun o => set "updatedAt" (JDate (Some now)) (set k v o)) (clients c) client Hc).
Qed.

Lemma touched_lookup_other (c : config) (clientId other k : string) (v : jsval) (now : Z) :
  clientId <> other ->
  lookup_client other (clients (touched clientId k v now c))
  = lookup_client other (clients c).
Proof. intros Hne. unfold touched. simpl clients. now apply lookup_update_other. Qed.

End Readdress.

(** X5. [updateClientAddress] with an address that [ip.isV4Format]
    rejects throws [ServerError('Invalid Address: ...', 400)] for a client
    of the loaded cache, and nothing has changed when it throws: the
    client keeps its address and its [updatedAt], no file is written and
    no command is run. *)
Theorem updateClientAddress_rejects (env : Settings) (rt : Runtime) (lib : Libraries)
    (w : world) (c : config) (clientId : string) (client : obj) (address : string) :
  configPromise w = Some (inr c) ->
  lookup_client clientId (clients c) = Some client ->
  ip_isV4Format lib address = false ->
  let r := fst (updateClientAddress env rt lib clientId address w) in
  let w' := snd (updateClientAddress env rt lib clientId address w) in
  r = inl (ServerError ("Invalid Address: " ++ address) 400) /\
  w' = w /\
  cached_client clientId w' = Some client /\
  fs_writes w' = fs_writes w /\
  execs w' = execs w /\
  clock_reads w' = clock_reads w.
Proof.
  intros H Hc Hv r w'. subst r w'.
  rewrite (updateClientAddress_invalid env rt lib w c clientId client address H Hc Hv).
  cbn [fst snd]. repeat split. unfold cached_client. now rewrite H.
Qed.

Lemma updateClientAddress_rejects_witness :
  let client := [("name", JString "laptop"); ("address", JString "10.8.0.2")] in
  let c := {| server := []; clients := [("a", client)] |} in
  let run := updateClientAddress (Node.settings "true" "true") (Node.runtime "")
               NodeLib.libraries "a" "10.8.0" (Node.loaded c) in
  fst run = inl (ServerError "Invalid Address: 10.8.0" 400) /\ snd run = Node.loaded c.
Proof.
  intros client c run.
  destruct (updateClientAddress_rejects (Node.settings "true" "true") (Node.runtime "")
              NodeLib.libraries (Node.loaded c) c "a" client "10.8.0"
              eq_refl eq_refl eq_refl) as (Hr & Hw & _).
  split; [exact Hr|exact Hw].
Defined.

(** X6. [updateClientAddress] makes no check against the other clients:
    given an address of IPv4 format that another client of the loaded
    cache already holds, the call stores it, stamps [updatedAt], saves and
    answers what the synchronisation answers -- after it two clients hold
    the same address, in the cache and in the document written to
    [wg0.json]. *)
Theorem updateClientAddress_allows_duplicates (env : Settings) (rt : Runtime)
    (lib : Libraries) (w : world) (c : config) (clientId other : string)
    (client holder : obj) (address : string) :
  configPromise w = Some (inr c) ->
  lookup_client clientId (clients c) = Some client ->
  lookup_client other (clients c) = Some holder ->
  clientId <> other ->
  get "address" holder = JString address ->
  ip_isV4Format lib address = true ->
  let r := fst (updateClientAddress env rt lib clientId address w) in
  let w' := snd (updateClientAddress env rt lib clientId address w) in
  r = sync_outcome rt w /\
  (exists client',
      cached_client clientId w' = Some client' /\
      get "address" client' = JString address /\
      get "updatedAt" client' = JDate (Some (clock rt (clock_reads w))) /\
      forall k, k <> "address" -> k <> "updatedAt" -> get k client' = get k client) /\
  cached_client other w' = Some holder /\
  (exists c', configPromise w' = Some (inr c') /\ wg0_json w' = Some (JSON_stringify rt c')) /\
  fs_writes w' = "wg0.conf" :: "wg0.json" :: fs_writes w.
Proof.
  intros H Hc Ho Hne Ha Hv r w'. subst r w'.
  rewrite (updateClientAddress_valid env rt lib w c clientId client address H Hc Hv).
  cbv zeta. cbn [fst snd].
  set (now := clock rt (clock_reads w)).
  set (c' := touched clientId "address" (JString address) now c).
  assert (Hcache : configPromise (persisted env rt c' (tick (with_promise (Some (inr c')) w)))
                   = Some (inr c')) by reflexivity.
  split; [reflexivity|]. split.
  { exists (set "updatedAt" (JDate (Some now)) (set "address" (JString address) client)).
    split; [unfold cached_client; rewrite Hcache; now apply touched_lookup|].
    split; [rewrite get_set_other by discriminate; apply get_set_same|].
    split; [apply get_set_same|].
    intros k K1 K2. rewrite !get_set_other; auto. }
  split.
  { unfold cached_client. rewrite Hcache. unfold c'.
    rewrite touched_lookup_other by exact Hne. exact Ho. }
  split; [eexists; split; reflexivity|reflexivity].
Qed.

Lemma updateClientAddress_allows_duplicates_witness :
  let a := [("name", JString "laptop"); ("address", JString "10.8.0.2")] in
  let b := [("name", JString "phone"); ("address", JString "10.8.0.3")] in
  let c := {| server := []; clients := [("a", a); ("b", b)] |} in
  let w' := snd (updateClientAddress (Node.settings "true" "true") (Node.runtime "")
                   NodeLib.libraries "a" "10.8.0.3" (Node.loaded c)) in
  (exists client', cached_client "a" w' = Some client' /\
                   get "address" client' = JString "10.8.0.3") /\
  cached_client "b" w' = Some b.
Proof.
  intros a b c w'.
  destruct (updateClientAddress_allows_duplicates (Node.settings "true" "true")
              (Node.runtime "") NodeLib.libraries (Node.loaded c) c "a" "b" a b "10.8.0.3"
              eq_refl eq_refl eq_refl ltac:(discriminate) eq_refl eq_refl)
    as (_ & (client' & H1 & H2 & _) & Hb & _).
  split; [exists client'; auto|exact Hb].
Defined.

Section Expiry.

Variable env : Settings.
Variable rt : Runtime.

Lemma loop_step_expiry_frame (toggle : jsval) (lo hi : nat) (client client' : obj) :
  loop_step toggle (expiry_due rt) (expiry_applied rt) lo hi client client' ->
  forall k, k <> "enabled" -> k <> "updatedAt" -> get k client' = get k client.
Proof.
  unfold loop_step. destruct (strict_eq toggle (JString "true")).
  - intros (n & _ & _ & _ & ->) k K1 K2.
    destruct (expiry_due rt n client); auto. now apply expiry_applied_get.
  - now intros ->.
Qed.

Lemma loop_step_link_frame (toggle : jsval) (lo hi : nat) (client client' : obj) :
  loop_step toggle (link_due rt) (link_applied rt) lo hi client client' ->
  forall k, k <> "oneTimeLink" -> k <> "oneTimeLinkExpiresAt" -> k <> "updatedAt" ->
            get k client' = get k client.
Proof.
  unfold loop_step. destruct (strict_eq toggle (JString "true")).
  - intros (n & _ & _ & _ & ->) k K1 K2 K3.
    destruct (link_due rt n client); auto. now apply link_applied_get.
  - now intros ->.
Qed.

End Expiry.

(** X7. A client without a usable expiry date never expires.  When
    [updateClientExpireDate] is called for a client of the loaded cache
    with a falsy date, or with a date [new Date] cannot read, [expiredAt]
    becomes [null], resp. an Invalid Date (written to [wg0.json] as
    [null]); [enabled] is not touched, the test of the expiry loop fails for
    this client at every reading of the clock, and a run of
    [cronJobEveryMinute] leaves its [enabled] and [expiredAt] as they are. *)
Theorem updateClientExpireDate_no_expiry (env : Settings) (rt : Runtime) (w : world)
    (c : config) (clientId : string) (client : obj) (expireDate : jsval) :
  configPromise w = Some (inr c) ->
  lookup_client clientId (clients c) = Some client ->
  truthy expireDate = false \/ Date_of rt expireDate = None ->
  let w1 := snd (updateClientExpireDate env rt clientId expireDate w) in
  let w2 := snd (cronJobEveryMinute env rt w1) in
  exists client1 client2,
    cached_client clientId w1 = Some client1 /\
    get "expiredAt" client1 = (if truthy expireDate then JDate None else JNull) /\
    json_of rt (get "expiredAt" client1) = Some JsonNull /\
    get "enabled" client1 = get "enabled" client /\
    (forall n, expiry_due rt n client1 = false) /\
    cached_client clientId w2 = Some client2 /\
    get "enabled" client2 = get "enabled" client /\
    get "expiredAt" client2 = get "expiredAt" client1.
Proof.
  intros H Hc Hdate w1 w2. subst w1 w2.
  rewrite (updateClientExpireDate_loaded env rt w c clientId client expireDate H Hc).
  cbv zeta. cbn [snd].
  set (now := clock rt (clock_reads w)).
  set (v := if truthy expireDate then JDate (end_of_day rt (Date_of rt expireDate)) else JNull).
  set (c' := touched clientId "expiredAt" v now c).
  set (w1 := persisted env rt c' (tick (with_promise (Some (inr c')) w))).
  set (client1 := set "updatedAt" (JDate (Some now)) (set "expiredAt" v client)).
  assert (Hcache : configPromise w1 = Some (inr c')) by reflexivity.
  assert (Hl1 : lookup_client clientId (clients c') = Some client1)
    by now apply touched_lookup.
  assert (Hv : v = if truthy expireDate then JDate None else JNull).
  { unfold v. destruct (truthy expireDate); auto.
    destruct Hdate as [Hd|Hd]; [discriminate|]. now rewrite Hd. }
  assert (Hexp : get "expiredAt" client1 = v).
  { unfold client1. rewrite get_set_other by discriminate. apply get_set_same. }
  assert (Hen : get "enabled" client1 = get "enabled" client).
  { unfold client1. rewrite !get_set_other by discriminate. reflexivity. }
  assert (Hnever : forall n, expiry_due rt n client1 = false).
  { intros n. unfold expiry_due. rewrite Hexp, Hv.
    destruct (truthy expireDate);
      destruct (strict_eq (get "enabled" client1) (JBool true)); reflexivity. }
  destruct (cron_by_id env rt w1 c' clientId client1 Hcache Hl1)
    as (client1' & client2 & Hcached & S1 & S2).
  apply loop_step_not_due in S1; [|intros n _ _; apply Hnever]. subst client1'.
  exists client1, client2.
  split; [unfold cached_client; rewrite Hcache; exact Hl1|].
  split; [now rewrite Hexp|].
  split; [rewrite Hexp, Hv; destruct (truthy expireDate); reflexivity|].
  split; [exact Hen|]. split; [exact Hnever|]. split; [exact Hcached|].
  split.
  - rewrite (loop_step_link_frame rt _ _ _ _ _ S2) by discriminate. exact Hen.
  - now rewrite (loop_step_link_frame rt _ _ _ _ _ S2) by discriminate.
Qed.

Lemma updateClientExpireDate_no_expiry_witness :
  let client := [("id", JString "a"); ("enabled", JBool true);
                 ("expiredAt", JString "2023-11-13T23:59:59.000Z");
                 ("oneTimeLink", JNull)] in
  let c := {| server := []; clients := [("a", client)] |} in
  let env := Node.settings "true" "true" in
  let rt := Node.runtime "" in
  let w1 := snd (updateClientExpireDate env rt "a" (JString "") (Node.loaded c)) in
  exists client2,
    cached_client "a" (snd (cronJobEveryMinute env rt w1)) = Some client2 /\
    get "enabled" client2 = JBool true.
Proof.
  intros client c env rt w1.
  destruct (updateClientExpireDate_no_expiry env rt (Node.loaded c) c "a" client (JString "")
              eq_refl eq_refl (or_introl eq_refl))
    as (client1 & client2 & _ & _ & _ & _ & _ & H2 & Hen & _).
  exists client2. split; [exact H2|exact Hen].
Defined.

(** X8. Setting an expiry date that is over makes the next sweep disable
    the client.  For an enabled client of the loaded cache,
    [updateClientExpireDate] with a date [new Date] reads stores the [Date]
    moved to 23:59:59 of that day (by [setHours], [setMinutes],
    [setSeconds]); when that instant lies before the following readings of
    the clock and the expiry toggle is on, the next run of
    [cronJobEveryMinute] leaves the client disabled. *)
Theorem updateClientExpireDate_then_sweep (env : Settings) (rt : Runtime) (w : world)
    (c : config) (clientId : string) (client : obj) (expireDate : jsval) (t : Z) :
  configPromise w = Some (inr c) ->
  lookup_client clientId (clients c) = Some client ->
  get "enabled" client = JBool true ->
  truthy expireDate = true ->
  Date_of rt expireDate = Some t ->
  WG_ENABLE_EXPIRES_TIME env = JString "true" ->
  let endOfDay := Date_setSeconds rt (Date_setMinutes rt (Date_setHours rt t 23) 59) 59 in
  (forall n, (S (clock_reads w) <= n)%nat -> endOfDay < clock rt n) ->
  let w1 := snd (updateClientExpireDate env rt clientId expireDate w) in
  let w2 := snd (cronJobEveryMinute env rt w1) in
  (exists client1,
      cached_client clientId w1 = Some client1 /\
      get "expiredAt" client1 = JDate (Some endOfDay) /\
      get "enabled" client1 = JBool true) /\
  (exists client2,
      cached_client clientId w2 = Some client2 /\
      get "enabled" client2 = JBool false /\
      get "expiredAt" client2 = JDate (Some endOfDay)).
Proof.
  intros H Hc Hen Htruthy Ht Htoggle endOfDay Hpast w1 w2. subst w1 w2.
  rewrite (updateClientExpireDate_loaded env rt w c clientId client expireDate H Hc).
  cbv zeta. cbn [snd]. rewrite Htruthy, Ht. cbn [end_of_day]. fold endOfDay.
  set (now := clock rt (clock_reads w)).
  set (c' := touched clientId "expiredAt" (JDate (Some endOfDay)) now c).
  set (w1 := persisted env rt c' (tick (with_promise (Some (inr c')) w))).
  set (client1 := set "updatedAt" (JDate (Some now))
                    (set "expiredAt" (JDate (Some endOfDay)) client)).
  assert (Hcache : configPromise w1 = Some (inr c')) by reflexivity.
  assert (Hl1 : lookup_client clientId (clients c') = Some client1)
    by now apply touched_lookup.
  assert (Hexp : get "expiredAt" client1 = JDate (Some endOfDay)).
  { unfold client1. rewrite get_set_other by discriminate. apply get_set_same. }
  assert (Hen1 : get "enabled" client1 = JBool true).
  { unfold client1. rewrite !get_set_other by discriminate. exact Hen. }
  split.
  { exists client1. split; [unfold cached_client; rewrite Hcache; exact Hl1|]. auto. }
  destruct (cron_by_id env rt w1 c' clientId client1 Hcache Hl1)
    as (client1' & client2 & Hcached & S1 & S2).
  apply (loop_step_due (expiry_due rt) (expiry_applied rt)) in S1.
  2:{ rewrite Htoggle. reflexivity. }
  2:{ intros n Hn _. unfold expiry_due. rewrite Hen1, Hexp. simpl.
      apply Z.ltb_lt. apply Hpast. exact Hn. }
  destruct S1 as (n1 & _ & _ & ->).
  exists client2. split; [exact Hcached|]. split.
  - rewrite (loop_step_link_frame rt _ _ _ _ _ S2) by discriminate.
    unfold expiry_applied. rewrite get_set_other by discriminate. apply get_set_same.
  - rewrite (loop_step_link_frame rt _ _ _ _ _ S2) by discriminate.
    rewrite expiry_applied_get by discriminate. exact Hexp.
Qed.

Lemma updateClientExpireDate_then_sweep_witness :
  let client := [("id", JString "a"); ("enabled", JBool true); ("expiredAt", JNull);
                 ("oneTimeLink", JNull)] in
  let c := {| server := []; clients := [("a", client)] |} in
  let env := Node.settings "true" "true" in
  let rt := Node.runtime "" in
  let w1 := snd (updateClientExpireDate env rt "a" (JString "2023-11-13T10:00:00.000Z")
                   (Node.loaded c)) in
  exists client2,
    cached_client "a" (snd (cronJobEveryMinute env rt w1)) = Some client2 /\
    get "enabled" client2 = JBool false /\
    get "expiredAt" client2 = JDate (Some 1699919999000).
Proof.
  intros client c env rt w1.
  assert (Hpast : forall n, (S (clock_reads (Node.loaded c)) <= n)%nat ->
                            1699919999000 < clock rt n).
  { intros n _. change (clock rt n) with (Node.clock n). unfold Node.clock. clear. lia. }
  destruct (updateClientExpireDate_then_sweep env rt (Node.loaded c) c "a" client
              (JString "2023-11-13T10:00:00.000Z") 1699869600000
              eq_refl eq_refl eq_refl eq_refl eq_refl eq_refl Hpast)
    as (_ & client2 & H2 & Hen & Hexp).
  exists client2. auto.
Defined.

(** ** Issuing a one-time link *)

Lemma generateOneTimeLink_loaded (env : Settings) (rt : Runtime) (lib : Libraries)
    (w : world) (c : config) (clientId : string) (client : obj) (random : Z) :
  configPromise w = Some (inr c) ->
  lookup_client clientId (clients c) = Some client ->
  generateOneTimeLink env rt lib clientId random w
  = let c' := link_issued clientId (link_token lib clientId random)
                (clock rt (clock_reads w)) (clock rt (S (clock_reads w))) c in
    (sync_outcome rt w, persisted env rt c' (tick (tick (with_promise (Some (inr c')) w)))).
Proof.
  intros H Hc. unfold generateOneTimeLink.
  unfold bind at 1. rewrite (getClient_loaded env rt w c clientId client H Hc).
  cbv zeta.
  unfold bind at 1. rewrite (assign_own rt w c clientId _ _ client H Hc).
  unfold bind at 1. unfold Date_now at 1.
  unfold bind at 1. assign_own_step.
  unfold bind at 1. unfold new_Date at 1.
  unfold bind at 1. assign_own_step.
  match goal with
  | |- saveConfig env rt ?w0 = _ =>
      match w0 with
      | with_promise (Some (inr ?c0)) _ => rewrite (saveConfig_loaded env rt w0 c0 eq_refl)
      end
  end.
  unfold link_issued, link_token. simpl. rewrite !update_update. reflexivity.
Qed.

(** X9. [generateOneTimeLink] on a client of the loaded cache stores a
    token that is a string (the base-16 digits of the absolute value of
    the CRC-32 of ["<id>-<random>"]), never [null]; sets
    [oneTimeLinkExpiresAt] five minutes after the reading of [Date.now()];
    stamps [updatedAt]; changes no other property and saves.  A run of
    [cronJobEveryMinute] whose clock readings are not past that instant
    keeps the token; with the one-time-link toggle on, a run whose readings
    are past it leaves [oneTimeLink] and [oneTimeLinkExpiresAt] null. *)
Theorem generateOneTimeLink_window (env : Settings) (rt : Runtime) (lib : Libraries)
    (w : world) (c : config) (clientId : string) (client : obj) (random : Z) :
  configPromise w = Some (inr c) ->
  lookup_client clientId (clients c) = Some client ->
  let now := clock rt (clock_reads w) in
  let token := link_token lib clientId random in
  let w1 := snd (generateOneTimeLink env rt lib clientId random w) in
  let w2 := snd (cronJobEveryMinute env rt w1) in
  (exists client1,
      cached_client clientId w1 = Some client1 /\
      get "oneTimeLink" client1 = JString token /\
      get "oneTimeLink" client1 <> JNull /\
      get "oneTimeLinkExpiresAt" client1 = JDate (Some (now + 5 * 60 * 1000)) /\
      get "updatedAt" client1 = JDate (Some (clock rt (S (clock_reads w)))) /\
      forall k, k <> "oneTimeLink" -> k <> "oneTimeLinkExpiresAt" -> k <> "updatedAt" ->
                get k client1 = get k client) /\
  fs_writes w1 = "wg0.conf" :: "wg0.json" :: fs_writes w /\
  ((forall n, (clock_reads w1 <= n <= clock_reads w2)%nat ->
              clock rt n <= now + 5 * 60 * 1000) ->
   exists client2,
     cached_client clientId w2 = Some client2 /\
     get "oneTimeLink" client2 = JString token /\
     get "oneTimeLinkExpiresAt" client2 = JDate (Some (now + 5 * 60 * 1000))) /\
  (WG_ENABLE_ONE_TIME_LINKS env = JString "true" ->
   (forall n, (clock_reads w1 <= n)%nat -> now + 5 * 60 * 1000 < clock rt n) ->
   exists client2,
     cached_client clientId w2 = Some client2 /\
     get "oneTimeLink" client2 = JNull /\
     get "oneTimeLinkExpiresAt" client2 = JNull).
Proof.
  intros H Hc now token w1 w2. subst w1 w2.
  rewrite (generateOneTimeLink_loaded env rt lib w c clientId client random H Hc).
  cbv zeta. cbn [snd]. fold now. fold token.
  set (stamp := clock rt (S (clock_reads w))).
  set (c' := link_issued clientId token now stamp c).
  set (w1 := persisted env rt c' (tick (tick (with_promise (Some (inr c')) w)))).
  set (client1 := set "updatedAt" (JDate (Some stamp))
                    (set "oneTimeLinkExpiresAt" (JDate (Some (now + 5 * 60 * 1000)))
                       (set "oneTimeLink" (JString token) client))).
  assert (Hcache : configPromise w1 = Some (inr c')) by reflexivity.
  assert (Hl1 : lookup_client clientId (clients c') = Some client1).
  { exact (lookup_update_same clientId
             (fun o => set "updatedAt" (JDate (Some stamp))
                         (set "oneTimeLinkExpiresAt" (JDate (Some (now + 5 * 60 * 1000)))
                            (set "oneTimeLink" (JString token) o)))
             (clients c) client Hc). }
  assert (Htok : get "oneTimeLink" client1 = JString token).
  { unfold client1. rewrite !get_set_other by discriminate. apply get_set_same. }
  assert (Hexp : get "oneTimeLinkExpiresAt" client1 = JDate (Some (now + 5 * 60 * 1000))).
  { unfold client1. rewrite get_set_other by discriminate. apply get_set_same. }
  split.
  { exists client1. split; [unfold cached_client; rewrite Hcache; exact Hl1|].
    split; [exact Htok|]. split; [rewrite Htok; discriminate|]. split; [exact Hexp|].
    split; [apply get_set_same|].
    intros k K1 K2 K3. unfold client1. rewrite !get_set_other; auto. }
  split; [reflexivity|]. split.
  - intros Hearly.
    destruct (cron_by_id env rt w1 c' clientId client1 Hcache Hl1)
      as (client1' & client2 & Hcached & S1 & S2).
    assert (Htok' : get "oneTimeLink" client1' = JString token).
    { rewrite (loop_step_expiry_frame rt _ _ _ _ _ S1) by discriminate. exact Htok. }
    assert (Hexp' : get "oneTimeLinkExpiresAt" client1'
                    = JDate (Some (now + 5 * 60 * 1000))).
    { rewrite (loop_step_expiry_frame rt _ _ _ _ _ S1) by discriminate. exact Hexp. }
    apply loop_step_not_due in S2.
    + subst client2. exists client1'. auto.
    + intros n Hlo Hhi. unfold link_due. rewrite Htok', Hexp'. simpl.
      apply Z.ltb_ge. apply Hearly. split; assumption.
  - intros Hon Hlate.
    apply (cron_clears_link env rt w1 c' clientId client1 (now + 5 * 60 * 1000)); auto.
    + rewrite Hon. reflexivity.
    + rewrite Htok. discriminate.
    + rewrite Hexp. reflexivity.
Qed.

Lemma generateOneTimeLink_window_witness :
  let client := [("id", JString "a"); ("enabled", JBool true); ("expiredAt", JNull)] in
  let c := {| server := []; clients := [("a", client)] |} in
  let w1 := snd (generateOneTimeLink (Node.settings "true" "true") (Node.runtime "")
                   NodeLib.libraries "a" 417 (Node.loaded c)) in
  exists client1,
    cached_client "a" w1 = Some client1 /\
    get "oneTimeLink" client1 = JString "6daa31f2" /\
    get "oneTimeLinkExpiresAt" client1 = JDate (Some 1700000300000).
Proof.
  intros client c w1.
  destruct (generateOneTimeLink_window (Node.settings "true" "true") (Node.runtime "")
              NodeLib.libraries (Node.loaded c) c "a" client 417 eq_refl eq_refl)
    as ((client1 & H1 & Htok & _ & Hexp & _) & _).
  exists client1. split; [exact H1|]. split; [|exact Hexp].
  rewrite Htok. vm_compute. reflexivity.
Defined.

(** ** The configuration handed to a client *)

Section ClientConfiguration.

Variable env : Settings.
Variable cenv : ClientSettings.
Variable rt : Runtime.

Lemma client_configuration_lines (server client : obj) :
  configuration_on_one_line env cenv rt server client = true ->
  lines (client_configuration env cenv rt server client)
  = ([EmptyString; "[Interface]";
      "PrivateKey = " ++ (if truthy (get "privateKey" client)
                          then toStr rt (get "privateKey" client) else "REPLACE_ME");
      "Address = " ++ toStr rt (get "address" client)]%string
     ++ (if truthy (WG_DEFAULT_DNS cenv)
         then ["DNS = " ++ toStr rt (WG_DEFAULT_DNS cenv)]%string else [])
     ++ (if truthy (WG_MTU cenv)
         then ["MTU = " ++ toStr rt (WG_MTU cenv)]%string else [])
     ++ [EmptyString; "[Peer]";
         "PublicKey = " ++ toStr rt (get "publicKey" server)]%string
     ++ (if truthy (get "preSharedKey" client)
         then ["PresharedKey = " ++ toStr rt (get "preSharedKey" client)]%string else [])
     ++ ["AllowedIPs = " ++ toStr rt (WG_ALLOWED_IPS cenv);
         "PersistentKeepalive = " ++ toStr rt (WG_PERSISTENT_KEEPALIVE cenv);
         "Endpoint = " ++ toStr rt (WG_HOST env) ++ ":" ++ toStr rt (WG_CONFIG_PORT cenv)]%string
    )%list.
Proof.
  unfold configuration_on_one_line. intros H.
  repeat (apply andb_true_iff in H; destruct H as [H ?]).
  unfold lines, split, client_configuration, nl.
  destruct (truthy (get "privateKey" client));
    destruct (truthy (WG_DEFAULT_DNS cenv));
    destruct (truthy (WG_MTU cenv));
    destruct (truthy (get "preSharedKey" client));
    repeat (simpl; rewrite ?append_assoc; rewrite split_from_plain by assumption);
    simpl; rewrite split_from_plain_end by assumption;
    simpl; rewrite ?append_assoc; reflexivity.
Qed.

End ClientConfiguration.

(** X10. [getClientConfiguration] reads and does not write: for a client
    of the loaded cache, enabled or not, it returns the text of the
    template and leaves the process as it was.  When the printed values
    hold no line feed the text is made of the lines listed below, in that
    order: the [PrivateKey] line carries the client's key, or the word
    [REPLACE_ME] when the client has none (never [undefined]); the [DNS],
    [MTU] and [PresharedKey] lines are there exactly when the value is
    truthy; the last line is [Endpoint = <WG_HOST>:<WG_CONFIG_PORT>]. *)
Theorem getClientConfiguration_text (env : Settings) (cenv : ClientSettings) (rt : Runtime)
    (w : world) (c : config) (clientId : string) (client : obj) :
  configPromise w = Some (inr c) ->
  lookup_client clientId (clients c) = Some client ->
  let text := client_configuration env cenv rt (server c) client in
  getClientConfiguration env cenv rt clientId w = (inr text, w) /\
  (configuration_on_one_line env cenv rt (server c) client = true ->
   lines text
   = ([EmptyString; "[Interface]";
       "PrivateKey = " ++ (if truthy (get "privateKey" client)
                           then toStr rt (get "privateKey" client) else "REPLACE_ME");
       "Address = " ++ toStr rt (get "address" client)]%string
      ++ (if truthy (WG_DEFAULT_DNS cenv)
          then ["DNS = " ++ toStr rt (WG_DEFAULT_DNS cenv)]%string else [])
      ++ (if truthy (WG_MTU cenv)
          then ["MTU = " ++ toStr rt (WG_MTU cenv)]%string else [])
      ++ [EmptyString; "[Peer]";
          "PublicKey = " ++ toStr rt (get "publicKey" (server c))]%string
      ++ (if truthy (get "preSharedKey" client)
          then ["PresharedKey = " ++ toStr rt (get "preSharedKey" client)]%string else [])
      ++ ["AllowedIPs = " ++ toStr rt (WG_ALLOWED_IPS cenv);
          "PersistentKeepalive = " ++ toStr rt (WG_PERSISTENT_KEEPALIVE cenv);
          "Endpoint = " ++ toStr rt (WG_HOST env) ++ ":"
            ++ toStr rt (WG_CONFIG_PORT cenv)]%string)%list).
Proof.
  intros H Hc text. split.
  - unfold getClientConfiguration. unfold bind at 1. rewrite (getConfig_loaded env rt w c H).
    unfold bind. rewrite (getClient_loaded env rt w c clientId client H Hc). reflexivity.
  - apply client_configuration_lines.
Qed.

Lemma getClientConfiguration_text_witness :
  let client := [("name", JString "laptop"); ("address", JString "10.8.0.2");
                 ("publicKey", JString "pkA"); ("enabled", JBool false)] in
  let c := {| server := [("privateKey", JString "priv"); ("publicKey", JString "pub")];
              clients := [("a", client)] |} in
  exists text,
    getClientConfiguration (Node.settings "true" "true") NodeLib.client_settings
      (Node.runtime "") "a" (Node.loaded c) = (inr text, Node.loaded c) /\
    lines text
    = [EmptyString; "[Interface]"; "PrivateKey = REPLACE_ME"; "Address = 10.8.0.2";
       "DNS = 1.1.1.1"; EmptyString; "[Peer]"; "PublicKey = pub";
       "AllowedIPs = 0.0.0.0/0, ::/0"; "PersistentKeepalive = 0";
       "Endpoint = vpn.example.org:51820"].
Proof.
  intros client c.
  destruct (getClientConfiguration_text (Node.settings "true" "true") NodeLib.client_settings
              (Node.runtime "") (Node.loaded c) c "a" client eq_refl eq_refl)
    as (Hrun & Hlines).
  eexists. split; [exact Hrun|].
  rewrite Hlines by (vm_compute; reflexivity). reflexivity.
Defined.

(** ** The list of clients and the metrics *)

Lemma has_set_other (k k' : string) (v : jsval) (o : obj) :
  k <> k' -> has k' (set k v o) = has k' o.
Proof.
  intros Hne. induction o as [|[k0 v0] rest IH]; simpl.
  - destruct (String.eqb k' k) eqn:E; auto.
    apply String.eqb_eq in E. congruence.
  - destruct (String.eqb k k0) eqn:E; simpl; auto. now rewrite IH.
Qed.

Section Views.

Variable env : Settings.
Variable rt : Runtime.

Lemma same_registry_fields_refl (a : obj) : same_registry_fields a a.
Proof. intros k _. auto. Qed.

Lemma same_registry_fields_trans (a b c : obj) :
  same_registry_fields a b -> same_registry_fields b c -> same_registry_fields a c.
Proof.
  intros Hab Hbc k Hk. destruct (Hab k Hk) as [A1 A2], (Hbc k Hk) as [B1 B2].
  split; congruence.
Qed.

Lemma live_key_false (k : string) :
  live_key k = false ->
  "latestHandshakeAt" <> k /\ "endpoint" <> k /\ "transferRx" <> k /\
  "transferTx" <> k /\ "persistentKeepalive" <> k.
Proof.
  unfold live_key. intros H.
  repeat (apply orb_false_iff in H; destruct H as [H ?]).
  repeat split; intros <-; discriminate.
Qed.

Lemma set_live_registry_fields (e h rx tx ka : jsval) (client : obj) :
  same_registry_fields client (set_live rt e h rx tx ka client).
Proof.
  intros k Hk. destruct (live_key_false k Hk) as (K1 & K2 & K3 & K4 & K5).
  unfold set_live. split.
  - rewrite !get_set_other; auto.
  - rewrite !has_set_other; auto.
Qed.

Lemma update_first_Forall2 (R : obj -> obj -> Prop) (p : obj -> bool) (f : obj -> obj)
    (l : list obj) :
  (forall v, R v v) -> (forall v, R v (f v)) -> Forall2 R l (update_first p f l).
Proof.
  intros Hrefl Hf. induction l as [|v rest IH]; simpl; [constructor|].
  destruct (p v); constructor; auto.
  clear IH. induction rest; constructor; auto.
Qed.

Lemma Forall2_trans_obj (R : obj -> obj -> Prop) (l1 l2 l3 : list obj) :
  (forall a b c, R a b -> R b c -> R a c) ->
  Forall2 R l1 l2 -> Forall2 R l2 l3 -> Forall2 R l1 l3.
Proof.
  intros Htrans H12. revert l3. induction H12; intros l3 H23; inversion H23; subst;
    constructor; eauto.
Qed.

Lemma merge_registry_fields (lines : list string) (views : list obj) :
  Forall2 same_registry_fields views (fold_left (merge_line rt) lines views).
Proof.
  revert views. induction lines as [|line rest IH]; intros views; simpl.
  - induction views; constructor; auto using same_registry_fields_refl.
  - apply Forall2_trans_obj with (l2 := merge_line rt views line).
    + apply same_registry_fields_trans.
    + unfold merge_line. apply update_first_Forall2.
      * apply same_registry_fields_refl.
      * intros v. apply set_live_registry_fields.
    + apply IH.
Qed.

Lemma getClients_loaded (w : world) (c : config) (dump : string) :
  configPromise w = Some (inr c) ->
  shell rt (length (execs w)) "wg show wg0 dump" = inr dump ->
  getClients env rt w
  = (inr (fold_left (merge_line rt) (dump_records dump) (map (client_view rt) (clients c))),
     log_exec "wg show wg0 dump" w).
Proof.
  intros H Hdump. unfold getClients, bind. rewrite (getConfig_loaded env rt w c H).
  unfold exec. rewrite Hdump. reflexivity.
Qed.

Lemma Forall2_nth_obj (R : obj -> obj -> Prop) (l l' : list obj) (i : nat) (a : obj) :
  Forall2 R l l' -> nth_error l i = Some a ->
  exists b, nth_error l' i = Some b /\ R a b.
Proof.
  intros H. revert i. induction H; intros [|i] Hi; simpl in *; try discriminate.
  - injection Hi as <-. eauto.
  - eauto.
Qed.

End Views.

(** X11. On a loaded cache, when the dump command succeeds, [getClients]
    only logs that command and returns one view per client of the map, in
    the order of the map.  Whatever the dump holds, the view of a client
    carries the client's [name], [enabled], [address] and [publicKey] and
    its id, tells in [downloadableConfig] whether the client has a
    [privateKey], and has no [privateKey] and no [preSharedKey] property:
    the secrets of the registry are not in the list. *)
Theorem getClients_views (env : Settings) (rt : Runtime) (w : world) (c : config)
    (dump : string) :
  configPromise w = Some (inr c) ->
  shell rt (length (execs w)) "wg show wg0 dump" = inr dump ->
  exists views,
    getClients env rt w = (inr views, log_exec "wg show wg0 dump" w) /\
    List.length views = List.length (clients c) /\
    forall i id client,
      nth_error (clients c) i = Some (id, client) ->
      exists view,
        nth_error views i = Some view /\
        get "id" view = JString id /\
        get "name" view = get "name" client /\
        get "enabled" view = get "enabled" client /\
        get "address" view = get "address" client /\
        get "publicKey" view = get "publicKey" client /\
        get "downloadableConfig" view = JBool (has "privateKey" client) /\
        get "privateKey" view = JUndefined /\ has "privateKey" view = false /\
        get "preSharedKey" view = JUndefined /\ has "preSharedKey" view = false.
Proof.
  intros H Hdump.
  exists (fold_left (merge_line rt) (dump_records dump) (map (client_view rt) (clients c))).
  split; [now apply getClients_loaded|].
  pose proof (merge_registry_fields rt (dump_records dump) (map (client_view rt) (clients c)))
    as Hsame.
  split.
  { rewrite <- (Forall2_length Hsame). apply length_map. }
  intros i id client Hi.
  assert (Hview : nth_error (map (client_view rt) (clients c)) i
                  = Some (client_view rt (id, client))).
  { rewrite nth_error_map, Hi. reflexivity. }
  destruct (Forall2_nth_obj _ _ _ i _ Hsame Hview) as (view & Hn & Hfields).
  exists view. split; [exact Hn|].
  repeat split;
    match goal with
    | |- get ?k view = _ => rewrite (proj1 (Hfields k eq_refl)); reflexivity
    | |- has ?k view = _ => rewrite (proj2 (Hfields k eq_refl)); reflexivity
    end.
Qed.

Lemma getClients_views_witness :
  let t := String tab EmptyString in
  let dump := "priv" ++ t ++ "pub" ++ t ++ "51820" ++ t ++ "off" ++ nl ++
              "pkA" ++ t ++ "pskA" ++ t ++ "203.0.113.7:51820" ++ t ++ "10.8.0.2/32" ++ t ++
              "1700000000" ++ t ++ "10" ++ t ++ "20" ++ t ++ "off" ++ nl in
  let a := [("name", JString "laptop"); ("publicKey", JString "pkA");
            ("privateKey", JString "secret"); ("preSharedKey", JString "pskA")] in
  let c := {| server := []; clients := [("a", a)] |} in
  exists views view,
    fst (getClients (Node.settings "true" "true") (Node.runtime dump) (Node.loaded c))
    = inr views /\
    nth_error views 0 = Some view /\
    get "downloadableConfig" view = JBool true /\
    has "privateKey" view = false /\ has "preSharedKey" view = false.
Proof.
  intros t dump a c.
  destruct (getClients_views (Node.settings "true" "true") (Node.runtime dump)
              (Node.loaded c) c dump eq_refl)
    as (views & Hrun & _ & Hviews).
  - vm_compute; reflexivity.
  - destruct (Hviews 0%nat "a" a eq_refl)
      as (view & Hn & _ & _ & _ & _ & _ & Hd & _ & Hp & _ & Hs).
    exists views, view. rewrite Hrun. auto.
Defined.

Section Metrics.

Variable env : Settings.
Variable rt : Runtime.

Lemma filter_cons_obj (p : obj -> bool) (a : obj) (l : list obj) :
  filter p (a :: l) = if p a then a :: filter p l else filter p l.
Proof. reflexivity. Qed.

Lemma enabled_count_same (l l' : list obj) :
  Forall2 same_registry_fields l l' ->
  List.length (filter enabled_view l') = List.length (filter enabled_view l).
Proof.
  induction 1 as [|a b l l' Hab _ IH]; [reflexivity|].
  rewrite !filter_cons_obj.
  assert (E : enabled_view b = enabled_view a).
  { unfold enabled_view. now rewrite (proj1 (Hab "enabled" eq_refl)). }
  rewrite E. destruct (enabled_view a); simpl; congruence.
Qed.

Lemma enabled_count_views (cs : list (string * obj)) :
  List.length (filter enabled_view (map (client_view rt) cs))
  = List.length (filter enabled_view (Object_values cs)).
Proof.
  induction cs as [|[id client] rest IH]; [reflexivity|].
  change (map (client_view rt) ((id, client) :: rest))
    with (client_view rt (id, client) :: map (client_view rt) rest).
  change (Object_values ((id, client) :: rest)) with (client :: Object_values rest).
  rewrite !filter_cons_obj.
  change (enabled_view (client_view rt (id, client))) with (enabled_view client).
  destruct (enabled_view client); simpl; congruence.
Qed.

Lemma connected_count_fresh (cs : list (string * obj)) :
  filter connected_view (map (client_view rt) cs) = [].
Proof.
  induction cs as [|[id client] rest IH]; simpl; [reflexivity|]. exact IH.
Qed.

Lemma connected_count_step (p : obj -> bool) (f : obj -> obj) (l : list obj) :
  (List.length (filter connected_view (update_first p f l))
   <= S (List.length (filter connected_view l)))%nat.
Proof.
  induction l as [|v rest IH]; [simpl; lia|].
  cbn [update_first]. destruct (p v); rewrite !filter_cons_obj.
  - destruct (connected_view (f v)), (connected_view v); simpl; lia.
  - destruct (connected_view v); simpl; lia.
Qed.

Lemma connected_count_fold (lines : list string) (views : list obj) :
  (List.length (filter connected_view (fold_left (merge_line rt) lines views))
   <= List.length lines + List.length (filter connected_view views))%nat.
Proof.
  revert views. induction lines as [|line rest IH]; intros views; simpl; [lia|].
  specialize (IH (merge_line rt views line)).
  pose proof (connected_count_step
                (fun client => strict_eq (get "publicKey" client) (element 0 (split tab line)))
                (set_live rt (element 2 (split tab line)) (element 4 (split tab line))
                   (element 5 (split tab line)) (element 6 (split tab line))
                   (element 7 (split tab line)))
                views) as Hstep.
  unfold merge_line in IH |- *. lia.
Qed.

End Metrics.

(** X12. On a loaded cache, when the dump command succeeds,
    [getMetricsJSON] only logs that command.  The configured count is the
    number of clients of the map; the enabled count is the number of
    clients whose [enabled] is strictly [true] in the map, whatever the
    dump holds; the connected count is at most the number of clients and at
    most the number of peer records of the dump. *)
Theorem getMetricsJSON_counts (env : Settings) (rt : Runtime) (w : world) (c : config)
    (dump : string) :
  configPromise w = Some (inr c) ->
  shell rt (length (execs w)) "wg show wg0 dump" = inr dump ->
  exists connected,
    getMetricsJSON env rt w
    = (inr [("wireguard_configured_peers", JNumber (Some (Z.of_nat (List.length (clients c)))));
            ("wireguard_enabled_peers",
             JNumber (Some (count_if (fun client => strict_eq (get "enabled" client) (JBool true))
                              (Object_values (clients c)))));
            ("wireguard_connected_peers", JNumber (Some connected))],
       log_exec "wg show wg0 dump" w) /\
    0 <= connected /\
    connected <= Z.of_nat (List.length (clients c)) /\
    connected <= Z.of_nat (List.length (dump_records dump)).
Proof.
  intros H Hdump.
  set (views := fold_left (merge_line rt) (dump_records dump)
                  (map (client_view rt) (clients c))).
  exists (Z.of_nat (List.length (filter connected_view views))).
  pose proof (merge_registry_fields rt (dump_records dump) (map (client_view rt) (clients c)))
    as Hsame.
  assert (Hlen : List.length views = List.length (clients c)).
  { unfold views. rewrite <- (Forall2_length Hsame). apply length_map. }
  split.
  - unfold getMetricsJSON, bind. rewrite (getClients_loaded env rt w c dump H Hdump).
    fold views. unfold ret, count_if. rewrite Hlen.
    change (fun client : obj => strict_eq (get "enabled" client) (JBool true))
      with enabled_view.
    unfold views at 1. rewrite (enabled_count_same _ _ Hsame), (enabled_count_views rt).
    reflexivity.
  - split; [lia|]. split.
    + pose proof (filter_length_le connected_view views). lia.
    + pose proof (connected_count_fold rt (dump_records dump)
                    (map (client_view rt) (clients c))) as Hc.
      rewrite (connected_count_fresh rt) in Hc. simpl in Hc. fold views in Hc. lia.
Qed.

Lemma getMetricsJSON_counts_witness :
  let t := String tab EmptyString in
  let dump := "priv" ++ t ++ "pub" ++ t ++ "51820" ++ t ++ "off" ++ nl ++
              "pkA" ++ t ++ "pskA" ++ t ++ "203.0.113.7:51820" ++ t ++ "10.8.0.2/32" ++ t ++
              "1700000000" ++ t ++ "10" ++ t ++ "20" ++ t ++ "off" ++ nl in
  let a := [("name", JString "laptop"); ("enabled", JBool true); ("publicKey", JString "pkA")] in
  let b := [("name", JString "phone"); ("enabled", JString "true"); ("publicKey", JString "pkB")] in
  let c := {| server := []; clients := [("a", a); ("b", b)] |} in
  exists connected,
    fst (getMetricsJSON (Node.settings "true" "true") (Node.runtime dump) (Node.loaded c))
    = inr [("wireguard_configured_peers", JNumber (Some 2));
           ("wireguard_enabled_peers", JNumber (Some 1));
           ("wireguard_connected_peers", JNumber (Some connected))] /\
    connected <= 1.
Proof.
  intros t dump a b c.
  destruct (getMetricsJSON_counts (Node.settings "true" "true") (Node.runtime dump)
              (Node.loaded c) c dump eq_refl)
    as (connected & Hrun & _ & _ & Hle).
  - vm_compute; reflexivity.
  - exists connected. rewrite Hrun. split; [reflexivity|].
    clear - Hle. vm_compute in Hle. exact Hle.
Defined.

(** ** A load that fails *)

Lemma getConfig_rejected (env : Settings) (rt : Runtime) (w : world) (e : exn) :
  configPromise w = Some (inl e) -> getConfig env rt w = (inl e, w).
Proof. intros H. unfold getConfig. now rewrite H. Qed.

Lemma getClient_rejected (env : Settings) (rt : Runtime) (w : world) (e : exn)
    (clientId : string) :
  configPromise w = Some (inl e) -> getClient env rt clientId w = (inl e, w).
Proof. intros H. unfold getClient, bind. now rewrite (getConfig_rejected env rt w e H). Qed.

(** X13. Once the promise of the configuration is rejected, the load is not
    tried again: [getConfig] and every method that starts by reading the
    configuration throw the error the promise holds, and write no file, run
    no command and read no clock ([createClient] does so when it is given a
    name). *)
Theorem rejected_load_is_permanent (env : Settings) (cenv : ClientSettings) (rt : Runtime)
    (lib : Libraries) (w : world) (e : exn) :
  configPromise w = Some (inl e) ->
  getConfig env rt w = (inl e, w) /\
  saveConfig env rt w = (inl e, w) /\
  getClients env rt w = (inl e, w) /\
  getMetricsJSON env rt w = (inl e, w) /\
  backupConfiguration env rt w = (inl e, w) /\
  cronJobEveryMinute env rt w = (inl e, w) /\
  (forall name expiredDate,
      truthy name = true -> createClient env rt name expiredDate w = (inl e, w)) /\
  forall clientId,
    getClient env rt clientId w = (inl e, w) /\
    getClientConfiguration env cenv rt clientId w = (inl e, w) /\
    deleteClient env rt clientId w = (inl e, w) /\
    enableClient env rt clientId w = (inl e, w) /\
    disableClient env rt clientId w = (inl e, w) /\
    eraseOneTimeLink env rt clientId w = (inl e, w) /\
    (forall random, generateOneTimeLink env rt lib clientId random w = (inl e, w)) /\
    (forall name, updateClientName env rt clientId name w = (inl e, w)) /\
    (forall address, updateClientAddress env rt lib clientId address w = (inl e, w)) /\
    (forall expireDate, updateClientExpireDate env rt clientId expireDate w = (inl e, w)).
Proof.
  intros H.
  pose proof (getConfig_rejected env rt w e H) as Hc.
  assert (Hg : forall clientId, getClient env rt clientId w = (inl e, w))
    by (intros; now apply getClient_rejected).
  repeat split; intros;
    unfold saveConfig, getMetricsJSON, getClients, backupConfiguration, cronJobEveryMinute,
      createClient, getClientConfiguration, deleteClient, enableClient, disableClient,
      eraseOneTimeLink, generateOneTimeLink, updateClientName, updateClientAddress,
      updateClientExpireDate;
    try match goal with Hn : truthy _ = true |- _ => rewrite Hn; cbn [negb] end;
    unfold bind; rewrite ?Hc, ?Hg; reflexivity.
Qed.

Lemma rejected_load_is_permanent_witness :
  let env := {| WG_HOST := JUndefined; WG_PORT := JString "51820";
                WG_DEFAULT_ADDRESS := "10.8.0.0/24";
                WG_PRE_UP := JString ""; WG_POST_UP := JString "";
                WG_PRE_DOWN := JString ""; WG_POST_DOWN := JString "";
                WG_ENABLE_EXPIRES_TIME := JString "true";
                WG_ENABLE_ONE_TIME_LINKS := JString "true" |} in
  let rt := Node.runtime "" in
  let e := Error "WG_HOST Environment Variable Not Set!" in
  let w := snd (getConfig env rt (Node.boot None)) in
  configPromise w = Some (inl e) /\
  getClients env rt w = (inl e, w) /\
  createClient env rt (JString "laptop") JUndefined w = (inl e, w) /\
  enableClient env rt "a" w = (inl e, w).
Proof.
  intros env rt e w.
  assert (H : configPromise w = Some (inl e)) by reflexivity.
  destruct (rejected_load_is_permanent env NodeLib.client_settings rt NodeLib.libraries w e H)
    as (_ & _ & Hclients & _ & _ & _ & Hcreate & Hby).
  destruct (Hby "a") as (_ & _ & _ & Henable & _).
  repeat split; auto.
Defined.

Section Loading.

Variable env : Settings.
Variable rt : Runtime.

Lemma buildConfig_from_file (w : world) (doc : snapshot_doc) :
  wg0_json w = Some doc ->
  truthy (WG_HOST env) = true ->
  __buildConfig env rt w
  = (inr (JSON_parse doc), with_promise (Some (inr (JSON_parse doc))) w).
Proof.
  intros Hfile Hhost. unfold __buildConfig, buildConfig_body. rewrite Hhost. cbn [negb].
  unfold catch, bind, readFile_wg0_json. rewrite Hfile. reflexivity.
Qed.

Lemma buildConfig_host_unset (w : world) :
  truthy (WG_HOST env) = false ->
  __buildConfig env rt w
  = (inl (Error "WG_HOST Environment Variable Not Set!"),
     with_promise (Some (inl (Error "WG_HOST Environment Variable Not Set!"))) w).
Proof.
  intros Hhost. unfold __buildConfig, buildConfig_body. rewrite Hhost. reflexivity.
Qed.

(** The outcome of the three commands that follow [__saveConfig] in the
    first [getConfig]: the outcome of [wg-quick down wg0] plays no part. *)
Lemma bring_up_outcome (c : config) (w : world) :
  (catch (exec rt "wg-quick down wg0" ;;; ret tt) (fun _ => ret tt) ;;;
   catch (exec rt "wg-quick up wg0" ;;; ret tt)
     (fun err =>
        if includes no_device (message_of err)
        then throw (Error no_kernel_support)
        else throw err) ;;;
   __syncConfig rt ;;;
   ret c) w
  = match shell rt (S (length (execs w))) "wg-quick up wg0" with
    | inl err =>
        (inl (if includes no_device (message_of err) then Error no_kernel_support else err),
         log_exec "wg-quick up wg0" (log_exec "wg-quick down wg0" w))
    | inr _ =>
        match shell rt (S (S (length (execs w)))) sync_command with
        | inl e =>
            (inl e,
             log_exec sync_command
               (log_exec "wg-quick up wg0" (log_exec "wg-quick down wg0" w)))
        | inr _ =>
            (inr c,
             log_exec sync_command
               (log_exec "wg-quick up wg0" (log_exec "wg-quick down wg0" w)))
        end
    end.
Proof.
  unfold __syncConfig, catch, bind, exec, ret, throw. fold sync_command.
  destruct (shell rt (length (execs w)) "wg-quick down wg0");
    cbn [fst snd execs log_exec length];
    (destruct (shell rt (S (length (execs w))) "wg-quick up wg0") as [err|out];
     [destruct (includes no_device (message_of err)); reflexivity|]);
    cbn [fst snd execs log_exec length];
    destruct (shell rt (S (S (length (execs w)))) sync_command); reflexivity.
Qed.

Lemma getConfig_from_file (w : world) (doc : snapshot_doc) :
  configPromise w = None ->
  wg0_json w = Some doc ->
  truthy (WG_HOST env) = true ->
  getConfig env rt w
  = (catch (exec rt "wg-quick down wg0" ;;; ret tt) (fun _ => ret tt) ;;;
     catch (exec rt "wg-quick up wg0" ;;; ret tt)
       (fun err =>
          if includes no_device (message_of err)
          then throw (Error no_kernel_support)
          else throw err) ;;;
     __syncConfig rt ;;;
     ret (JSON_parse doc))
      (put_conf (render env rt (JSON_parse doc))
         (put_json (JSON_stringify rt (JSON_parse doc))
            (with_promise (Some (inr (JSON_parse doc))) w))).
Proof.
  intros Hnone Hfile Hhost. unfold getConfig. rewrite Hnone.
  unfold bind at 1. rewrite (buildConfig_from_file w doc Hfile Hhost).
  unfold bind at 1. rewrite saveConfig_writes. reflexivity.
Qed.

End Loading.

(** X14. When [WG_HOST] is not set, the first [getConfig] throws the error
    that says so and only stores the rejected promise, whether [wg0.json]
    exists or not.  [restoreConfiguration] then writes both files from the
    document it is given and throws the same error: the daemon is not
    synchronised and the cache is left rejected. *)
Theorem host_unset_blocks_load (env : Settings) (rt : Runtime) (w : world)
    (text : snapshot_doc) :
  truthy (WG_HOST env) = false ->
  let e := Error "WG_HOST Environment Variable Not Set!" in
  (configPromise w = None ->
   getConfig env rt w = (inl e, with_promise (Some (inl e)) w)) /\
  restoreConfiguration env rt text w
  = (inl e,
     with_promise (Some (inl e))
       (put_conf (render env rt (JSON_parse text))
          (put_json (JSON_stringify rt (JSON_parse text)) w))).
Proof.
  intros Hhost e. split.
  - intros Hnone. unfold getConfig. rewrite Hnone. unfold bind at 1.
    rewrite (buildConfig_host_unset env rt w Hhost). reflexivity.
  - unfold restoreConfiguration. unfold bind at 1. rewrite saveConfig_writes.
    unfold __reloadConfig. unfold bind at 1.
    rewrite (buildConfig_host_unset env rt _ Hhost). reflexivity.
Qed.

Lemma host_unset_blocks_load_witness :
  let env := {| WG_HOST := JString ""; WG_PORT := JString "51820";
                WG_DEFAULT_ADDRESS := "10.8.0.0/24";
                WG_PRE_UP := JString ""; WG_POST_UP := JString "";
                WG_PRE_DOWN := JString ""; WG_POST_DOWN := JString "";
                WG_ENABLE_EXPIRES_TIME := JString "true";
                WG_ENABLE_ONE_TIME_LINKS := JString "true" |} in
  let rt := Node.runtime "" in
  let doc := {| doc_server := [("privateKey", JsonString "k")]; doc_clients := [] |} in
  let w1 := snd (restoreConfiguration env rt doc (Node.boot None)) in
  fst (getConfig env rt (Node.boot (Some doc)))
  = inl (Error "WG_HOST Environment Variable Not Set!") /\
  wg0_json w1 = Some doc /\
  configPromise w1 = Some (inl (Error "WG_HOST Environment Variable Not Set!")) /\
  execs w1 = [].
Proof.
  intros env rt doc w1.
  assert (Hhost : truthy (WG_HOST env) = false) by reflexivity.
  split.
  - rewrite (proj1 (host_unset_blocks_load env rt (Node.boot (Some doc)) doc Hhost) eq_refl).
    reflexivity.
  - unfold w1.
    rewrite (proj2 (host_unset_blocks_load env rt (Node.boot None) doc Hhost)).
    repeat split.
Defined.

(** X15. A first [getConfig] that finds [wg0.json] and whose
    [wg-quick up wg0] fails throws: the kernel-support error when the
    message of the failure contains [Cannot find device "wg0"], the failure
    itself otherwise.  The daemon is not synchronised, but both files are
    written and the promise holds the configuration read: the next
    [getConfig] returns it without running any command, so the failure is
    reported once. *)
Theorem failed_bring_up_reported_once (env : Settings) (rt : Runtime) (w : world)
    (doc : snapshot_doc) (err : exn) :
  configPromise w = None ->
  wg0_json w = Some doc ->
  truthy (WG_HOST env) = true ->
  shell rt (S (length (execs w))) "wg-quick up wg0" = inl err ->
  let w1 := snd (getConfig env rt w) in
  fst (getConfig env rt w)
  = inl (if includes no_device (message_of err) then Error no_kernel_support else err) /\
  execs w1 = "wg-quick up wg0" :: "wg-quick down wg0" :: execs w /\
  wg0_json w1 = Some (JSON_stringify rt (JSON_parse doc)) /\
  wg0_conf w1 = Some (render env rt (JSON_parse doc)) /\
  getConfig env rt w1 = (inr (JSON_parse doc), w1).
Proof.
  intros Hnone Hfile Hhost Hup w1.
  assert (Hrun : getConfig env rt w
                 = (inl (if includes no_device (message_of err)
                         then Error no_kernel_support else err),
                    log_exec "wg-quick up wg0"
                      (log_exec "wg-quick down wg0"
                         (put_conf (render env rt (JSON_parse doc))
                            (put_json (JSON_stringify rt (JSON_parse doc))
                               (with_promise (Some (inr (JSON_parse doc))) w)))))).
  { rewrite (getConfig_from_file env rt w doc Hnone Hfile Hhost), bring_up_outcome.
    cbn [execs put_conf put_json with_promise]. rewrite Hup. reflexivity. }
  unfold w1. rewrite Hrun. cbn [fst snd].
  repeat split.
Qed.

Lemma failed_bring_up_reported_once_witness :
  let failing :=
    Build_Runtime Node.clock
      (fun n cmd =>
         if String.eqb cmd "wg-quick up wg0"
         then inl (Error ("Command failed: Cannot find device " ++ dquote ++ "wg0" ++ dquote))
         else inr "")
      Node.uuid Node.Object_prototype Node.ip_cidrSubnet Node.ip_toLong Node.ip_fromLong Node.Number_of_string
      Node.Date_parse Node.Date_toISOString Node.Date_toString Node.Date_setHours
      Node.Date_setMinutes Node.Date_setSeconds in
  let env := Node.settings "true" "true" in
  let doc := {| doc_server := [("privateKey", JsonString "k")]; doc_clients := [] |} in
  let w1 := snd (getConfig env failing (Node.boot (Some doc))) in
  fst (getConfig env failing (Node.boot (Some doc))) = inl (Error no_kernel_support) /\
  getConfig env failing w1 = (inr (JSON_parse doc), w1).
Proof.
  intros failing env doc w1.
  destruct (failed_bring_up_reported_once env failing (Node.boot (Some doc)) doc
              (Error ("Command failed: Cannot find device " ++ dquote ++ "wg0" ++ dquote))
              eq_refl eq_refl eq_refl eq_refl)
    as (Hfst & _ & _ & _ & Hnext).
  split; [exact Hfst | exact Hnext].
Defined.

(** X16. A first [getConfig] that finds [wg0.json] takes the configuration
    from it and generates no key: when [wg-quick up wg0] and the
    synchronisation succeed it returns the configuration read, caches it,
    writes it back to [wg0.json], renders it to [wg0.conf], and runs
    exactly [wg-quick down wg0], [wg-quick up wg0] and the synchronisation,
    in this order, whether [wg-quick down wg0] fails or not. *)
Theorem load_existing_file (env : Settings) (rt : Runtime) (w : world)
    (doc : snapshot_doc) (out1 out2 : string) :
  configPromise w = None ->
  wg0_json w = Some doc ->
  truthy (WG_HOST env) = true ->
  shell rt (S (length (execs w))) "wg-quick up wg0" = inr out1 ->
  shell rt (S (S (length (execs w)))) sync_command = inr out2 ->
  let w1 := snd (getConfig env rt w) in
  fst (getConfig env rt w) = inr (JSON_parse doc) /\
  configPromise w1 = Some (inr (JSON_parse doc)) /\
  wg0_json w1 = Some (JSON_stringify rt (JSON_parse doc)) /\
  wg0_conf w1 = Some (render env rt (JSON_parse doc)) /\
  fs_writes w1 = "wg0.conf" :: "wg0.json" :: fs_writes w /\
  execs w1 = sync_command :: "wg-quick up wg0" :: "wg-quick down wg0" :: execs w.
Proof.
  intros Hnone Hfile Hhost Hup Hsync w1.
  assert (Hrun : getConfig env rt w
                 = (inr (JSON_parse doc),
                    log_exec sync_command
                      (log_exec "wg-quick up wg0"
                         (log_exec "wg-quick down wg0"
                            (put_conf (render env rt (JSON_parse doc))
                               (put_json (JSON_stringify rt (JSON_parse doc))
                                  (with_promise (Some (inr (JSON_parse doc))) w))))))).
  { rewrite (getConfig_from_file env rt w doc Hnone Hfile Hhost), bring_up_outcome.
    cbn [execs put_conf put_json with_promise]. rewrite Hup, Hsync. reflexivity. }
  unfold w1. rewrite Hrun. cbn [fst snd]. repeat split.
Qed.

Lemma load_existing_file_witness :
  let down_fails :=
    Build_Runtime Node.clock
      (fun n cmd =>
         if String.eqb cmd "wg-quick down wg0"
         then inl (Error "wg-quick: `wg0' is not a WireGuard interface")
         else inr "")
      Node.uuid Node.Object_prototype Node.ip_cidrSubnet Node.ip_toLong Node.ip_fromLong Node.Number_of_string
      Node.Date_parse Node.Date_toISOString Node.Date_toString Node.Date_setHours
      Node.Date_setMinutes Node.Date_setSeconds in
  let env := Node.settings "true" "true" in
  let doc := {| doc_server := [("privateKey", JsonString "k")];
                doc_clients := [("a", [("name", JsonString "laptop");
                                       ("enabled", JsonBool true)])] |} in
  let w1 := snd (getConfig env down_fails (Node.boot (Some doc))) in
  fst (getConfig env down_fails (Node.boot (Some doc))) = inr (JSON_parse doc) /\
  wg0_json w1 = Some doc /\
  execs w1 = [sync_command; "wg-quick up wg0"; "wg-quick down wg0"].
Proof.
  intros down_fails env doc w1.
  destruct (load_existing_file env down_fails (Node.boot (Some doc)) doc "" ""
              eq_refl eq_refl eq_refl eq_refl eq_refl)
    as (Hfst & _ & Hjson & _ & _ & Hexecs).
  split; [exact Hfst|]. split; [exact Hjson | exact Hexecs].
Defined.

(** ** The files and the cache *)

Section InSync.

Variable env : Settings.
Variable cenv : ClientSettings.
Variable rt : Runtime.
Variable lib : Libraries.











End InSync.



(** ** The rendering after a client is switched off or deleted *)

Section Dropped.

Variable env : Settings.
Variable rt : Runtime.

Lemma filter_absent_key (id : string) (cs : list (string * obj)) :
  ~ In id (map fst cs) ->
  filter (fun e => is_enabled (snd e) && negb (String.eqb id (fst e))) cs
  = filter (fun e => is_enabled (snd e)) cs.
Proof.
  induction cs as [|[k c0] rest IH]; intros Hin; simpl in *; [reflexivity|].
  assert (Hk : String.eqb id k = false).
  { apply String.eqb_neq. intros ->. tauto. }
  rewrite Hk, andb_true_r. rewrite IH by tauto. reflexivity.
Qed.

Lemma filter_switched_off (id : string) (f : obj -> obj) (cs : list (string * obj)) :
  NoDup (map fst cs) ->
  (forall o, is_enabled (f o) = false) ->
  filter (fun e => is_enabled (snd e)) (update_client id f cs)
  = filter (fun e => is_enabled (snd e) && negb (String.eqb id (fst e))) cs.
Proof.
  intros Hnd Hoff. induction cs as [|[k c0] rest IH]; simpl in *; [reflexivity|].
  inversion Hnd as [|? ? Hnotin Hrest]; subst.
  destruct (String.eqb id k) eqn:E; simpl.
  - apply String.eqb_eq in E. subst k. rewrite Hoff, andb_false_r.
    now rewrite filter_absent_key.
  - rewrite andb_true_r. rewrite IH by assumption. reflexivity.
Qed.

Lemma filter_removed (id : string) (cs : list (string * obj)) :
  filter (fun e => is_enabled (snd e)) (remove_client id cs)
  = filter (fun e => is_enabled (snd e) && negb (String.eqb id (fst e))) cs.
Proof.
  unfold remove_client. induction cs as [|[k c0] rest IH]; simpl; [reflexivity|].
  destruct (String.eqb id k); simpl.
  - rewrite andb_false_r. exact IH.
  - rewrite andb_true_r. destruct (is_enabled c0); now rewrite IH.
Qed.

End Dropped.

(** X18. For a client of the loaded cache (a key occurs once in the map),
    [disableClient] and [deleteClient] leave the same [wg0.conf]: the
    interface block followed by the blocks of the other clients whose
    [enabled] is truthy, each as the configuration had it before the call
    and in the order of the map.  Switching a client off removes its block
    and only its block. *)
Theorem disable_and_delete_render_alike (env : Settings) (rt : Runtime) (w : world)
    (c : config) (clientId : string) (client : obj) :
  configPromise w = Some (inr c) ->
  NoDup (map fst (clients c)) ->
  lookup_client clientId (clients c) = Some client ->
  let others :=
    filter (fun e => is_enabled (snd e) && negb (String.eqb clientId (fst e))) (clients c) in
  let text :=
    (interface_block env rt (server c)
     ++ join (map (fun e => peer_block rt (fst e) (snd e)) others))%string in
  wg0_conf (snd (disableClient env rt clientId w)) = Some text /\
  wg0_conf (snd (deleteClient env rt clientId w)) = Some text.
Proof.
  intros H Hnd Hc others text. split.
  - unfold disableClient.
    rewrite (assign_stamp_save env rt w c clientId "enabled" (JBool false) client H Hc).
    cbv zeta. cbn [snd persisted log_exec put_conf wg0_conf]. f_equal.
    unfold render. rewrite render_clients_join. cbn [touched server clients].
    unfold text, others. f_equal. f_equal. f_equal.
    apply filter_switched_off; [exact Hnd|].
    intros o. unfold is_enabled.
    rewrite get_set_other by discriminate. now rewrite get_set_same.
  - rewrite (deleteClient_present env rt w c clientId client H Hc).
    cbv zeta. cbn [snd persisted log_exec put_conf wg0_conf]. f_equal.
    unfold render. rewrite render_clients_join. cbn [server clients].
    unfold text, others. f_equal. f_equal. f_equal. apply filter_removed.
Qed.

Lemma disable_and_delete_render_alike_witness :
  let env := Node.settings "true" "true" in
  let rt := Node.runtime "" in
  let a := [("name", JString "laptop"); ("enabled", JBool true); ("publicKey", JString "pkA");
            ("address", JString "10.8.0.2")] in
  let b := [("name", JString "phone"); ("enabled", JBool true); ("publicKey", JString "pkB");
            ("address", JString "10.8.0.3")] in
  let c := {| server := [("privateKey", JString "priv"); ("address", JString "10.8.0.1")];
              clients := [("a", a); ("b", b)] |} in
  wg0_conf (snd (disableClient env rt "a" (Node.loaded c)))
  = Some (interface_block env rt (server c) ++ peer_block rt "b" b)%string /\
  wg0_conf (snd (deleteClient env rt "a" (Node.loaded c)))
  = wg0_conf (snd (disableClient env rt "a" (Node.loaded c))).
Proof.
  intros env rt a b c.
  assert (Hnd : NoDup (map fst (clients c))).
  { repeat constructor; simpl; intuition discriminate. }
  destruct (disable_and_delete_render_alike env rt (Node.loaded c) c "a" a eq_refl Hnd eq_refl)
    as (Hdisable & Hdelete).
  split.
  - rewrite Hdisable. reflexivity.
  - rewrite Hdisable, Hdelete. reflexivity.
Defined.

(** ** The toggles of the cron job *)

(** X19. The two loops of [cronJobEveryMinute] run only when their setting
    is the string ['true']: with both settings anything else (the boolean
    [true], ['TRUE'], ['1'], undefined), a run on a loaded cache returns
    without reading the clock, changing a client, writing a file or running
    a command, however long ago the clients expired. *)
Theorem cron_needs_the_string_true (env : Settings) (rt : Runtime) (w : world) (c : config) :
  configPromise w = Some (inr c) ->
  WG_ENABLE_EXPIRES_TIME env <> JString "true" ->
  WG_ENABLE_ONE_TIME_LINKS env <> JString "true" ->
  cronJobEveryMinute env rt w = (inr tt, w).
Proof.
  intros H H1 H2.
  assert (E1 : strict_eq (WG_ENABLE_EXPIRES_TIME env) (JString "true") = false).
  { destruct (strict_eq (WG_ENABLE_EXPIRES_TIME env) (JString "true")) eqn:E; auto.
    apply strict_eq_true in E. contradiction. }
  assert (E2 : strict_eq (WG_ENABLE_ONE_TIME_LINKS env) (JString "true") = false).
  { destruct (strict_eq (WG_ENABLE_ONE_TIME_LINKS env) (JString "true")) eqn:E; auto.
    apply strict_eq_true in E. contradiction. }
  unfold cronJobEveryMinute. unfold bind at 1. rewrite (getConfig_loaded env rt w c H).
  rewrite E1, E2. unfold bind, ret, mutate_clients. cbn [fst snd]. rewrite H. cbn [orb].
  f_equal. destruct w as [p j f ws es n u], c as [s cs]. cbn in H. subst p. reflexivity.
Qed.

Lemma cron_needs_the_string_true_witness :
  let env := {| WG_HOST := JString "vpn.example.org"; WG_PORT := JString "51820";
                WG_DEFAULT_ADDRESS := "10.8.0.0/24";
                WG_PRE_UP := JString ""; WG_POST_UP := JString "";
                WG_PRE_DOWN := JString ""; WG_POST_DOWN := JString "";
                WG_ENABLE_EXPIRES_TIME := JBool true;
                WG_ENABLE_ONE_TIME_LINKS := JString "TRUE" |} in
  let a := [("name", JString "laptop"); ("enabled", JBool true);
            ("expiredAt", JString "2001-01-01T23:59:59.000Z");
            ("oneTimeLink", JString "6daa31f2");
            ("oneTimeLinkExpiresAt", JString "2001-01-01T00:05:00.000Z")] in
  let c := {| server := []; clients := [("a", a)] |} in
  cronJobEveryMinute env (Node.runtime "") (Node.loaded c) = (inr tt, Node.loaded c).
Proof.
  intros env a c.
  apply (cron_needs_the_string_true env (Node.runtime "") (Node.loaded c) c eq_refl);
    discriminate.
Defined.

(** ** Key generation that fails *)

(** X20. On a first [getConfig] that cannot read [wg0.json], a failure of
    [wg genkey] is what the call throws.  Nothing is written, the interface
    is not brought up and the daemon is not synchronised: the only command
    run is [wg genkey].  The promise is left rejected, so the next
    [getConfig] throws the same error without generating a key again, also
    when the command would now succeed. *)
Theorem failed_key_generation (env : Settings) (rt : Runtime) (w : world) (e : exn) :
  configPromise w = None ->
  wg0_json w = None ->
  truthy (WG_HOST env) = true ->
  shell rt (length (execs w)) "wg genkey" = inl e ->
  let w1 := with_promise (Some (inl e)) (log_exec "wg genkey" w) in
  getConfig env rt w = (inl e, w1) /\
  getConfig env rt w1 = (inl e, w1).
Proof.
  intros Hnone Hfile Hhost Hkey w1. split.
  - unfold getConfig. rewrite Hnone. unfold bind at 1.
    unfold __buildConfig, buildConfig_body. rewrite Hhost. cbn [negb].
    unfold catch, bind, readFile_wg0_json, exec. rewrite Hfile, Hkey. reflexivity.
  - reflexivity.
Qed.

Lemma failed_key_generation_witness :
  let first_fails :=
    Build_Runtime Node.clock
      (fun n cmd => if (n =? 0)%nat then inl (Error "wg: command not found") else inr "key")
      Node.uuid Node.Object_prototype Node.ip_cidrSubnet Node.ip_toLong Node.ip_fromLong Node.Number_of_string
      Node.Date_parse Node.Date_toISOString Node.Date_toString Node.Date_setHours
      Node.Date_setMinutes Node.Date_setSeconds in
  let env := Node.settings "true" "true" in
  let w1 := snd (getConfig env first_fails (Node.boot None)) in
  fst (getConfig env first_fails (Node.boot None)) = inl (Error "wg: command not found") /\
  shell first_fails (length (execs w1)) "wg genkey" = inr "key" /\
  getConfig env first_fails w1 = (inl (Error "wg: command not found"), w1) /\
  fs_writes w1 = [] /\ execs w1 = ["wg genkey"].
Proof.
  intros first_fails env w1.
  destruct (failed_key_generation env first_fails (Node.boot None)
              (Error "wg: command not found") eq_refl eq_refl eq_refl eq_refl)
    as (Hfirst & Hnext).
  unfold w1. rewrite Hfirst. cbn [fst snd].
  split; [reflexivity|]. split; [reflexivity|]. split; [exact Hnext|]. split; reflexivity.
Defined.
